(** * MailSystem API: access gate and mail relay of [main.py]

    A shallow embedding of the FastAPI application in [src/main.py]:
    the API-key check, the client-IP resolution, the allowlist matcher,
    the documentation middleware, the request schema and the SMTP relay,
    followed by the properties the specification states about them.

    Conventions.
    - A Python [str] is a Rocq [string]; a character is an 8-bit code
      point (Starlette decodes header values as Latin-1).  Non-ASCII
      literals of the source appear as their UTF-8 bytes.
    - [Optional[str]] is [option string]; Python truthiness of such a
      value is [truthy].
    - [os.environ] is a [gmap string string].
    - Effects are explicit: a computation returns the events it produced
      (log records, entries into functions of [main.py], SMTP operations)
      together with a value or a raised exception.
    - The Python standard library and third-party functions the program
      calls ([ipaddress], [base64], [int], e-mail validation) are an
      interface, [PyLib]; the theorems hold for every implementation of
      it, and [CPython] gives one implementation to run examples on. *)

From stdpp Require Import base tactics option list strings pretty gmap.
From Stdlib Require Import ZArith Ascii String.
From Stdlib.Strings Require Import Byte.

Open Scope string_scope.
Open Scope Z_scope.

(** ** Python built-ins on strings *)

Module Py.

(** Truthiness of an [Optional[str]]: [None] and the empty string are false. *)
Definition truthy (o : option string) : bool :=
  match o with
  | Some s => negb (bool_decide (s = EmptyString))
  | None => false
  end.

(** [str.isspace] on one character, for code points below 256:
    TAB..CR, FS..US, SPACE, NEL and NBSP. *)
Definition isspace (c : ascii) : bool :=
  let n := nat_of_ascii c in
  ((9 <=? n) && (n <=? 13) || (28 <=? n) && (n <=? 32)
   || (n =? 133) || (n =? 160))%nat.

Fixpoint lstrip (s : string) : string :=
  match s with
  | EmptyString => EmptyString
  | String c s' => if isspace c then lstrip s' else s
  end.

Fixpoint rstrip (s : string) : string :=
  match s with
  | EmptyString => EmptyString
  | String c s' =>
      let r := rstrip s' in
      if isspace c && bool_decide (r = EmptyString) then EmptyString else String c r
  end.

(** [s.strip()] *)
Definition strip (s : string) : string := rstrip (lstrip s).

(** [s.split(sep)] for a one-character separator: never the empty list. *)
Fixpoint split (sep : ascii) (s : string) : list string :=
  match s with
  | EmptyString => [EmptyString]
  | String c s' =>
      if bool_decide (c = sep) then EmptyString :: split sep s'
      else match split sep s' with
           | [] => [String c EmptyString]
           | w :: ws => String c w :: ws
           end
  end.

(** [sep.join(l)] *)
Fixpoint join (sep : string) (l : list string) : string :=
  match l with
  | [] => EmptyString
  | [x] => x
  | x :: l' => x +:+ sep +:+ join sep l'
  end.

(** [c in s] for a one-character [c] *)
Fixpoint contains (c : ascii) (s : string) : bool :=
  match s with
  | EmptyString => false
  | String d s' => bool_decide (c = d) || contains c s'
  end.

(** [s.count(c)] for a one-character [c] *)
Fixpoint count (c : ascii) (s : string) : nat :=
  match s with
  | EmptyString => 0%nat
  | String d s' => ((if bool_decide (c = d) then 1 else 0) + count c s')%nat
  end.

(** [s.startswith(p)] *)
Definition startswith (s p : string) : bool := String.prefix p s.

Definition lower_char (c : ascii) : ascii :=
  let n := nat_of_ascii c in
  if ((65 <=? n) && (n <=? 90))%nat then ascii_of_nat (n + 32) else c.

(** [s.lower()], on ASCII letters *)
Fixpoint lower (s : string) : string :=
  match s with
  | EmptyString => EmptyString
  | String c s' => String (lower_char c) (lower s')
  end.

End Py.

(** ** Exceptions, events and the effect monad *)

Inductive exn : Type :=
  | HTTPException (status_code : Z) (detail : string)
                  (headers : list (string * string))
  | RequestValidationError (fields : list string)
  | ValueError (msg : string)
  | SMTPAuthenticationError (msg : string)
  | SMTPException (msg : string)
  | OtherException (msg : string).

(** [str(e)] for the exceptions whose text the program prints. *)
Definition exn_str (e : exn) : string :=
  match e with
  | HTTPException _ d _ => d
  | RequestValidationError _ => "validation error"
  | ValueError m | SMTPAuthenticationError m | SMTPException m
  | OtherException m => m
  end.

Inductive level : Type := INFO | WARNING | ERROR.

(** Functions of [main.py] whose entry is recorded in the trace. *)
Inductive fn : Type :=
  | fn_verify_api_key
  | fn_verify_access
  | fn_verify_ip_address
  | fn_validate_body
  | fn_send_email
  | fn_decode_base64_attachment.

(** A MIME part and message as [send_email] builds them. *)
Inductive mime_part : Type :=
  | MIMEText (text subtype charset : string)
  | MIMEBase (payload : list byte) (content_type : string)
             (disposition : string).

Record mime_message : Type := MkMessage {
  msg_From : option string;
  msg_To : string;
  msg_Subject : string;
  msg_parts : list mime_part
}.

Inductive smtp_op : Type :=
  | smtp_connect_ssl (server : option string) (port : Z)
  | smtp_connect (server : option string) (port : Z)
  | smtp_starttls
  | smtp_login (user password : option string)
  | smtp_send_message (msg : mime_message)
  | smtp_quit.

Inductive event : Type :=
  | Log (l : level) (msg : string)
  | Enter (f : fn)
  | Smtp (op : smtp_op).

Inductive result (A : Type) : Type :=
  | Ok (a : A)
  | Raise (e : exn).
Arguments Ok {A} a.
Arguments Raise {A} e.

(** A computation: the events it produced, oldest first, and its outcome. *)
Definition M (A : Type) : Type := list event * result A.

Definition ret {A} (a : A) : M A := ([], Ok a).
Definition raise {A} (e : exn) : M A := ([], Raise e).
Definition emit (ev : event) : M unit := ([ev], Ok tt).
Definition log (l : level) (msg : string) : M unit := emit (Log l msg).

Definition bind {A B} (m : M A) (k : A → M B) : M B :=
  match m with
  | (t, Ok a) => let '(t', r) := k a in ((t ++ t')%list, r)
  | (t, Raise e) => (t, Raise e)
  end.

(** [try: m except Exception as e: h e] *)
Definition catch {A} (m : M A) (h : exn → M A) : M A :=
  match m with
  | (t, Ok a) => (t, Ok a)
  | (t, Raise e) => let '(t', r) := h e in ((t ++ t')%list, r)
  end.

Declare Scope py_scope.
Delimit Scope py_scope with py.
Notation "x <- m ;; k" := (bind m (fun x => k))
  (at level 100, m at next level, k at level 200, right associativity)
  : py_scope.
Notation "m ;; k" := (bind m (fun _ => k))
  (at level 100, k at level 200, right associativity) : py_scope.
Open Scope py_scope.

Definition trace {A} (m : M A) : list event := fst m.
Definition outcome {A} (m : M A) : result A := snd m.

(** ** External collaborators *)

(** The library functions [main.py] calls.  [None] stands for a raised
    [ValueError] (of which [AddressValueError], [NetmaskValueError] and
    [binascii.Error] are subclasses). *)
Class PyLib : Type := {
  IPAddress : Type;
  IPNetwork : Type;
  (** [ipaddress.ip_address(s)] *)
  ip_address : string → option IPAddress;
  (** [ipaddress.ip_network(s, strict=b)] *)
  ip_network : string → bool → option IPNetwork;
  (** [addr in net] *)
  ip_in : IPAddress → IPNetwork → bool;
  (** [base64.b64decode(s)]; [inl m] is an exception with [str(e) = m] *)
  b64decode : string → string + list byte;
  (** [int(s)] *)
  int_of_str : string → option Z;
  (** validation of a pydantic [EmailStr]: the normalised address *)
  validate_email : string → option string
}.

(** The SMTP server and the clock, as seen by one request: which SMTP
    step, if any, raises. *)
Record World : Type := MkWorld {
  w_connect : option exn;
  w_starttls : option exn;
  w_login : option exn;
  w_send_message : option exn;
  w_quit : option exn;
  w_now_isoformat : string
}.

(** ** Requests, responses and configuration *)

Record Address : Type := MkAddress { host : string; port : Z }.

(** A Starlette request: URL path, raw header list (names in lower case,
    as ASGI delivers them) and the transport peer, when known. *)
Record Request : Type := MkRequest {
  url_path : string;
  headers : list (string * string);
  client : option Address
}.

(** [request.headers.get(key)]: the key is lower-cased and the first raw
    header of that name wins. *)
Definition headers_get (req : Request) (key : string) : option string :=
  snd <$> List.find (λ kv, bool_decide (kv.1 = Py.lower key)) (headers req).

Abbreviation environ := (gmap string string).

(** [os.getenv(name)] and [os.getenv(name, default)] *)
Definition getenv (env : environ) (name : string) : option string :=
  env !! name.
Definition getenv_or (env : environ) (name dflt : string) : string :=
  default dflt (env !! name).

Record Attachment : Type := MkAttachment {
  filename : string;
  content : string;
  content_type : option string
}.

Record EmailRequest : Type := MkEmailRequest {
  subject : string;
  body : string;
  recipients : list string;
  attachments : option (list Attachment);
  is_html : bool
}.

Record EmailResponse : Type := MkEmailResponse {
  success : bool;
  message : string;
  timestamp : string;
  response_recipients : list string
}.

Inductive Response : Type :=
  | JSONResponse (status_code : Z) (content : list (string * string))
  | ModelResponse (r : EmailResponse)
  | PageResponse (page : string).

(** ** Security configuration *)

(** [get_allowed_ips()] *)
Definition get_allowed_ips (env : environ) : list string :=
  let allowed_ips_str := getenv_or env "ALLOWED_IPS" EmptyString in
  if bool_decide (allowed_ips_str = EmptyString) then []
  else
    Py.strip <$>
      List.filter (λ ip, negb (bool_decide (Py.strip ip = EmptyString)))
                  (Py.split "," allowed_ips_str).

(** [get_api_key()] *)
Definition get_api_key (env : environ) : option string :=
  getenv env "API_KEY".

(** [APIKeyHeader(name="X-API-Key", auto_error=False)]: the header value,
    or [None] when it is missing or empty. *)
Definition api_key_header (req : Request) : option string :=
  let api_key := headers_get req "X-API-Key" in
  if Py.truthy api_key then api_key else None.

Section Program.
Context {lib : PyLib}.

(** *** [verify_ip_address] *)

(** The [try] block of the loop for one entry: [Some true] is
    [return True], [Some false] falls through to the next entry and
    [None] is a [ValueError] raised by [ipaddress]. *)
Definition check_entry (client_ip allowed_ip : string) : option bool :=
  if Py.contains "/" allowed_ip then
    addr ← ip_address client_ip;
    net ← ip_network allowed_ip false;
    Some (ip_in addr net)
  else Some (bool_decide (client_ip = allowed_ip)).

(** The [for allowed_ip in allowed_ips] loop and the final
    [return False]. *)
Fixpoint verify_ip_loop (client_ip : string) (allowed_ips : list string)
  : M bool :=
  match allowed_ips with
  | [] => ret false
  | allowed_ip :: rest =>
      match check_entry client_ip allowed_ip with
      | Some true => ret true
      | Some false => verify_ip_loop client_ip rest
      | None =>
          log WARNING ("IP o rango inválido en ALLOWED_IPS: " +:+ allowed_ip) ;;
          verify_ip_loop client_ip rest
      end
  end.

(** The "Normalizar localhost" step. *)
Definition normalize_localhost (client_ip : string) : string :=
  if bool_decide (client_ip ∈ ["127.0.0.1"; "::1"; "localhost"])
  then "127.0.0.1" else client_ip.

Definition verify_ip_address (env : environ) (client_ip : string) : M bool :=
  emit (Enter fn_verify_ip_address) ;;
  let allowed_ips := get_allowed_ips env in
  if bool_decide (allowed_ips = []) then
    log WARNING
      "No hay IPs permitidas configuradas. Permitindo todas las IPs." ;;
    ret true
  else
    let client_ip := normalize_localhost client_ip in
    verify_ip_loop client_ip allowed_ips.

(** *** [verify_api_key] *)

Definition verify_api_key (env : environ) (api_key : option string)
  : M string :=
  emit (Enter fn_verify_api_key) ;;
  let expected_api_key := get_api_key env in
  if negb (Py.truthy expected_api_key) then
    log WARNING
      "No hay API_KEY configurada. La autenticación está deshabilitada." ;;
    ret "no-key-required"
  else
    if negb (Py.truthy api_key) then
      raise (HTTPException 401
        "API Key requerida. Proporciona la API Key en el header X-API-Key"
        [("WWW-Authenticate", "ApiKey")])
    else if negb (bool_decide (api_key = expected_api_key)) then
      log WARNING
        "Intento de acceso con API Key inválida desde IP desconocida" ;;
      raise (HTTPException 401 "API Key inválida"
                           [("WWW-Authenticate", "ApiKey")])
    else ret (default EmptyString api_key).

(** *** [verify_access] *)

(** Lines 188-200 of [verify_access]: the client address it checks. *)
Definition verify_access_client_ip (req : Request) : string :=
  let client_ip :=
    match client req with Some c => host c | None => "unknown" end in
  let forwarded_for := headers_get req "X-Forwarded-For" in
  let client_ip :=
    if Py.truthy forwarded_for
    then Py.strip (hd EmptyString (Py.split "," (default EmptyString forwarded_for)))
    else client_ip in
  let real_ip := headers_get req "X-Real-IP" in
  if Py.truthy real_ip then Py.strip (default EmptyString real_ip) else client_ip.

(** The prefixes tested with [startswith] in the Docker/private branch. *)
Definition docker_prefix (client_ip : string) : bool :=
  Py.startswith client_ip "172." || Py.startswith client_ip "192.168."
  || Py.startswith client_ip "10.".

Definition verify_access (env : environ) (req : Request) (api_key : string)
  : M string :=
  emit (Enter fn_verify_access) ;;
  let client_ip := verify_access_client_ip req in
  let allowed_ips := get_allowed_ips env in
  (* the two nested [if]s of the source, as one conjunction *)
  if bool_decide ("127.0.0.1" ∈ allowed_ips) && docker_prefix client_ip then
    log INFO ("Acceso desde red Docker/privada (" +:+ client_ip +:+
              ") permitido porque localhost está en whitelist") ;;
    ret api_key
  else
    ip_ok <- verify_ip_address env client_ip ;;
    if negb ip_ok then
      log WARNING ("Intento de acceso desde IP no permitida: " +:+ client_ip) ;;
      raise (HTTPException 403
        ("Acceso denegado. Tu IP (" +:+ client_ip +:+
         ") no está en la lista de IPs permitidas.") [])
    else
      log INFO ("Acceso autorizado desde IP: " +:+ client_ip) ;;
      ret api_key.

(** The dependency chain FastAPI solves for [Depends(verify_access)]:
    [verify_api_key] on the [X-API-Key] header first, and
    [verify_access] on its result only when it did not raise. *)
Definition access_gate (env : environ) (req : Request) : M string :=
  api_key <- verify_api_key env (api_key_header req) ;;
  verify_access env req api_key.

(** *** [get_client_ip] and [DocsAccessMiddleware] *)

Definition get_client_ip (req : Request) : string :=
  let client_ip :=
    match client req with Some c => host c | None => "unknown" end in
  let forwarded_for := headers_get req "X-Forwarded-For" in
  let client_ip :=
    if Py.truthy forwarded_for
    then Py.strip (hd EmptyString (Py.split "," (default EmptyString forwarded_for)))
    else client_ip in
  let real_ip := headers_get req "X-Real-IP" in
  if Py.truthy real_ip then Py.strip (default EmptyString real_ip) else client_ip.

Definition docs_paths : list string := ["/docs"; "/redoc"; "/openapi.json"].

(** [DocsAccessMiddleware.dispatch(request, call_next)] *)
Definition DocsAccessMiddleware_dispatch (env : environ) (req : Request)
    (call_next : Request → M Response) : M Response :=
  if existsb (Py.startswith (url_path req)) docs_paths then
    let client_ip := get_client_ip req in
    let allowed_ips := get_allowed_ips env in
    if bool_decide (allowed_ips = []) then
      log WARNING "No hay IPs permitidas configuradas. Permitindo acceso a documentación desde todas las IPs." ;;
      call_next req
    else
      ip_allowed <-
        (if bool_decide ("127.0.0.1" ∈ allowed_ips)
            && (bool_decide (client_ip ∈ ["127.0.0.1"; "::1"; "localhost"])
                || docker_prefix client_ip)
         then
           log INFO ("Acceso a documentación desde red Docker/privada (" +:+
                     client_ip +:+
                     ") permitido porque localhost está en whitelist") ;;
           ret true
         else ret false) ;;
      ip_allowed <-
        (if negb ip_allowed then verify_ip_address env client_ip
         else ret ip_allowed) ;;
      if negb ip_allowed then
        log WARNING
          ("Intento de acceso a documentación desde IP no permitida: " +:+
           client_ip) ;;
        ret (JSONResponse 403
          [("detail", "Acceso denegado. Tu IP (" +:+ client_ip +:+
            ") no está autorizada para acceder a la documentación.")])
      else
        log INFO ("Acceso a documentación autorizado desde IP: " +:+
                  client_ip) ;;
        call_next req
  else call_next req.

(** *** Request schema *)

(** Validation of the JSON body against [EmailRequest] (field
    constraints, [EmailStr] items and the [validate_recipients]
    validator).  The body is taken as already decoded into fields of the
    right JSON types; the result carries the normalised addresses. *)
Definition validate_recipients (v : list string) : option (list string) :=
  if bool_decide (v = []) || bool_decide (List.length v = 0%nat) then None
  else Some v.

Definition validate_body (raw : EmailRequest) : M EmailRequest :=
  emit (Enter fn_validate_body) ;;
  let subject_ok :=
    bool_decide (1 ≤ String.length (subject raw))%nat
    && bool_decide (String.length (subject raw) ≤ 500)%nat in
  let body_ok := bool_decide (1 ≤ String.length (body raw))%nat in
  let checked_recipients :=
    items ← mapM validate_email (recipients raw);
    (if bool_decide (1 ≤ List.length items)%nat then Some items else None)
      ≫= validate_recipients in
  let errors :=
    ((if subject_ok then [] else ["subject"]) ++
     (if body_ok then [] else ["body"]) ++
     (if checked_recipients is Some _ then [] else ["recipients"]))%list in
  match checked_recipients with
  | Some v =>
      if bool_decide (errors = []) then
        ret (MkEmailRequest (subject raw) (body raw) v (attachments raw)
                            (is_html raw))
      else raise (RequestValidationError errors)
  | None => raise (RequestValidationError errors)
  end.

(** *** [get_smtp_config] *)

Record smtp_config : Type := MkSmtpConfig {
  smtp_server : option string;
  smtp_port : Z;
  smtp_user : option string;
  smtp_password : option string;
  smtp_from_email : option string;
  smtp_use_tls : bool;
  smtp_use_ssl : bool
}.

(** [get_smtp_config()].  The text of [int]'s [ValueError] is written
    for a port string without quotes or escapes, whose [repr] is the
    string between single quotes. *)
Definition get_smtp_config (env : environ) : M smtp_config :=
  let port_str := getenv_or env "SMTP_PORT" "587" in
  match int_of_str port_str with
  | None =>
      raise (ValueError
        ("invalid literal for int() with base 10: '" +:+ port_str +:+ "'"))
  | Some smtp_port =>
      let config := {|
        smtp_server := getenv env "SMTP_SERVER";
        smtp_port := smtp_port;
        smtp_user := getenv env "SMTP_USER";
        smtp_password := getenv env "SMTP_PASSWORD";
        smtp_from_email := getenv env "SMTP_FROM_EMAIL";
        smtp_use_tls :=
          bool_decide (Py.lower (getenv_or env "SMTP_USE_TLS" "true") = "true");
        smtp_use_ssl := bool_decide (smtp_port = 465)
      |} in
      let required_vars :=
        [("smtp_server", smtp_server config);
         ("smtp_user", smtp_user config);
         ("smtp_password", smtp_password config);
         ("smtp_from_email", smtp_from_email config)] in
      let missing_vars :=
        fst <$> List.filter (λ var, negb (Py.truthy var.2)) required_vars in
      if negb (bool_decide (missing_vars = [])) then
        raise (ValueError
          ("Variables de entorno faltantes: " +:+ Py.join ", " missing_vars
           +:+ ". Por favor, configura el archivo .env"))
      else ret config
  end.

(** *** [decode_base64_attachment] *)

Definition decode_base64_attachment (attachment : Attachment)
  : M (list byte) :=
  emit (Enter fn_decode_base64_attachment) ;;
  match b64decode (content attachment) with
  | inr data => ret data
  | inl e =>
      raise (ValueError ("Error al decodificar el adjunto " +:+
                         filename attachment +:+ ": " +:+ e))
  end.

(** *** [send_email] *)

Record SendResult : Type := MkSendResult {
  result_success : bool;
  result_message : string;
  result_recipients : list string
}.

(** One operation on the SMTP connection: it is recorded, then it raises
    what the server makes it raise. *)
Definition smtp_step (op : smtp_op) (failure : option exn) : M unit :=
  emit (Smtp op) ;;
  match failure with
  | Some e => raise e
  | None => ret tt
  end.

(** Leaving the [with ... as server:] block: the cleanup runs whether
    or not the block raised, and an exception of the cleanup replaces the
    outcome of the block. *)
Definition finally {A} (m : M A) (cleanup : M unit) : M A :=
  let '(t, r) := m in
  let '(t', r') := cleanup in
  ((t ++ t')%list, match r' with Ok _ => r | Raise e => Raise e end).

(** [part.set_type(t)]: a [ValueError] unless [t] has exactly one [/]. *)
Definition set_type (part : mime_part) (t : string) : M mime_part :=
  if negb (bool_decide (Py.count "/" t = 1%nat)) then raise (ValueError EmptyString)
  else
    match part with
    | MIMEBase payload _ disposition => ret (MIMEBase payload t disposition)
    | MIMEText text _ charset => ret (MIMEText text t charset)
    end.

(** The [for attachment in attachments] loop: the parts attached so far
    are threaded through. *)
Fixpoint attach_all (parts : list mime_part) (atts : list Attachment)
  : M (list mime_part) :=
  match atts with
  | [] => ret parts
  | attachment :: rest =>
      file_content <- decode_base64_attachment attachment ;;
      let part :=
        MIMEBase file_content "application/octet-stream"
                 ("attachment; filename= " +:+ filename attachment) in
      part <-
        (if Py.truthy (content_type attachment)
         then set_type part (default EmptyString (content_type attachment))
         else ret part) ;;
      attach_all (parts ++ [part])%list rest
  end.

(** [repr] of a list of strings, for strings without quotes or escapes. *)
Definition repr_list (l : list string) : string :=
  "[" +:+ Py.join ", " ((λ s, "'" +:+ s +:+ "'") <$> l) +:+ "]".

Definition send_email (env : environ) (w : World)
    (subject body : string) (recipients : list string)
    (attachments : option (list Attachment)) (is_html : bool)
  : M SendResult :=
  emit (Enter fn_send_email) ;;
  catch
    (smtp_config <- get_smtp_config env ;;
     let parts :=
       [MIMEText body (if is_html then "html" else "plain") "utf-8"] in
     parts <-
       (match attachments with
        | Some (a :: l) => attach_all parts (a :: l)
        | _ => ret parts
        end) ;;
     let msg := {|
       msg_From := smtp_from_email smtp_config;
       msg_To := Py.join ", " recipients;
       msg_Subject := subject;
       msg_parts := parts
     |} in
     (if smtp_use_ssl smtp_config then
        smtp_step (smtp_connect_ssl (smtp_server smtp_config)
                                    (smtp_port smtp_config)) (w_connect w) ;;
        finally
          (smtp_step (smtp_login (smtp_user smtp_config)
                                 (smtp_password smtp_config)) (w_login w) ;;
           smtp_step (smtp_send_message msg) (w_send_message w))
          (smtp_step smtp_quit (w_quit w))
      else
        smtp_step (smtp_connect (smtp_server smtp_config)
                                (smtp_port smtp_config)) (w_connect w) ;;
        finally
          ((if smtp_use_tls smtp_config
            then smtp_step smtp_starttls (w_starttls w) else ret tt) ;;
           smtp_step (smtp_login (smtp_user smtp_config)
                                 (smtp_password smtp_config)) (w_login w) ;;
           smtp_step (smtp_send_message msg) (w_send_message w))
          (smtp_step smtp_quit (w_quit w))) ;;
     log INFO ("Correo enviado exitosamente a " +:+ repr_list recipients) ;;
     ret {|
       result_success := true;
       result_message :=
         "Correo enviado exitosamente a " +:+ pretty (List.length recipients)
         +:+ " destinatario(s)";
       result_recipients := recipients
     |})
    (λ e, log ERROR ("Error al enviar correo: " +:+ exn_str e) ;; raise e).

(** *** [send_email_endpoint] and its route *)

Definition send_email_endpoint (env : environ) (w : World)
    (email_request : EmailRequest) (api_key : string) : M EmailResponse :=
  catch
    (result <- send_email env w (subject email_request) (body email_request)
                 (recipients email_request) (attachments email_request)
                 (is_html email_request) ;;
     ret {|
       success := result_success result;
       message := result_message result;
       timestamp := w_now_isoformat w;
       response_recipients := result_recipients result
     |})
    (λ e,
       match e with
       | ValueError m => raise (HTTPException 400 m [])
       | SMTPAuthenticationError m =>
           log ERROR ("Error de autenticación SMTP: " +:+ m) ;;
           raise (HTTPException 401
             "Error de autenticación SMTP. Verifica las credenciales." [])
       | SMTPException m =>
           log ERROR ("Error SMTP: " +:+ m) ;;
           raise (HTTPException 502
             ("Error al comunicarse con el servidor SMTP: " +:+ m) [])
       | _ =>
           log ERROR ("Error inesperado: " +:+ exn_str e) ;;
           raise (HTTPException 500
             ("Error interno del servidor: " +:+ exn_str e) [])
       end).

(** The request handler FastAPI builds for [POST /send-email], for a body
    that is well-formed JSON: the dependencies are solved first (a raised
    [HTTPException] ends the request there), then the body is validated
    against [EmailRequest], and only without errors is the endpoint
    function called. *)
Definition post_send_email (env : environ) (w : World) (req : Request)
    (json_body : EmailRequest) : M EmailResponse :=
  api_key <- access_gate env req ;;
  email_request <- validate_body json_body ;;
  send_email_endpoint env w email_request api_key.

End Program.

(** ** One implementation of the library interface

    A model of the CPython functions behind [PyLib], enough to run the
    program on examples: dotted-quad IPv4 addresses, networks written
    with a decimal prefix length, the non-strict base64 decoder of
    [binascii.a2b_base64], decimal [int] literals and a syntactic e-mail
    check.  Forms outside that fragment (IPv6, netmask notation,
    underscores in integers) are rejected here although CPython accepts
    them, so the examples below stay inside the fragment. *)

Module CPython.

Definition is_digit (c : ascii) : bool :=
  let n := nat_of_ascii c in ((48 <=? n) && (n <=? 57))%nat.

Fixpoint all_digits (s : string) : bool :=
  match s with
  | EmptyString => true
  | String c s' => is_digit c && all_digits s'
  end.

Fixpoint decimal_acc (s : string) (acc : Z) : Z :=
  match s with
  | EmptyString => acc
  | String c s' => decimal_acc s' (10 * acc + (Z.of_nat (nat_of_ascii c) - 48))
  end.

(** A non-empty string of ASCII digits, as a number. *)
Definition parse_decimal (s : string) : option Z :=
  if bool_decide (s = EmptyString) || negb (all_digits s) then None
  else Some (decimal_acc s 0).

(** One octet of [IPv4Address._parse_octet]: at most three digits, no
    leading zero, at most 255. *)
Definition parse_octet (s : string) : option Z :=
  v ← parse_decimal s;
  if (3 <? String.length s)%nat then None
  else if (1 <? String.length s)%nat && Py.startswith s "0" then None
  else if 255 <? v then None
  else Some v.

Definition ipv4_of_string (s : string) : option Z :=
  match Py.split "." s with
  | [a; b; c; d] =>
      a ← parse_octet a; b ← parse_octet b;
      c ← parse_octet c; d ← parse_octet d;
      Some (Z.lor (Z.shiftl a 24)
              (Z.lor (Z.shiftl b 16) (Z.lor (Z.shiftl c 8) d)))
  | _ => None
  end.

Record ipv4_network : Type := MkNetwork {
  network_address : Z;
  netmask : Z
}.

Definition netmask_of_prefix (prefixlen : Z) : Z :=
  Z.lxor 4294967295 (Z.shiftr 4294967295 prefixlen).

Definition ipv4_network_of_string (s : string) (strict : bool)
  : option ipv4_network :=
  match Py.split "/" s with
  | [a] =>
      addr ← ipv4_of_string a;
      Some (MkNetwork addr 4294967295)
  | [a; p] =>
      addr ← ipv4_of_string a;
      prefixlen ← parse_decimal p;
      if 32 <? prefixlen then None
      else
        let mask := netmask_of_prefix prefixlen in
        if strict && negb (bool_decide (Z.land addr mask = addr)) then None
        else Some (MkNetwork (Z.land addr mask) mask)
  | _ => None
  end.

Definition ipv4_in (addr : Z) (net : ipv4_network) : bool :=
  bool_decide (Z.land addr (netmask net) = network_address net).

(** The base64 alphabet. *)
Definition b64_index (c : ascii) : option Z :=
  let n := Z.of_nat (nat_of_ascii c) in
  if (65 <=? n) && (n <=? 90) then Some (n - 65)
  else if (97 <=? n) && (n <=? 122) then Some (n - 97 + 26)
  else if (48 <=? n) && (n <=? 57) then Some (n - 48 + 52)
  else if n =? 43 then Some 62
  else if n =? 47 then Some 63
  else None.

Definition byte_of_Z (z : Z) : byte :=
  byte_of_ascii (ascii_of_N (Z.to_N (Z.land z 255))).

(** The decoding loop of [binascii.a2b_base64] outside strict mode:
    characters outside the alphabet are skipped, a complete pad sequence
    ends the input, and a dangling quad is an error. *)
Fixpoint a2b_loop (s : string) (quad_pos : nat) (leftchar : Z) (pads : nat)
    (out : list byte) : string + list byte :=
  match s with
  | EmptyString =>
      match quad_pos with
      | 0%nat => inr out
      | 1%nat =>
          inl ("Invalid base64-encoded string: number of data characters ("
               +:+ pretty (List.length out / 3 * 4 + 1)%nat
               +:+ ") cannot be 1 more than a multiple of 4")
      | _ => inl "Incorrect padding"
      end
  | String c s' =>
      if bool_decide (c = "="%char) then
        if (2 <=? quad_pos)%nat then
          if (4 <=? quad_pos + (pads + 1))%nat then inr out
          else a2b_loop s' quad_pos leftchar (pads + 1)%nat out
        else a2b_loop s' quad_pos leftchar pads out
      else
        match b64_index c with
        | None => a2b_loop s' quad_pos leftchar pads out
        | Some v =>
            match quad_pos with
            | 0%nat => a2b_loop s' 1%nat v 0%nat out
            | 1%nat =>
                a2b_loop s' 2%nat (Z.land v 15) 0%nat
                  (out ++ [byte_of_Z (Z.lor (Z.shiftl leftchar 2)
                                            (Z.shiftr v 4))])%list
            | 2%nat =>
                a2b_loop s' 3%nat (Z.land v 3) 0%nat
                  (out ++ [byte_of_Z (Z.lor (Z.shiftl leftchar 4)
                                            (Z.shiftr v 2))])%list
            | _ =>
                a2b_loop s' 0%nat 0 0%nat
                  (out ++ [byte_of_Z (Z.lor (Z.shiftl leftchar 6) v)])%list
            end
        end
  end.

Fixpoint isascii (s : string) : bool :=
  match s with
  | EmptyString => true
  | String c s' => (nat_of_ascii c <? 128)%nat && isascii s'
  end.

Definition b64decode_str (s : string) : string + list byte :=
  if negb (isascii s)
  then inl "string argument should contain only ASCII characters"
  else a2b_loop s 0%nat 0 0%nat [].

(** [int(s)] for an optionally signed decimal literal with surrounding
    white space. *)
Definition int_of_decimal (s : string) : option Z :=
  match Py.strip s with
  | String "-" d => Z.opp <$> parse_decimal d
  | String "+" d => parse_decimal d
  | d => parse_decimal d
  end.

(** A syntactic e-mail check: one [@], a non-empty local part, a dotted
    domain, no white space; the domain is lower-cased. *)
Fixpoint has_space (s : string) : bool :=
  match s with
  | EmptyString => false
  | String c s' => Py.isspace c || has_space s'
  end.

Definition check_email (s : string) : option string :=
  match Py.split "@" s with
  | [local_part; domain] =>
      if bool_decide (local_part = EmptyString) || has_space s
         || negb (Py.contains "." domain)
      then None
      else Some (local_part +:+ "@" +:+ Py.lower domain)
  | _ => None
  end.

#[export] Instance lib : PyLib := {|
  IPAddress := Z;
  IPNetwork := ipv4_network;
  ip_address := ipv4_of_string;
  ip_network := ipv4_network_of_string;
  ip_in := ipv4_in;
  b64decode := b64decode_str;
  int_of_str := int_of_decimal;
  validate_email := check_email
|}.

End CPython.

(** ** Observations on the documentation middleware *)

(** The middleware lets the request through: whatever the rest of the
    application is, it is called on the request after the middleware's
    own log records. *)
Definition docs_forwards `{PyLib} (env : environ) (req : Request) : Prop :=
  ∃ t, ∀ call_next,
    DocsAccessMiddleware_dispatch env req call_next
    = ((t, Ok tt) ;; call_next req).

(** The middleware answers 403 itself and never calls the application. *)
Definition docs_rejects `{PyLib} (env : environ) (req : Request) : Prop :=
  ∃ t d, ∀ call_next,
    DocsAccessMiddleware_dispatch env req call_next
    = (t, Ok (JSONResponse 403 d)).

(** The log record the middleware writes in its Docker/private branch
    (line 287). *)
Definition docs_branch_record (client_ip : string) : event :=
  Log INFO ("Acceso a documentación desde red Docker/privada (" +:+
            client_ip +:+ ") permitido porque localhost está en whitelist").

(** The middleware takes its Docker/private branch on a request: the
    branch's record is among the events of the middleware itself, that
    is, of a dispatch whose application adds none. *)
Definition docs_branch_fires `{PyLib} (env : environ) (req : Request)
  : Prop :=
  docs_branch_record (get_client_ip req)
    ∈ trace (DocsAccessMiddleware_dispatch env req
               (λ _, ret (JSONResponse 200 []))).

(** The condition of the Docker/private branch of [verify_access]. *)
Definition private_exception (env : environ) (client_ip : string) : bool :=
  bool_decide ("127.0.0.1" ∈ get_allowed_ips env) && docker_prefix client_ip.

(** The answer of [verify_ip_address], as a boolean. *)
Definition matcher_allows `{PyLib} (env : environ) (client_ip : string)
  : bool :=
  bool_decide (get_allowed_ips env = [])
  || existsb (λ a, bool_decide
                (check_entry (normalize_localhost client_ip) a = Some true))
       (get_allowed_ips env).

(** The address stage of the gate: the private-network branch, else the
    matcher. *)
Definition ip_decision `{PyLib} (env : environ) (client_ip : string)
  : bool :=
  private_exception env client_ip || matcher_allows env client_ip.

(** An SMTP operation or an entry into [send_email] occurs in a trace. *)
Definition mail_action (ev : event) : bool :=
  match ev with
  | Smtp _ => true
  | Enter fn_send_email => true
  | _ => false
  end.

Definition is_smtp (ev : event) : bool :=
  match ev with Smtp _ => true | _ => false end.

(** The events the gate can produce: its own function entries and log
    records. *)
Definition gate_event (ev : event) : bool :=
  match ev with
  | Enter fn_verify_api_key | Enter fn_verify_access
  | Enter fn_verify_ip_address | Log _ _ => true
  | _ => false
  end.

(** [needle in haystack] for strings *)
Fixpoint substring_of (needle haystack : string) : bool :=
  String.prefix needle haystack
  || match haystack with
     | EmptyString => false
     | String _ rest => substring_of needle rest
     end.


(** ** Example configurations and requests *)

Module Ex.

(** Nothing configured but a credential. *)
Definition env_key : environ := {[ "API_KEY" := "s3cret" ]}.

(** Credential, allowlist and SMTP settings. *)
Definition env_full : environ :=
  <["API_KEY" := "s3cret"]>
  (<["ALLOWED_IPS" := "127.0.0.1, 203.0.113.0/24 ,bad/entry,8.8.4.4"]>
  (<["SMTP_SERVER" := "smtp.example.org"]>
  (<["SMTP_USER" := "mailer"]>
  (<["SMTP_PASSWORD" := "pw"]>
  (<["SMTP_FROM_EMAIL" := "noreply@example.org"]> ∅))))).

(** As [env_full], without the SMTP settings. *)
Definition env_no_smtp : environ :=
  <["API_KEY" := "s3cret"]> {[ "ALLOWED_IPS" := "127.0.0.1" ]}.

Definition env_cidr : environ := {[ "ALLOWED_IPS" := "127.0.0.0/8" ]}.

Definition env_host_bits : environ := {[ "ALLOWED_IPS" := "192.168.1.77/24" ]}.

Definition env_literal : environ := {[ "ALLOWED_IPS" := "8.8.4.4" ]}.

Definition env_localhost : environ := {[ "ALLOWED_IPS" := "127.0.0.1" ]}.

(** Spellings of localhost other than the literal [127.0.0.1]. *)
Definition env_no_literal : environ :=
  {[ "ALLOWED_IPS" := "localhost,::1,127.0.0.0/8" ]}.

(** A malformed entry before a valid one. *)
Definition env_malformed : environ :=
  {[ "ALLOWED_IPS" := "bad/entry,203.0.113.0/24" ]}.

Definition peer : option Address := Some (MkAddress "198.51.100.7" 40312).

(** A keyed mail-send request arriving through a Docker bridge. *)
Definition req_private : Request :=
  MkRequest "/send-email"
    [("x-api-key", "s3cret"); ("x-real-ip", " 10.0.0.9 ")] peer.

(** The same with a client string that is no address. *)
Definition req_not_an_ip : Request :=
  MkRequest "/send-email"
    [("x-api-key", "s3cret"); ("x-real-ip", "10.not.an.ip")] peer.

(** A mail-send request with no key. *)
Definition req_no_key : Request :=
  MkRequest "/send-email" [("x-real-ip", "10.0.0.9")] peer.

(** A mail-send request with a wrong key. *)
Definition req_wrong_key : Request :=
  MkRequest "/send-email" [("x-api-key", "guess")] peer.

(** A documentation request with no key. *)
Definition req_docs : Request := MkRequest "/docs" [] peer.

(** A documentation request from the loopback address, no proxy. *)
Definition req_docs_loopback : Request :=
  MkRequest "/docs" [] (Some (MkAddress "127.0.0.1" 51234)).

Definition req_docs_private : Request :=
  MkRequest "/docs" [("x-forwarded-for", "172.17.0.3, 10.1.1.1")] peer.

(** Both proxy headers. *)
Definition req_both : Request :=
  MkRequest "/send-email"
    [("x-forwarded-for", "1.2.3.4"); ("x-real-ip", "8.8.8.8")] peer.

(** [X-Real-IP] present with an empty value. *)
Definition req_empty_real_ip : Request :=
  MkRequest "/send-email"
    [("x-real-ip", EmptyString); ("x-forwarded-for", "1.2.3.4")] peer.

Definition req_forwarded : Request :=
  MkRequest "/send-email" [("x-forwarded-for", " 1.2.3.4 , 10.0.0.1")] peer.

Definition req_peer_only : Request := MkRequest "/send-email" [] peer.

Definition req_no_peer : Request := MkRequest "/send-email" [] None.

Definition world : World :=
  MkWorld None None None None None "2026-01-01T00:00:00".

Definition hello : Attachment :=
  MkAttachment "hello.txt" "aGVsbG8gd29ybGQ=" (Some "text/plain").

Definition corrupted : Attachment :=
  MkAttachment "report.pdf" "%%%not-base64%%%" None.

Definition body_ok : EmailRequest :=
  MkEmailRequest "Hi" "Body" ["a@example.org"] (Some [hello]) false.

Definition body_no_recipients : EmailRequest :=
  MkEmailRequest "Hi" "Body" [] None false.

End Ex.

(** ** The health endpoint *)

(** The ["security"] object of the health report. *)
Record SecurityReport : Type := MkSecurityReport {
  api_key_configured : bool;
  ip_whitelist_enabled : bool;
  allowed_ips_count : nat
}.

(** The dictionary [health_check] returns. *)
Record HealthReport : Type := MkHealthReport {
  health_status : string;
  health_smtp_server : option string;
  health_smtp_port : Z;
  health_smtp_from_email : option string;
  health_smtp_configured : bool;
  health_security : SecurityReport
}.

Section Endpoints.
Context {lib : PyLib}.

(** [health_check()]: no dependency guards it; a [ValueError] of the
    configuration becomes a 503. *)
Definition health_check (env : environ) : M HealthReport :=
  catch
    (smtp_config <- get_smtp_config env ;;
     let api_key_configured := Py.truthy (get_api_key env) in
     let allowed_ips := get_allowed_ips env in
     ret {|
       health_status := "healthy";
       health_smtp_server := smtp_server smtp_config;
       health_smtp_port := smtp_port smtp_config;
       health_smtp_from_email := smtp_from_email smtp_config;
       health_smtp_configured := true;
       health_security := {|
         api_key_configured := api_key_configured;
         ip_whitelist_enabled := bool_decide (0 < List.length allowed_ips)%nat;
         allowed_ips_count := List.length allowed_ips
       |}
     |})
    (λ e,
       match e with
       | ValueError m => raise (HTTPException 503 m [])
       | _ => raise e
       end).

End Endpoints.

(** ** Observations on the mail relay *)

(** The SMTP operations of a trace, in order. *)
Definition smtp_ops (t : list event) : list smtp_op :=
  omap (λ ev, match ev with Smtp op => Some op | _ => None end) t.

(** The MIME part one attachment becomes, when the loop of [send_email]
    gets past it: the decoded bytes, the declared content type or the
    generic binary one, and the [Content-Disposition] value. *)
Definition attachment_part `{PyLib} (a : Attachment) : option mime_part :=
  match b64decode (content a) with
  | inl _ => None
  | inr data =>
      let disposition := "attachment; filename= " +:+ filename a in
      if Py.truthy (content_type a) then
        if bool_decide (Py.count "/" (default EmptyString (content_type a))
                        = 1%nat)
        then Some (MIMEBase data (default EmptyString (content_type a))
                            disposition)
        else None
      else Some (MIMEBase data "application/octet-stream" disposition)
  end.

(** The connection sequence [send_email] runs for a configuration when
    no step fails. *)
Definition smtp_session (cfg : smtp_config) (msg : mime_message)
  : list smtp_op :=
  if smtp_use_ssl cfg then
    [smtp_connect_ssl (smtp_server cfg) (smtp_port cfg);
     smtp_login (smtp_user cfg) (smtp_password cfg);
     smtp_send_message msg; smtp_quit]
  else
    (smtp_connect (smtp_server cfg) (smtp_port cfg)
     :: (if smtp_use_tls cfg then [smtp_starttls] else [])
     ++ [smtp_login (smtp_user cfg) (smtp_password cfg);
         smtp_send_message msg; smtp_quit])%list.

(** The connection block of [send_email] (the [if smtp_use_ssl] with its
    two [with ... as server:] blocks), for a configuration and a built
    message. *)
Definition smtp_dialogue (w : World) (cfg : smtp_config)
    (msg : mime_message) : M unit :=
  if smtp_use_ssl cfg then
    smtp_step (smtp_connect_ssl (smtp_server cfg) (smtp_port cfg))
              (w_connect w) ;;
    finally
      (smtp_step (smtp_login (smtp_user cfg) (smtp_password cfg))
                 (w_login w) ;;
       smtp_step (smtp_send_message msg) (w_send_message w))
      (smtp_step smtp_quit (w_quit w))
  else
    smtp_step (smtp_connect (smtp_server cfg) (smtp_port cfg))
              (w_connect w) ;;
    finally
      ((if smtp_use_tls cfg
        then smtp_step smtp_starttls (w_starttls w) else ret tt) ;;
       smtp_step (smtp_login (smtp_user cfg) (smtp_password cfg))
                 (w_login w) ;;
       smtp_step (smtp_send_message msg) (w_send_message w))
      (smtp_step smtp_quit (w_quit w)).

(** The value [send_email] returns for a list of recipients. *)
Definition send_result (rcpts : list string) : SendResult :=
  {| result_success := true;
     result_message :=
       "Correo enviado exitosamente a " +:+ pretty (List.length rcpts)
       +:+ " destinatario(s)";
     result_recipients := rcpts |}.

(** No SMTP step fails. *)
Definition smtp_healthy (w : World) : Prop :=
  w_connect w = None ∧ w_starttls w = None ∧ w_login w = None
  ∧ w_send_message w = None ∧ w_quit w = None.

(** The length constraints on the text fields of [EmailRequest]. *)
Definition subject_in_bounds (raw : EmailRequest) : Prop :=
  (1 ≤ String.length (subject raw) ≤ 500)%nat.
Definition body_non_empty (raw : EmailRequest) : Prop :=
  (1 ≤ String.length (body raw))%nat.

(** ** The client script [example_usage.py] *)

Module Client.

(** The base64 alphabet, by index. *)
Definition b64_char (v : Z) : ascii :=
  ascii_of_N (Z.to_N (if v <? 26 then v + 65
                      else if v <? 52 then v + 71
                      else if v <? 62 then v - 4
                      else if v =? 62 then 43 else 47)).

Definition Z_of_byte (b : byte) : Z := Z.of_N (Byte.to_N b).

(** [base64.b64encode(data).decode('utf-8')]: three bytes become four
    characters, and a last group of one or two bytes is padded with
    [=]. *)
Fixpoint b64encode (data : list byte) : string :=
  match data with
  | [] => EmptyString
  | [b1] =>
      let n1 := Z_of_byte b1 in
      String (b64_char (Z.shiftr n1 2))
        (String (b64_char (Z.shiftl (Z.land n1 3) 4)) "==")
  | [b1; b2] =>
      let n1 := Z_of_byte b1 in
      let n2 := Z_of_byte b2 in
      String (b64_char (Z.shiftr n1 2))
        (String (b64_char (Z.lor (Z.shiftl (Z.land n1 3) 4) (Z.shiftr n2 4)))
           (String (b64_char (Z.shiftl (Z.land n2 15) 2)) "="))
  | b1 :: b2 :: b3 :: rest =>
      let n1 := Z_of_byte b1 in
      let n2 := Z_of_byte b2 in
      let n3 := Z_of_byte b3 in
      String (b64_char (Z.shiftr n1 2))
        (String (b64_char (Z.lor (Z.shiftl (Z.land n1 3) 4) (Z.shiftr n2 4)))
           (String (b64_char (Z.lor (Z.shiftl (Z.land n2 15) 2)
                                    (Z.shiftr n3 6)))
              (String (b64_char (Z.land n3 63)) (b64encode rest))))
  end.

(** The [tipos_mime] dictionary of [ejemplo_adjunto_desde_archivo]. *)
Definition tipos_mime : gmap string string :=
  list_to_map
    [("pdf", "application/pdf");
     ("txt", "text/plain");
     ("jpg", "image/jpeg");
     ("jpeg", "image/jpeg");
     ("png", "image/png");
     ("doc", "application/msword");
     ("docx",
      "application/vnd.openxmlformats-officedocument.wordprocessingml.document")].

(** [ruta_archivo.split('.')[-1].lower()] *)
Definition extension (ruta_archivo : string) : string :=
  Py.lower (List.last (Py.split "." ruta_archivo) EmptyString).

(** [tipos_mime.get(extension, 'application/octet-stream')] *)
Definition content_type_of (ruta_archivo : string) : string :=
  default "application/octet-stream" (tipos_mime !! extension ruta_archivo).

(** [ruta_archivo.split('/')[-1]] *)
Definition nombre_archivo (ruta_archivo : string) : string :=
  List.last (Py.split "/" ruta_archivo) EmptyString.

(** The JSON body [ejemplo_adjunto_desde_archivo] posts to [/send-email]
    for a file at [ruta_archivo] whose bytes are [contenido]. *)
Definition ejemplo_adjunto_desde_archivo (ruta_archivo : string)
    (contenido : list byte) : EmailRequest :=
  let contenido_base64 := b64encode contenido in
  let content_type := content_type_of ruta_archivo in
  let nombre := nombre_archivo ruta_archivo in
  {| subject := "Correo con adjunto: " +:+ nombre;
     body := "Por favor encuentra adjunto el archivo " +:+ nombre +:+ ".";
     recipients := ["destinatario@example.com"];
     attachments :=
       Some [{| filename := nombre;
                content := contenido_base64;
                content_type := Some content_type |}];
     is_html := false |}.

End Client.

(** ** Further example data *)

Module Scenario.

(** The configuration [get_smtp_config] reads from [Ex.env_full]. *)
Definition cfg_full : smtp_config :=
  {| smtp_server := Some "smtp.example.org";
     smtp_port := 587;
     smtp_user := Some "mailer";
     smtp_password := Some "pw";
     smtp_from_email := Some "noreply@example.org";
     smtp_use_tls := true;
     smtp_use_ssl := false |}.

(** The part [Ex.hello] becomes. *)
Definition hello_part : mime_part :=
  MIMEBase (list_byte_of_string "hello world") "text/plain"
           "attachment; filename= hello.txt".

(** An SMTP server that refuses the login. *)
Definition world_login_refused : World :=
  MkWorld None None (Some (SMTPAuthenticationError "535 bad credentials"))
          None None "2026-01-01T00:00:00".

(** [Ex.req_private] as another sender can forge it: the same key and
    [X-Real-IP], another [X-Forwarded-For], no transport peer. *)
Definition req_forged : Request :=
  MkRequest "/send-email"
    [("x-forwarded-for", "8.8.8.8"); ("x-api-key", "s3cret");
     ("x-real-ip", " 10.0.0.9 ")] None.

End Scenario.

(** * Properties *)

(** ** The effect monad *)

Lemma trace_bind {A B} (m : M A) (k : A → M B) :
  trace (bind m k) =
    match outcome m with
    | Ok a => (trace m ++ trace (k a))%list
    | Raise _ => trace m
    end.
Proof.
  destruct m as [t [a|e]]; simpl; [|done].
  by destruct (k a).
Qed.

Lemma outcome_bind {A B} (m : M A) (k : A → M B) :
  outcome (bind m k) =
    match outcome m with
    | Ok a => outcome (k a)
    | Raise e => Raise e
    end.
Proof.
  destruct m as [t [a|e]]; simpl; [|done].
  by destruct (k a).
Qed.

Lemma trace_catch {A} (m : M A) (h : exn → M A) :
  trace (catch m h) =
    match outcome m with
    | Ok _ => trace m
    | Raise e => (trace m ++ trace (h e))%list
    end.
Proof.
  destruct m as [t [a|e]]; simpl; [done|].
  by destruct (h e).
Qed.

Lemma outcome_catch {A} (m : M A) (h : exn → M A) :
  outcome (catch m h) =
    match outcome m with
    | Ok a => Ok a
    | Raise e => outcome (h e)
    end.
Proof.
  destruct m as [t [a|e]]; simpl; [done|].
  by destruct (h e).
Qed.

Lemma trace_finally {A} (m : M A) (c : M unit) :
  trace (finally m c) = (trace m ++ trace c)%list.
Proof. by destruct m, c. Qed.

Lemma outcome_finally {A} (m : M A) (c : M unit) :
  outcome (finally m c) =
    match outcome c with Ok _ => outcome m | Raise e => Raise e end.
Proof. by destruct m, c. Qed.

Lemma M_eta {A} (m : M A) : m = (trace m, outcome m).
Proof. by destruct m. Qed.

Lemma bind_emit_l {A} (ev : event) (m : M A) :
  (emit ev ;; m) = (ev :: trace m, outcome m).
Proof. by destruct m. Qed.

Lemma bind_ret_l {A B} (a : A) (k : A → M B) : bind (ret a) k = k a.
Proof. unfold bind, ret. by destruct (k a). Qed.

Lemma bind_raise_l {A B} (e : exn) (k : A → M B) : bind (raise e) k = raise e.
Proof. reflexivity. Qed.

Lemma bind_pair_ok {A B} (t : list event) (a : A) (k : A → M B) :
  bind (t, Ok a) k = ((t ++ trace (k a))%list, outcome (k a)).
Proof. unfold bind. by destruct (k a). Qed.

Lemma bind_pair_raise {A B} (t : list event) (e : exn) (k : A → M B) :
  bind (t, Raise e) k = (t, Raise e).
Proof. reflexivity. Qed.

Lemma catch_pair_raise {A} (t : list event) (e : exn) (h : exn → M A) :
  catch (t, Raise e) h = ((t ++ trace (h e))%list, outcome (h e)).
Proof. unfold catch. by destruct (h e). Qed.

(** Case analysis on membership in an explicit list. *)
Ltac list_cases H :=
  repeat (apply elem_of_cons in H; destruct H as [H|H]; [try subst|]);
  try (apply elem_of_nil in H; destruct H).

Ltac mon :=
  repeat first
    [ rewrite trace_bind | rewrite outcome_bind | rewrite trace_catch
    | rewrite outcome_catch | rewrite trace_finally
    | rewrite outcome_finally ].

Section Properties.
Context {lib : PyLib}.

(** ** The allowlist matcher *)

(** The loop never raises, and answers whether some entry's check
    returned [True]. *)
Lemma verify_ip_loop_outcome (client_ip : string) (l : list string) :
  outcome (verify_ip_loop client_ip l) =
    Ok (existsb (λ a, bool_decide (check_entry client_ip a = Some true)) l).
Proof.
  induction l as [|a l IH]; [done|].
  cbn [verify_ip_loop existsb].
  destruct (check_entry client_ip a) as [[|]|] eqn:E.
  - done.
  - by rewrite IH.
  - unfold log. rewrite bind_emit_l. cbn [outcome snd]. by rewrite IH.
Qed.

(** The loop only ever logs warnings. *)
Lemma verify_ip_loop_trace (client_ip : string) (l : list string) ev :
  ev ∈ trace (verify_ip_loop client_ip l) → ∃ m, ev = Log WARNING m.
Proof.
  induction l as [|a l IH]; cbn [verify_ip_loop].
  - intros Hin. inversion Hin.
  - destruct (check_entry client_ip a) as [[|]|].
    + intros Hin. inversion Hin.
    + apply IH.
    + unfold log. rewrite bind_emit_l. cbn [trace fst].
      intros [->|Hin]%elem_of_cons; eauto.
Qed.

Lemma verify_ip_address_outcome (env : environ) (client_ip : string) :
  outcome (verify_ip_address env client_ip) =
    Ok (bool_decide (get_allowed_ips env = [])
        || existsb (λ a, bool_decide
                      (check_entry (normalize_localhost client_ip) a
                       = Some true))
             (get_allowed_ips env)).
Proof.
  unfold verify_ip_address. rewrite bind_emit_l. cbn [outcome snd].
  case_bool_decide as E; [done|].
  apply verify_ip_loop_outcome.
Qed.

Lemma verify_ip_address_enters (env : environ) (client_ip : string) :
  Enter fn_verify_ip_address ∈ trace (verify_ip_address env client_ip).
Proof.
  unfold verify_ip_address. rewrite bind_emit_l. apply list_elem_of_here.
Qed.

Lemma existsb_elem_of {A} (f : A → bool) (l : list A) :
  existsb f l = true ↔ ∃ a, a ∈ l ∧ f a = true.
Proof.
  rewrite existsb_exists. split; intros (a & Ha & Hf); exists a;
    (split; [by apply list_elem_of_In|done]).
Qed.

Lemma normalize_localhost_names (candidate : string) :
  candidate ∈ ["127.0.0.1"; "::1"; "localhost"] →
  normalize_localhost candidate = "127.0.0.1".
Proof. intros Hin. unfold normalize_localhost. by rewrite bool_decide_eq_true_2. Qed.

Lemma normalize_localhost_other (candidate : string) :
  candidate ∉ ["127.0.0.1"; "::1"; "localhost"] →
  normalize_localhost candidate = candidate.
Proof. intros Hin. unfold normalize_localhost. by rewrite bool_decide_eq_false_2. Qed.

(** What the [try] block decides for one entry. *)
Lemma check_entry_true (c entry : string) :
  check_entry c entry = Some true ↔
    if Py.contains "/" entry then
      ∃ addr net, ip_address c = Some addr ∧
                  ip_network entry false = Some net ∧ ip_in addr net = true
    else c = entry.
Proof.
  unfold check_entry. destruct (Py.contains "/" entry).
  - destruct (ip_address c) as [addr|]; simpl.
    + destruct (ip_network entry false) as [net|]; simpl.
      * split; [intros [= Hin]; eauto|].
        intros (addr' & net' & [= <-] & [= <-] & Hin). by rewrite Hin.
      * split; [done|]. by intros (? & ? & _ & ? & _).
    + split; [done|]. by intros (? & ? & ? & _).
  - split.
    + intros [= Heq]. by apply bool_decide_eq_true in Heq.
    + intros ->. by rewrite bool_decide_eq_true_2.
Qed.

Lemma verify_ip_address_true (env : environ) (candidate : string) :
  outcome (verify_ip_address env candidate) = Ok true ↔
    get_allowed_ips env = [] ∨
    ∃ entry, entry ∈ get_allowed_ips env ∧
             check_entry (normalize_localhost candidate) entry = Some true.
Proof.
  rewrite verify_ip_address_outcome. split.
  - intros [= Hor]. apply orb_true_iff in Hor as [He|Hex].
    + left. by apply bool_decide_eq_true in He.
    + right. apply existsb_elem_of in Hex as (a & Ha & Hc).
      exists a. split; [done|]. by apply bool_decide_eq_true in Hc.
  - intros [He|(a & Ha & Hc)]; f_equal; apply orb_true_iff.
    + left. by apply bool_decide_eq_true.
    + right. apply existsb_elem_of. exists a. split; [done|].
      by apply bool_decide_eq_true.
Qed.

(** C7: the allowlist check answers true exactly when the allowlist is
    empty or the check of some entry succeeds; it always returns; an
    entry whose evaluation raises [ValueError] is skipped, leaving the
    answer on the remaining entries unchanged, so that a valid entry
    after it still matches. *)
Theorem verify_ip_address_is_allowed (env : environ) (candidate : string) :
  (outcome (verify_ip_address env candidate) = Ok true ↔
     get_allowed_ips env = [] ∨
     ∃ entry, entry ∈ get_allowed_ips env ∧
              check_entry (normalize_localhost candidate) entry = Some true)
  ∧ (∃ b, outcome (verify_ip_address env candidate) = Ok b)
  ∧ (∀ before bad after,
       check_entry candidate bad = None →
       outcome (verify_ip_loop candidate (before ++ bad :: after)%list) =
       outcome (verify_ip_loop candidate (before ++ after)%list))
  ∧ (∀ before bad after good,
       get_allowed_ips env = (before ++ bad :: after)%list →
       check_entry (normalize_localhost candidate) bad = None →
       good ∈ after →
       check_entry (normalize_localhost candidate) good = Some true →
       outcome (verify_ip_address env candidate) = Ok true).
Proof.
  split; [apply verify_ip_address_true|].
  split; [rewrite verify_ip_address_outcome; eauto|].
  split.
  - intros before bad after Hbad.
    rewrite !verify_ip_loop_outcome, !existsb_app. cbn [existsb].
    rewrite Hbad. by rewrite bool_decide_eq_false_2.
  - intros before bad after good Hl Hbad Hin Hgood.
    apply verify_ip_address_true. right. exists good. split; [|done].
    rewrite Hl. apply elem_of_app. right. by apply elem_of_cons; right.
Qed.

(** C6 (as amended): an entry containing [/] is parsed as a network with
    [strict=False] and matches exactly when the candidate, after [::1]
    and [localhost] have been replaced by [127.0.0.1], parses as an
    address inside it; any other entry matches exactly when it equals the
    candidate after that replacement.  Hence [::1] and [localhost] match
    an allowlist containing [127.0.0.1]. *)
Theorem verify_ip_address_entry_semantics
    (env : environ) (candidate entry : string) :
  get_allowed_ips env = [entry] →
  (Py.contains "/" entry = true →
     (outcome (verify_ip_address env candidate) = Ok true ↔
        ∃ addr net,
          ip_address (normalize_localhost candidate) = Some addr ∧
          ip_network entry false = Some net ∧ ip_in addr net = true))
  ∧ (Py.contains "/" entry = false →
     (outcome (verify_ip_address env candidate) = Ok true ↔
        normalize_localhost candidate = entry))
  ∧ (candidate ∈ ["::1"; "localhost"] →
     normalize_localhost candidate = "127.0.0.1")
  ∧ (candidate ∉ ["127.0.0.1"; "::1"; "localhost"] →
     normalize_localhost candidate = candidate)
  ∧ (∀ env', candidate ∈ ["::1"; "localhost"] →
              "127.0.0.1" ∈ get_allowed_ips env' →
              outcome (verify_ip_address env' candidate) = Ok true).
Proof.
  intros Hl.
  assert (Hiff : outcome (verify_ip_address env candidate) = Ok true ↔
                 check_entry (normalize_localhost candidate) entry = Some true).
  { rewrite verify_ip_address_true, Hl. split.
    - intros [?|(a & Ha & Hc)]; [done|].
      apply list_elem_of_singleton in Ha as ->. done.
    - intros Hc. right. exists entry. split; [apply list_elem_of_here|done]. }
  assert (Hn : candidate ∈ ["::1"; "localhost"] →
               normalize_localhost candidate = "127.0.0.1").
  { intros Hin. apply normalize_localhost_names. by apply elem_of_cons; right. }
  split; [|split; [|split; [|split]]].
  - intros Hslash. by rewrite Hiff, check_entry_true, Hslash.
  - intros Hslash. by rewrite Hiff, check_entry_true, Hslash.
  - done.
  - apply normalize_localhost_other.
  - intros env' Hin Hlocal. apply verify_ip_address_true. right.
    exists "127.0.0.1". split; [done|].
    apply check_entry_true. simpl. by apply Hn.
Qed.

(** ** Client address resolution *)

(** The first element of [s.split(sep)] is the part of [s] before its
    first separator. *)
Lemma split_hd_prefix (sep : ascii) (s : string) :
  Py.contains sep (hd EmptyString (Py.split sep s)) = false
  ∧ ∃ rest, s = hd EmptyString (Py.split sep s) +:+ rest
            ∧ (rest = EmptyString ∨ ∃ r, rest = String sep r).
Proof.
  induction s as [|c s [IHc (rest & IHeq & IHrest)]]; cbn [Py.split].
  - split; [done|]. exists EmptyString. split; [done|by left].
  - case_bool_decide as Hc.
    + subst c. split; [done|]. exists (String sep s). split; [done|]. eauto.
    + destruct (Py.split sep s) as [|w ws] eqn:Hs.
      * cbn [hd] in *. split.
        -- cbn [Py.contains]. rewrite bool_decide_eq_false_2; [done|].
           intros ->; done.
        -- exists rest. split; [|done]. cbn. by rewrite IHeq at 1.
      * cbn [hd] in *. split.
        -- cbn [Py.contains]. rewrite bool_decide_eq_false_2; [done|].
           intros ->; done.
        -- exists rest. split; [|done]. cbn. by rewrite IHeq at 1.
Qed.

Lemma truthy_Some (v : string) : v ≠ EmptyString → Py.truthy (Some v) = true.
Proof. intros Hv. unfold Py.truthy. by rewrite bool_decide_eq_false_2. Qed.

Lemma truthy_true (o : option string) :
  Py.truthy o = true ↔ ∃ v, o = Some v ∧ v ≠ EmptyString.
Proof.
  destruct o as [v|]; simpl.
  - rewrite negb_true_iff, bool_decide_eq_false. split.
    + intros Hv. by exists v.
    + by intros (v' & [= <-] & Hv).
  - split; [done|]. by intros (v & ? & _).
Qed.

Lemma verify_access_client_ip_eq (req : Request) :
  verify_access_client_ip req = get_client_ip req.
Proof. reflexivity. Qed.

(** C5 (as amended): the resolved client address is the trimmed
    [X-Real-IP] value when that header is present and not empty;
    otherwise the trimmed part of [X-Forwarded-For] before its first
    comma when that header is present and not empty; otherwise the
    transport peer; otherwise ["unknown"].  The copy of the resolution
    inside [verify_access] agrees with [get_client_ip]. *)
Theorem get_client_ip_precedence (req : Request) :
  (∀ v, headers_get req "X-Real-IP" = Some v → v ≠ EmptyString →
        get_client_ip req = Py.strip v)
  ∧ (∀ f, Py.truthy (headers_get req "X-Real-IP") = false →
          headers_get req "X-Forwarded-For" = Some f → f ≠ EmptyString →
          ∃ first rest,
            f = first +:+ rest ∧ Py.contains "," first = false
            ∧ (rest = EmptyString ∨ ∃ r, rest = String "," r)
            ∧ get_client_ip req = Py.strip first)
  ∧ (∀ peer, Py.truthy (headers_get req "X-Real-IP") = false →
             Py.truthy (headers_get req "X-Forwarded-For") = false →
             client req = Some peer →
             get_client_ip req = host peer)
  ∧ (Py.truthy (headers_get req "X-Real-IP") = false →
     Py.truthy (headers_get req "X-Forwarded-For") = false →
     client req = None →
     get_client_ip req = "unknown")
  ∧ verify_access_client_ip req = get_client_ip req.
Proof.
  unfold get_client_ip. repeat split.
  - intros v Hv Hne. by rewrite Hv, (truthy_Some v Hne).
  - intros f Hreal Hf Hne. rewrite Hreal, Hf, (truthy_Some f Hne). simpl.
    destruct (split_hd_prefix "," f) as [Hc (rest & Heq & Hrest)].
    exists (hd EmptyString (Py.split "," f)), rest. done.
  - intros peer Hreal Hfwd Hpeer. by rewrite Hreal, Hfwd, Hpeer.
  - intros Hreal Hfwd Hpeer. by rewrite Hreal, Hfwd, Hpeer.
Qed.

(** ** The API-key check *)

Lemma verify_api_key_disabled (env : environ) (presented : option string) :
  Py.truthy (get_api_key env) = false →
  verify_api_key env presented =
    ([Enter fn_verify_api_key;
      Log WARNING
        "No hay API_KEY configurada. La autenticación está deshabilitada."],
     Ok "no-key-required").
Proof. intros Hk. unfold verify_api_key. by rewrite Hk. Qed.

Lemma verify_api_key_cases (env : environ) (presented : option string) :
  (∃ k t, verify_api_key env presented = (t, Ok k))
  ∨ (∃ t d h, verify_api_key env presented = (t, Raise (HTTPException 401 d h))
              ∧ ∀ ev, ev ∈ t → ev = Enter fn_verify_api_key ∨ ∃ l m, ev = Log l m).
Proof.
  unfold verify_api_key.
  destruct (Py.truthy (get_api_key env)); simpl; [|left; eauto].
  destruct (Py.truthy presented); simpl.
  - case_bool_decide; simpl; [left; eauto|].
    right. do 3 eexists. split; [done|].
    intros ev Hin. list_cases Hin; eauto.
  - right. do 3 eexists. split; [done|].
    intros ev Hin. list_cases Hin; eauto.
Qed.

Lemma verify_api_key_rejects (env : environ) (expected : string)
    (presented : option string) :
  get_api_key env = Some expected → expected ≠ EmptyString →
  presented ≠ Some expected →
  ∃ t d, verify_api_key env presented =
           (t, Raise (HTTPException 401 d [("WWW-Authenticate", "ApiKey")]))
         ∧ ∀ ev, ev ∈ t → ev = Enter fn_verify_api_key ∨ ∃ l m, ev = Log l m.
Proof.
  intros Hk Hne Hp. unfold verify_api_key.
  rewrite Hk, (truthy_Some _ Hne). simpl.
  destruct (Py.truthy presented); simpl.
  - rewrite bool_decide_eq_false_2 by done. simpl.
    do 2 eexists. split; [done|]. intros ev Hin. list_cases Hin; eauto.
  - do 2 eexists. split; [done|]. intros ev Hin. list_cases Hin; eauto.
Qed.

(** C4: without a configured credential every request passes the key
    check, even with no key; with a credential, a missing key and a key
    different from the credential are both answered 401, whatever the
    client address is, and neither [verify_access] nor the matcher is
    entered. *)
Theorem verify_api_key_contract (env : environ) :
  (Py.truthy (get_api_key env) = false →
     (∀ presented,
        outcome (verify_api_key env presented) = Ok "no-key-required")
     ∧ (∀ req, outcome (access_gate env req) =
               outcome (verify_access env req "no-key-required")))
  ∧ (∀ expected, get_api_key env = Some expected → expected ≠ EmptyString →
       (∃ d h, outcome (verify_api_key env None)
               = Raise (HTTPException 401 d h))
       ∧ (∀ presented, presented ≠ expected →
            ∃ d h, outcome (verify_api_key env (Some presented))
                   = Raise (HTTPException 401 d h))
       ∧ outcome (verify_api_key env (Some expected)) = Ok expected
       ∧ (∀ req, api_key_header req ≠ Some expected →
            (∃ d h, outcome (access_gate env req)
                    = Raise (HTTPException 401 d h))
            ∧ (Enter fn_verify_access ∉ trace (access_gate env req))
            ∧ (Enter fn_verify_ip_address ∉ trace (access_gate env req)))).
Proof.
  split.
  - intros Hk. split.
    + intros presented. by rewrite verify_api_key_disabled.
    + intros req. unfold access_gate. mon.
      by rewrite verify_api_key_disabled.
  - intros expected Hk Hne. split; [|split; [|split]].
    + destruct (verify_api_key_rejects env expected None Hk Hne)
        as (t & d & -> & _); [done|]. eauto.
    + intros presented Hp.
      destruct (verify_api_key_rejects env expected (Some presented) Hk Hne)
        as (t & d & -> & _); [congruence|]. eauto.
    + unfold verify_api_key. rewrite Hk, !(truthy_Some _ Hne). simpl.
      by rewrite bool_decide_eq_true_2.
    + intros req Hreq.
      destruct (verify_api_key_rejects env expected _ Hk Hne Hreq)
        as (t & d & Heq & Ht).
      unfold access_gate. mon. rewrite Heq. simpl.
      split; [eauto|].
      split; intros Hin; apply Ht in Hin as [?|(? & ? & ?)]; done.
Qed.

(** ** The address stage of [verify_access] *)

Lemma verify_ip_address_eta (env : environ) (client_ip : string) :
  ∃ t, verify_ip_address env client_ip = (t, Ok (matcher_allows env client_ip))
       ∧ Enter fn_verify_ip_address ∈ t
       ∧ ∀ ev, ev ∈ t → gate_event ev = true.
Proof.
  exists (trace (verify_ip_address env client_ip)). split; [|split].
  - rewrite (M_eta (verify_ip_address env client_ip)) at 1.
    by rewrite verify_ip_address_outcome.
  - apply verify_ip_address_enters.
  - intros ev. unfold verify_ip_address. rewrite bind_emit_l. cbn [trace fst].
    intros [->|Hin]%elem_of_cons; [done|]. revert Hin.
    case_bool_decide.
    + simpl. intros Hin. list_cases Hin. done.
    + intros (m & ->)%verify_ip_loop_trace. done.
Qed.

Lemma verify_access_run (env : environ) (req : Request) (api_key : string) :
  let ip := verify_access_client_ip req in
  if private_exception env ip then
    verify_access env req api_key =
      ([Enter fn_verify_access;
        Log INFO ("Acceso desde red Docker/privada (" +:+ ip +:+
                  ") permitido porque localhost está en whitelist")],
       Ok api_key)
  else
    ∃ t, Enter fn_verify_ip_address ∈ t ∧
      (∀ ev, ev ∈ t → gate_event ev = true) ∧
      verify_access env req api_key =
        if matcher_allows env ip then
          (Enter fn_verify_access :: t ++
             [Log INFO ("Acceso autorizado desde IP: " +:+ ip)],
           Ok api_key)%list
        else
          (Enter fn_verify_access :: t ++
             [Log WARNING ("Intento de acceso desde IP no permitida: " +:+ ip)],
           Raise (HTTPException 403
             ("Acceso denegado. Tu IP (" +:+ ip +:+
              ") no está en la lista de IPs permitidas.") []))%list.
Proof.
  intros ip. unfold verify_access. fold ip.
  unfold private_exception.
  destruct (bool_decide ("127.0.0.1" ∈ get_allowed_ips env) && docker_prefix ip).
  - done.
  - destruct (verify_ip_address_eta env ip) as (t & Heq & Hin & Hgate).
    exists t. split; [done|]. split; [done|]. rewrite Heq.
    destruct (matcher_allows env ip); simpl; by rewrite ?app_nil_r.
Qed.

Lemma verify_access_outcome (env : environ) (req : Request) (api_key : string) :
  let ip := verify_access_client_ip req in
  outcome (verify_access env req api_key) =
    if ip_decision env ip then Ok api_key
    else Raise (HTTPException 403
           ("Acceso denegado. Tu IP (" +:+ ip +:+
            ") no está en la lista de IPs permitidas.") []).
Proof.
  intros ip. pose proof (verify_access_run env req api_key) as Hrun.
  cbv zeta in Hrun. fold ip in Hrun. unfold ip_decision.
  destruct (private_exception env ip); simpl.
  - by rewrite Hrun.
  - destruct Hrun as (t & _ & _ & ->). by destruct (matcher_allows env ip).
Qed.

Lemma verify_access_matcher (env : environ) (req : Request) (api_key : string) :
  Enter fn_verify_ip_address ∈ trace (verify_access env req api_key) ↔
  private_exception env (verify_access_client_ip req) = false.
Proof.
  pose proof (verify_access_run env req api_key) as Hrun. cbv zeta in Hrun.
  destruct (private_exception env (verify_access_client_ip req)).
  - rewrite Hrun. simpl. split; [|done].
    intros Hin. list_cases Hin; done.
  - destruct Hrun as (t & Hin & _ & ->). split; [done|]. intros _.
    destruct (matcher_allows env _); simpl;
      apply elem_of_cons; right; apply elem_of_app; by left.
Qed.

Lemma docker_prefix_true (ip : string) :
  docker_prefix ip = true ↔
    Py.startswith ip "172." = true ∨ Py.startswith ip "192.168." = true
    ∨ Py.startswith ip "10." = true.
Proof. unfold docker_prefix. rewrite !orb_true_iff. tauto. Qed.

Lemma private_exception_true (env : environ) (ip : string) :
  private_exception env ip = true ↔
    "127.0.0.1" ∈ get_allowed_ips env ∧
    (Py.startswith ip "172." = true ∨ Py.startswith ip "192.168." = true
     ∨ Py.startswith ip "10." = true).
Proof.
  unfold private_exception.
  by rewrite andb_true_iff, bool_decide_eq_true, docker_prefix_true.
Qed.

(** C3: with [127.0.0.1] in the allowlist, a client address beginning
    with [172.], [192.168.] or [10.] is granted by [verify_access]
    whether or not an entry matches it, and the matcher is not entered;
    the same holds of the whole gate once the key check has passed. *)
Theorem private_network_short_circuit
    (env : environ) (req : Request) (api_key : string) :
  "127.0.0.1" ∈ get_allowed_ips env →
  (Py.startswith (verify_access_client_ip req) "172." = true
   ∨ Py.startswith (verify_access_client_ip req) "192.168." = true
   ∨ Py.startswith (verify_access_client_ip req) "10." = true) →
  outcome (verify_access env req api_key) = Ok api_key
  ∧ (Enter fn_verify_ip_address ∉ trace (verify_access env req api_key))
  ∧ (∀ k, outcome (verify_api_key env (api_key_header req)) = Ok k →
          outcome (access_gate env req) = Ok k
          ∧ (Enter fn_verify_ip_address ∉ trace (access_gate env req))).
Proof.
  intros Hin Hpre.
  assert (Hex : private_exception env (verify_access_client_ip req) = true)
    by by apply private_exception_true.
  assert (Hno : ∀ k, Enter fn_verify_ip_address
                       ∉ trace (verify_access env req k)).
  { intros k. rewrite verify_access_matcher, Hex. done. }
  split; [|split; [apply Hno|]].
  - rewrite verify_access_outcome. unfold ip_decision. by rewrite Hex.
  - intros k Hk. unfold access_gate. mon. rewrite Hk. split.
    + rewrite verify_access_outcome. unfold ip_decision. by rewrite Hex.
    + intros [Hkey|Hacc]%elem_of_app; [|by apply (Hno k)].
      destruct (verify_api_key_cases env (api_key_header req))
        as [(k' & t & Heq)|(t & d & h & Heq & Ht)].
      * revert Hkey Hk. unfold verify_api_key.
        destruct (negb (Py.truthy (get_api_key env))); simpl.
        { intros Hkey. list_cases Hkey; done. }
        destruct (negb (Py.truthy (api_key_header req))); simpl; [done|].
        destruct (negb (bool_decide _)); simpl; [done|].
        intros Hkey. list_cases Hkey; done.
      * rewrite Heq in Hk. done.
Qed.

(** ** The documentation middleware *)

Lemma docs_forwards_not_rejects (env : environ) (req : Request) :
  docs_forwards env req → ¬ docs_rejects env req.
Proof.
  intros (t & Hf) (t' & d & Hr).
  specialize (Hf (λ _, ret (PageResponse EmptyString))).
  rewrite Hr in Hf. simpl in Hf. congruence.
Qed.

(** A literal [127.0.0.1] entry matches every spelling of localhost. *)
Lemma localhost_literal_matches (env : environ) (ip : string) :
  "127.0.0.1" ∈ get_allowed_ips env →
  ip ∈ ["127.0.0.1"; "::1"; "localhost"] →
  matcher_allows env ip = true.
Proof.
  intros Hin Hip. unfold matcher_allows. apply orb_true_iff. right.
  apply existsb_elem_of. exists "127.0.0.1". split; [done|].
  apply bool_decide_eq_true. rewrite (normalize_localhost_names ip Hip).
  reflexivity.
Qed.

(** On a documentation path the middleware forwards or rejects
    according to the address stage of the gate. *)
Lemma dispatch_docs (env : environ) (req : Request) :
  existsb (Py.startswith (url_path req)) docs_paths = true →
  if ip_decision env (get_client_ip req)
  then docs_forwards env req else docs_rejects env req.
Proof.
  intros Hpath. unfold docs_forwards, docs_rejects, DocsAccessMiddleware_dispatch.
  rewrite Hpath. unfold ip_decision, private_exception.
  set (ip := get_client_ip req).
  destruct (bool_decide (get_allowed_ips env = [])) eqn:Hnil.
  { replace (matcher_allows env ip) with true
      by (unfold matcher_allows; by rewrite Hnil).
    rewrite orb_true_r. eexists [Log WARNING _]. intros call_next.
    by destruct (call_next req). }
  destruct (bool_decide ("127.0.0.1" ∈ get_allowed_ips env)) eqn:Hlocal;
    simpl.
  - destruct (docker_prefix ip) eqn:Hpre.
    + rewrite orb_true_r. simpl. eexists [Log INFO _; Log INFO _].
      intros call_next. by destruct (call_next req).
    + rewrite orb_false_r. simpl.
      destruct (bool_decide (ip ∈ ["127.0.0.1"; "::1"; "localhost"]))
        eqn:Hname; simpl.
      * rewrite localhost_literal_matches;
          [|by apply bool_decide_eq_true in Hlocal
           |by apply bool_decide_eq_true in Hname].
        eexists [Log INFO _; Log INFO _].
        intros call_next. by destruct (call_next req).
      * destruct (verify_ip_address_eta env ip) as (t & -> & _).
        destruct (matcher_allows env ip); simpl.
        -- eexists (t ++ [Log INFO _])%list. intros call_next.
           destruct (call_next req). by rewrite <- app_assoc.
        -- by do 2 eexists.
  - destruct (verify_ip_address_eta env ip) as (t & -> & _).
    destruct (matcher_allows env ip); simpl.
    + eexists (t ++ [Log INFO _])%list. intros call_next.
      destruct (call_next req). by rewrite <- app_assoc.
    + by do 2 eexists.
Qed.

Lemma docs_forwards_iff (env : environ) (req : Request) :
  existsb (Py.startswith (url_path req)) docs_paths = true →
  docs_forwards env req ↔ ip_decision env (get_client_ip req) = true.
Proof.
  intros Hpath. pose proof (dispatch_docs env req Hpath) as Hd.
  destruct (ip_decision env (get_client_ip req)).
  - done.
  - split; [|done]. intros Hf. by destruct (docs_forwards_not_rejects env req).
Qed.

Lemma docs_rejects_iff (env : environ) (req : Request) :
  existsb (Py.startswith (url_path req)) docs_paths = true →
  docs_rejects env req ↔ ip_decision env (get_client_ip req) = false.
Proof.
  intros Hpath. pose proof (dispatch_docs env req Hpath) as Hd.
  destruct (ip_decision env (get_client_ip req)).
  - split; [|done]. intros Hr. by destruct (docs_forwards_not_rejects env req).
  - done.
Qed.

(** C2 (as amended): on the documentation paths the middleware takes the
    same address decision as [verify_access] (same client resolution,
    open mode on an empty allowlist, private-network branch, matcher)
    and makes no API-key check.  It forwards exactly the requests whose
    address [verify_access] accepts and answers 403 exactly those it
    refuses with 403; so it forwards every request the whole gate
    grants, and the converse holds when the key check passes. *)
Theorem docs_middleware_address_decision (env : environ) (req : Request) :
  existsb (Py.startswith (url_path req)) docs_paths = true →
  (docs_forwards env req ↔
     ∀ api_key, outcome (verify_access env req api_key) = Ok api_key)
  ∧ (docs_rejects env req ↔
     ∀ api_key, ∃ d,
       outcome (verify_access env req api_key)
       = Raise (HTTPException 403 d []))
  ∧ ((∃ k, outcome (access_gate env req) = Ok k) → docs_forwards env req)
  ∧ (docs_forwards env req →
     ∀ k, outcome (verify_api_key env (api_key_header req)) = Ok k →
          outcome (access_gate env req) = Ok k)
  ∧ get_client_ip req = verify_access_client_ip req.
Proof.
  intros Hpath.
  assert (Hacc : ∀ k, outcome (verify_access env req k) =
            if ip_decision env (get_client_ip req) then Ok k
            else Raise (HTTPException 403
                   ("Acceso denegado. Tu IP (" +:+ get_client_ip req +:+
                    ") no está en la lista de IPs permitidas.") []))
    by apply verify_access_outcome.
  split; [|split; [|split; [|split]]].
  - rewrite (docs_forwards_iff env req Hpath). split.
    + intros Hd k. by rewrite Hacc, Hd.
    + intros Hk. specialize (Hk EmptyString). rewrite Hacc in Hk.
      by destruct (ip_decision env (get_client_ip req)).
  - rewrite (docs_rejects_iff env req Hpath). split.
    + intros Hd k. rewrite Hacc, Hd. eauto.
    + intros Hk. destruct (Hk EmptyString) as (d & Hd). rewrite Hacc in Hd.
      by destruct (ip_decision env (get_client_ip req)).
  - intros (k & Hk). apply (docs_forwards_iff env req Hpath).
    revert Hk. unfold access_gate. mon.
    destruct (outcome (verify_api_key env (api_key_header req))) as [k'|e];
      [|done].
    rewrite Hacc. by destruct (ip_decision env (get_client_ip req)).
  - intros Hf k Hk. apply (docs_forwards_iff env req Hpath) in Hf.
    unfold access_gate. mon. by rewrite Hk, Hacc, Hf.
  - reflexivity.
Qed.

Lemma verify_ip_address_events (env : environ) (client_ip : string) ev :
  ev ∈ trace (verify_ip_address env client_ip) →
  ev = Enter fn_verify_ip_address ∨ ∃ m, ev = Log WARNING m.
Proof.
  unfold verify_ip_address. rewrite bind_emit_l. cbn [trace fst].
  intros [->|Hin]%elem_of_cons; [by left|]. right. revert Hin.
  case_bool_decide.
  - simpl. intros Hin. list_cases Hin. by eexists.
  - apply verify_ip_loop_trace.
Qed.

Lemma docs_branch_condition (env : environ) (client_ip : string) :
  bool_decide ("127.0.0.1" ∈ get_allowed_ips env)
  && (bool_decide (client_ip ∈ ["127.0.0.1"; "::1"; "localhost"])
      || docker_prefix client_ip) = true ↔
  "127.0.0.1" ∈ get_allowed_ips env
  ∧ (client_ip ∈ ["127.0.0.1"; "::1"; "localhost"]
     ∨ Py.startswith client_ip "172." = true
     ∨ Py.startswith client_ip "192.168." = true
     ∨ Py.startswith client_ip "10." = true).
Proof.
  rewrite andb_true_iff, orb_true_iff, !bool_decide_eq_true.
  unfold docker_prefix. rewrite !orb_true_iff. tauto.
Qed.

Lemma docs_branch_run (env : environ) (req : Request) :
  existsb (Py.startswith (url_path req)) docs_paths = true →
  bool_decide ("127.0.0.1" ∈ get_allowed_ips env)
  && (bool_decide (get_client_ip req ∈ ["127.0.0.1"; "::1"; "localhost"])
      || docker_prefix (get_client_ip req)) = true →
  ∀ call_next,
    DocsAccessMiddleware_dispatch env req call_next =
      (emit (docs_branch_record (get_client_ip req)) ;;
       log INFO ("Acceso a documentación autorizado desde IP: " +:+
                 get_client_ip req) ;;
       call_next req).
Proof.
  intros Hpath Hcond call_next. unfold DocsAccessMiddleware_dispatch.
  rewrite Hpath. cbv zeta. rewrite Hcond.
  rewrite bool_decide_eq_false_2.
  2:{ intros Hnil. apply andb_true_iff in Hcond as [Hin _].
      apply bool_decide_eq_true in Hin. rewrite Hnil in Hin.
      by apply elem_of_nil in Hin. }
  unfold docs_branch_record, log. simpl. by destruct (call_next req).
Qed.

Lemma docs_branch_fires_iff (env : environ) (req : Request) :
  docs_branch_fires env req ↔
  existsb (Py.startswith (url_path req)) docs_paths = true
  ∧ bool_decide ("127.0.0.1" ∈ get_allowed_ips env)
    && (bool_decide (get_client_ip req ∈ ["127.0.0.1"; "::1"; "localhost"])
        || docker_prefix (get_client_ip req)) = true.
Proof.
  unfold docs_branch_fires. split.
  - unfold docs_branch_record.
    destruct (existsb (Py.startswith (url_path req)) docs_paths) eqn:Hpath.
    2:{ unfold DocsAccessMiddleware_dispatch. rewrite Hpath.
        intros Hin. by apply elem_of_nil in Hin. }
    destruct (bool_decide ("127.0.0.1" ∈ get_allowed_ips env)
              && (bool_decide (get_client_ip req
                               ∈ ["127.0.0.1"; "::1"; "localhost"])
                  || docker_prefix (get_client_ip req))) eqn:Hcond; [done|].
    unfold DocsAccessMiddleware_dispatch. rewrite Hpath. cbv zeta.
    rewrite Hcond.
    destruct (bool_decide (get_allowed_ips env = [])) eqn:Hnil.
    { unfold log. rewrite bind_emit_l. cbn [trace fst ret].
      intros Hin. list_cases Hin. discriminate. }
    rewrite bind_ret_l. cbn [negb].
    rewrite trace_bind.
    pose proof (verify_ip_address_events env (get_client_ip req)) as Hev.
    destruct (verify_ip_address_eta env (get_client_ip req))
      as (t & Hrun & _).
    rewrite Hrun in Hev |- *. cbn [outcome snd trace fst] in Hev |- *.
    intros [Hin|Hin]%elem_of_app.
    { by destruct (Hev _ Hin) as [?|[? ?]]. }
    revert Hin.
    destruct (matcher_allows env (get_client_ip req)); cbn [negb];
      unfold log; rewrite bind_emit_l; cbn [trace fst ret];
      intros Hin; list_cases Hin; discriminate.
  - intros [Hpath Hcond].
    rewrite (docs_branch_run env req Hpath Hcond). rewrite bind_emit_l.
    apply list_elem_of_here.
Qed.

(** C10: in [verify_access] the matcher is skipped exactly when the
    allowlist contains the string [127.0.0.1] itself and the client
    string has one of the three prefixes; without that literal entry
    (whatever [localhost], [::1] or network entries are listed) the
    decision is the matcher's; the client string is not parsed as an
    address, so [10.not.an.ip] is granted.  The middleware's branch
    grants the same requests without consulting the matcher, and
    without the literal entry its decision is the matcher's too.  The
    middleware takes its branch exactly when the path is a
    documentation path, the allowlist contains the string [127.0.0.1]
    and the client string is one of [127.0.0.1], [::1], [localhost] or
    has one of the three prefixes; it then forwards the request after
    its two records, without entering the matcher. *)
Theorem docker_branch_exactly
    (env : environ) (req : Request) (api_key : string) :
  (Enter fn_verify_ip_address ∉ trace (verify_access env req api_key) ↔
     "127.0.0.1" ∈ get_allowed_ips env ∧
     (Py.startswith (verify_access_client_ip req) "172." = true
      ∨ Py.startswith (verify_access_client_ip req) "192.168." = true
      ∨ Py.startswith (verify_access_client_ip req) "10." = true))
  ∧ ("127.0.0.1" ∉ get_allowed_ips env →
     Enter fn_verify_ip_address ∈ trace (verify_access env req api_key)
     ∧ (outcome (verify_access env req api_key) = Ok api_key ↔
        outcome (verify_ip_address env (verify_access_client_ip req))
        = Ok true))
  ∧ ((∀ entry, entry ∈ get_allowed_ips env →
               entry ∈ ["localhost"; "::1"; "127.0.0.0/8"]) →
     Enter fn_verify_ip_address ∈ trace (verify_access env req api_key))
  ∧ ("127.0.0.1" ∈ get_allowed_ips env →
     verify_access_client_ip req = "10.not.an.ip" →
     outcome (verify_access env req api_key) = Ok api_key)
  ∧ ("127.0.0.1" ∈ get_allowed_ips env →
     docker_prefix (get_client_ip req) = true →
     existsb (Py.startswith (url_path req)) docs_paths = true →
     ∀ call_next,
       DocsAccessMiddleware_dispatch env req call_next =
         (log INFO ("Acceso a documentación desde red Docker/privada (" +:+
                    get_client_ip req +:+
                    ") permitido porque localhost está en whitelist") ;;
          log INFO ("Acceso a documentación autorizado desde IP: " +:+
                    get_client_ip req) ;;
          call_next req))
  ∧ ("127.0.0.1" ∉ get_allowed_ips env →
     existsb (Py.startswith (url_path req)) docs_paths = true →
     (docs_forwards env req ↔
      outcome (verify_ip_address env (get_client_ip req)) = Ok true))
  ∧ (docs_branch_fires env req ↔
     existsb (Py.startswith (url_path req)) docs_paths = true
     ∧ "127.0.0.1" ∈ get_allowed_ips env
     ∧ (get_client_ip req ∈ ["127.0.0.1"; "::1"; "localhost"]
        ∨ Py.startswith (get_client_ip req) "172." = true
        ∨ Py.startswith (get_client_ip req) "192.168." = true
        ∨ Py.startswith (get_client_ip req) "10." = true))
  ∧ (docs_branch_fires env req →
     ∀ call_next,
       DocsAccessMiddleware_dispatch env req call_next =
         (emit (docs_branch_record (get_client_ip req)) ;;
          log INFO ("Acceso a documentación autorizado desde IP: " +:+
                    get_client_ip req) ;;
          call_next req)).
Proof.
  assert (Hno : "127.0.0.1" ∉ get_allowed_ips env →
                private_exception env (verify_access_client_ip req) = false).
  { intros Hnot. apply not_true_is_false.
    rewrite private_exception_true. tauto. }
  split; [|split; [|split; [|split; [|split; [|split; [|split]]]]]].
  - rewrite verify_access_matcher, <- private_exception_true.
    by destruct (private_exception env _).
  - intros Hnot. split; [by apply verify_access_matcher, Hno|].
    rewrite verify_access_outcome, verify_ip_address_outcome.
    unfold ip_decision. rewrite (Hno Hnot). simpl. fold (matcher_allows env).
    unfold matcher_allows.
    destruct (_ || _); split; (done || by intros [=]).
  - intros Hall. apply verify_access_matcher, Hno.
    intros Hin. apply Hall in Hin. list_cases Hin; done.
  - intros Hin Hip. rewrite verify_access_outcome. unfold ip_decision.
    replace (private_exception env _) with true; [done|].
    symmetry. apply private_exception_true. split; [done|].
    rewrite Hip. right; right. reflexivity.
  - intros Hin Hpre Hpath call_next. unfold DocsAccessMiddleware_dispatch.
    rewrite Hpath. rewrite bool_decide_eq_false_2.
    2:{ intros Hnil. rewrite Hnil in Hin. by apply elem_of_nil in Hin. }
    rewrite (bool_decide_eq_true_2 _ Hin), Hpre, orb_true_r. simpl.
    by destruct (call_next req).
  - intros Hnot Hpath. rewrite (docs_forwards_iff env req Hpath).
    rewrite verify_ip_address_outcome. unfold ip_decision.
    change (get_client_ip req) with (verify_access_client_ip req).
    rewrite (Hno Hnot). unfold matcher_allows. simpl.
    split; [by intros ->|by intros [= ->]].
- rewrite docs_branch_fires_iff, docs_branch_condition. tauto.
  - intros [Hpath Hcond]%docs_branch_fires_iff.
    by apply docs_branch_run.
Qed.

(** ** The mail-send route *)

Lemma verify_api_key_trace (env : environ) (presented : option string) ev :
  ev ∈ trace (verify_api_key env presented) → gate_event ev = true.
Proof.
  unfold verify_api_key.
  destruct (negb (Py.truthy (get_api_key env))); simpl.
  { intros Hin. list_cases Hin; done. }
  destruct (negb (Py.truthy presented)); simpl.
  { intros Hin. list_cases Hin; done. }
  destruct (negb (bool_decide _)); simpl; intros Hin; list_cases Hin; done.
Qed.

Lemma verify_access_trace (env : environ) (req : Request) (k : string) ev :
  ev ∈ trace (verify_access env req k) → gate_event ev = true.
Proof.
  pose proof (verify_access_run env req k) as Hrun. cbv zeta in Hrun.
  destruct (private_exception env _).
  - rewrite Hrun. simpl. intros Hin. list_cases Hin; done.
  - destruct Hrun as (t & _ & Hgate & ->).
    destruct (matcher_allows env _); simpl;
      intros [->|[Hin|Hin]%elem_of_app]%elem_of_cons;
      try done; try (by apply Hgate); list_cases Hin; done.
Qed.

Lemma access_gate_trace (env : environ) (req : Request) ev :
  ev ∈ trace (access_gate env req) → gate_event ev = true.
Proof.
  unfold access_gate. mon.
  destruct (outcome (verify_api_key env (api_key_header req))) as [k|e].
  - intros [Hin|Hin]%elem_of_app.
    + by apply verify_api_key_trace in Hin.
    + by apply verify_access_trace in Hin.
  - apply verify_api_key_trace.
Qed.

Lemma gate_event_not_mail ev : gate_event ev = true → mail_action ev = false.
Proof. by destruct ev as [| [] |]. Qed.

(** C1: on the mail-send route, an entry into [send_email] or an SMTP
    operation occurs only when the gate (key check, then address check)
    has granted the request; when the gate raises, the request ends with
    the gate's exception and nothing but the gate's own events. *)
Theorem mail_only_after_gate
    (env : environ) (w : World) (req : Request) (json_body : EmailRequest) :
  ((∃ ev, ev ∈ trace (post_send_email env w req json_body)
          ∧ mail_action ev = true) →
   ∃ k, outcome (access_gate env req) = Ok k)
  ∧ (∀ e, outcome (access_gate env req) = Raise e →
       outcome (post_send_email env w req json_body) = Raise e
       ∧ trace (post_send_email env w req json_body)
         = trace (access_gate env req)
       ∧ ∀ ev, ev ∈ trace (post_send_email env w req json_body) →
               mail_action ev = false).
Proof.
  assert (Hdeny : ∀ e, outcome (access_gate env req) = Raise e →
       outcome (post_send_email env w req json_body) = Raise e
       ∧ trace (post_send_email env w req json_body)
         = trace (access_gate env req)).
  { intros e He. unfold post_send_email. mon. by rewrite He. }
  split.
  - intros (ev & Hin & Hmail).
    destruct (outcome (access_gate env req)) as [k|e] eqn:Hgate; [eauto|].
    destruct (Hdeny e eq_refl) as [_ Htr]. rewrite Htr in Hin.
    apply access_gate_trace, gate_event_not_mail in Hin. congruence.
  - intros e He. destruct (Hdeny e He) as [Ho Htr]. split; [done|].
    split; [done|]. intros ev. rewrite Htr.
    intros Hin. apply gate_event_not_mail. by apply (access_gate_trace env req).
Qed.

Lemma validate_body_empty_recipients (raw : EmailRequest) :
  recipients raw = [] →
  ∃ errs, validate_body raw =
            ([Enter fn_validate_body], Raise (RequestValidationError errs))
          ∧ "recipients" ∈ errs.
Proof.
  intros Hr. unfold validate_body. rewrite Hr. simpl.
  eexists. split; [reflexivity|].
  apply elem_of_app. right. apply elem_of_app. right. apply list_elem_of_here.
Qed.

(** C8 (as amended): a mail-send request with an empty recipients list
    never reaches [send_email] or the SMTP server.  The gate runs first:
    if it denies, the request ends with the gate's 401 or 403 and the
    body is not validated; if it grants, the request is rejected by
    schema validation, with an error on [recipients]. *)
Theorem empty_recipients_rejected
    (env : environ) (w : World) (req : Request) (json_body : EmailRequest) :
  recipients json_body = [] →
  (∀ ev, ev ∈ trace (post_send_email env w req json_body) →
         mail_action ev = false)
  ∧ (∀ k, outcome (access_gate env req) = Ok k →
       ∃ errs,
         outcome (post_send_email env w req json_body)
         = Raise (RequestValidationError errs)
         ∧ "recipients" ∈ errs
         ∧ trace (post_send_email env w req json_body)
           = (trace (access_gate env req) ++ [Enter fn_validate_body])%list)
  ∧ (∀ e, outcome (access_gate env req) = Raise e →
       outcome (post_send_email env w req json_body) = Raise e
       ∧ (Enter fn_validate_body
            ∉ trace (post_send_email env w req json_body))).
Proof.
  intros Hr.
  destruct (validate_body_empty_recipients json_body Hr) as (errs & Hv & Herr).
  assert (Hrun : trace (post_send_email env w req json_body) =
            match outcome (access_gate env req) with
            | Ok _ => (trace (access_gate env req) ++ [Enter fn_validate_body])%list
            | Raise _ => trace (access_gate env req)
            end
          ∧ outcome (post_send_email env w req json_body) =
            match outcome (access_gate env req) with
            | Ok _ => Raise (RequestValidationError errs)
            | Raise e => Raise e
            end).
  { unfold post_send_email. mon. rewrite Hv. cbn [outcome trace fst snd].
    by destruct (outcome (access_gate env req)). }
  destruct Hrun as [Htr Ho]. split; [|split].
  - intros ev. rewrite Htr.
    destruct (outcome (access_gate env req)).
    + intros [Hin|Hin]%elem_of_app.
      * apply gate_event_not_mail. by apply (access_gate_trace env req).
      * list_cases Hin. done.
    + intros Hin. apply gate_event_not_mail. by apply (access_gate_trace env req).
  - intros k Hk. exists errs. by rewrite Ho, Htr, Hk.
  - intros e He. rewrite Ho, Htr, He. split; [done|].
    intros Hin. by apply access_gate_trace in Hin.
Qed.

(** ** Attachments and the mail relay *)

Lemma prefix_append (a b : string) : String.prefix a (a +:+ b) = true.
Proof.
  induction a as [|c a IH]; simpl; [by destruct b|].
  by rewrite IH; destruct (Ascii.ascii_dec c c).
Qed.

Lemma substring_of_middle (a n b : string) :
  substring_of n (a +:+ n +:+ b) = true.
Proof.
  induction a as [|c a IH].
  - change (substring_of n (n +:+ b) = true).
    pose proof (prefix_append n b) as Hp.
    destruct (n +:+ b); unfold substring_of; fold substring_of;
      by rewrite Hp.
  - change (substring_of n (String c (a +:+ n +:+ b)) = true).
    unfold substring_of; fold substring_of. rewrite IH. apply orb_true_r.
Qed.

Lemma get_smtp_config_cases (env : environ) :
  (∃ cfg, get_smtp_config env = ([], Ok cfg))
  ∨ (∃ m, get_smtp_config env = ([], Raise (ValueError m))).
Proof.
  unfold get_smtp_config. destruct (int_of_str _); [|right; eauto].
  destruct (negb (bool_decide _)); [right|left]; eauto.
Qed.

Lemma decode_base64_attachment_run (a : Attachment) :
  decode_base64_attachment a =
    ([Enter fn_decode_base64_attachment],
     match b64decode (content a) with
     | inr data => Ok data
     | inl e => Raise (ValueError ("Error al decodificar el adjunto " +:+
                                   filename a +:+ ": " +:+ e))
     end).
Proof. unfold decode_base64_attachment. by destruct (b64decode _). Qed.

(** The attachment loop produces nothing but entries into the decoder,
    and raises nothing but [ValueError]. *)
Lemma attach_all_trace (atts : list Attachment) (parts : list mime_part) ev :
  ev ∈ trace (attach_all parts atts) → ev = Enter fn_decode_base64_attachment.
Proof.
  revert parts. induction atts as [|a atts IH]; intros parts;
    cbn [attach_all].
  - intros Hin. list_cases Hin.
  - rewrite decode_base64_attachment_run.
    destruct (b64decode (content a)) as [e|data].
    + intros Hin. list_cases Hin. done.
    + rewrite bind_pair_ok. cbn [trace fst]. rewrite elem_of_app.
      intros [Hin|Hin]; [list_cases Hin; done|]. revert Hin.
      destruct (Py.truthy (content_type a)).
      * unfold set_type. destruct (negb (bool_decide _)).
        -- rewrite bind_raise_l. intros Hin. list_cases Hin.
        -- rewrite bind_ret_l. apply IH.
      * rewrite bind_ret_l. apply IH.
Qed.



(** What [send_email] does when its attachment loop raises. *)
Lemma send_email_attachment_failure (env : environ) (w : World)
    (subj bdy : string) (rcpts : list string) (atts : list Attachment)
    (html : bool) (cfg : smtp_config) (m : string) :
  get_smtp_config env = ([], Ok cfg) →
  atts ≠ [] →
  outcome (attach_all
             [MIMEText bdy (if html then "html" else "plain") "utf-8"] atts)
    = Raise (ValueError m) →
  outcome (send_email env w subj bdy rcpts (Some atts) html)
    = Raise (ValueError m)
  ∧ ∀ ev, ev ∈ trace (send_email env w subj bdy rcpts (Some atts) html) →
          is_smtp ev = false.
Proof.
  intros Hcfg Hne Hatt. unfold send_email.
  destruct atts as [|a atts]; [done|].
  rewrite Hcfg, bind_pair_ok.
  set (parts := [MIMEText bdy (if html then "html" else "plain") "utf-8"]) in *.
  rewrite (M_eta (attach_all parts (a :: atts))), Hatt, bind_pair_raise.
  cbn [trace outcome fst snd app]. rewrite catch_pair_raise.
  unfold log. rewrite !bind_emit_l. cbn [trace outcome fst snd raise].
  split; [done|].
  intros ev [->|Hin]%elem_of_cons; [done|].
  apply elem_of_app in Hin as [Hin|Hin].
  - by apply attach_all_trace in Hin as ->.
  - list_cases Hin. done.
Qed.

Lemma send_email_config_failure (env : environ) (w : World)
    (subj bdy : string) (rcpts : list string)
    (atts : option (list Attachment)) (html : bool) (m : string) :
  get_smtp_config env = ([], Raise (ValueError m)) →
  send_email env w subj bdy rcpts atts html =
    ([Enter fn_send_email; Log ERROR ("Error al enviar correo: " +:+ m)],
     Raise (ValueError m)).
Proof. intros Hcfg. unfold send_email. by rewrite Hcfg. Qed.


End Properties.

(** * Further properties of the program *)

Section Configuration.
Context {lib : PyLib}.

(** ** Python string functions *)

Lemma lstrip_no_lead (s : string) :
  match Py.lstrip s with
  | String c _ => Py.isspace c = false
  | EmptyString => True
  end.
Proof.
  induction s as [|c s IH]; [done|].
  cbn [Py.lstrip]. destruct (Py.isspace c) eqn:Hc; [done|]. exact Hc.
Qed.

Lemma lstrip_id (s : string) :
  match s with
  | String c _ => Py.isspace c = false
  | EmptyString => True
  end → Py.lstrip s = s.
Proof. destruct s as [|c s]; [done|]. cbn [Py.lstrip]. by intros ->. Qed.

Lemma rstrip_idemp (s : string) : Py.rstrip (Py.rstrip s) = Py.rstrip s.
Proof.
  induction s as [|c s IH]; [done|].
  cbn [Py.rstrip].
  destruct (Py.isspace c && bool_decide (Py.rstrip s = EmptyString)) eqn:Hc;
    [done|].
  cbn [Py.rstrip]. by rewrite IH, Hc.
Qed.

Lemma rstrip_no_lead (s : string) :
  match s with
  | String c _ => Py.isspace c = false
  | EmptyString => True
  end →
  match Py.rstrip s with
  | String c _ => Py.isspace c = false
  | EmptyString => True
  end.
Proof.
  destruct s as [|c s]; [done|]. intros Hc. cbn [Py.rstrip].
  by rewrite Hc.
Qed.

Lemma strip_idemp (s : string) : Py.strip (Py.strip s) = Py.strip s.
Proof.
  unfold Py.strip.
  rewrite (lstrip_id (Py.rstrip (Py.lstrip s))).
  - apply rstrip_idemp.
  - apply rstrip_no_lead, lstrip_no_lead.
Qed.

Lemma contains_lstrip (c : ascii) (s : string) :
  Py.contains c (Py.lstrip s) = true → Py.contains c s = true.
Proof.
  induction s as [|d s IH]; [done|].
  cbn [Py.lstrip]. destruct (Py.isspace d); [|done].
  intros Hc. cbn [Py.contains]. rewrite (IH Hc). apply orb_true_r.
Qed.

Lemma contains_rstrip (c : ascii) (s : string) :
  Py.contains c (Py.rstrip s) = true → Py.contains c s = true.
Proof.
  induction s as [|d s IH]; [done|].
  cbn [Py.rstrip].
  destruct (Py.isspace d && bool_decide (Py.rstrip s = EmptyString));
    [done|].
  cbn [Py.contains]. intros [Hd|Hs]%orb_true_iff.
  - by rewrite Hd.
  - rewrite (IH Hs). apply orb_true_r.
Qed.

Lemma contains_strip (c : ascii) (s : string) :
  Py.contains c s = false → Py.contains c (Py.strip s) = false.
Proof.
  intros Hs. apply not_true_is_false. intros Hc.
  apply contains_rstrip, contains_lstrip in Hc. congruence.
Qed.

(** No element of [s.split(sep)] contains the separator. *)
Lemma split_no_sep (sep : ascii) (s piece : string) :
  piece ∈ Py.split sep s → Py.contains sep piece = false.
Proof.
  revert piece. induction s as [|c s IH]; intros piece; cbn [Py.split].
  - intros Hin. list_cases Hin. done.
  - case_bool_decide as Hc.
    + intros [->|Hin]%elem_of_cons; [done|by apply IH].
    + destruct (Py.split sep s) as [|w ws].
      * intros Hin. list_cases Hin. cbn [Py.contains].
        rewrite bool_decide_eq_false_2; [done|by intros ->].
      * intros [->|Hin]%elem_of_cons.
        -- cbn [Py.contains]. rewrite bool_decide_eq_false_2 by (by intros ->).
           apply IH, list_elem_of_here.
        -- apply IH. by apply elem_of_cons; right.
Qed.

(** ** [get_allowed_ips] *)

Lemma get_allowed_ips_elem (env : environ) (entry : string) :
  entry ∈ get_allowed_ips env ↔
    ∃ piece, piece ∈ Py.split "," (getenv_or env "ALLOWED_IPS" EmptyString)
             ∧ Py.strip piece ≠ EmptyString ∧ entry = Py.strip piece.
Proof.
  unfold get_allowed_ips. case_bool_decide as Hempty.
  - rewrite Hempty. cbn [Py.split]. split.
    + intros Hin. by apply elem_of_nil in Hin.
    + intros (piece & Hin & Hne & _). list_cases Hin. done.
  - rewrite list_elem_of_fmap. split.
    + intros (piece & -> & Hin). exists piece.
      apply list_elem_of_In, filter_In in Hin as [Hin Hne].
      apply list_elem_of_In in Hin.
      apply negb_true_iff, bool_decide_eq_false in Hne. done.
    + intros (piece & Hin & Hne & ->). exists piece. split; [done|].
      apply list_elem_of_In, filter_In. split; [by apply list_elem_of_In|].
      by apply negb_true_iff, bool_decide_eq_false.
Qed.

(** X1: every entry [get_allowed_ips] returns is non-empty, carries no
    leading or trailing white space and contains no comma. *)
Theorem get_allowed_ips_entries (env : environ) (entry : string) :
  entry ∈ get_allowed_ips env →
  entry ≠ EmptyString ∧ Py.strip entry = entry
  ∧ Py.contains "," entry = false.
Proof.
  intros (piece & Hin & Hne & ->)%get_allowed_ips_elem.
  split; [done|]. split; [apply strip_idemp|].
  apply contains_strip. by apply (split_no_sep _ _ _ Hin).
Qed.

(** X2: the allowlist is empty exactly when every comma-separated piece
    of [ALLOWED_IPS] (the empty string when the variable is unset) is
    blank; then the matcher answers true for every client and
    [verify_access] returns the key it was given for every request. *)
Theorem blank_allowlist_is_open_mode (env : environ) :
  (get_allowed_ips env = [] ↔
     ∀ piece,
       piece ∈ Py.split "," (getenv_or env "ALLOWED_IPS" EmptyString) →
       Py.strip piece = EmptyString)
  ∧ (get_allowed_ips env = [] →
     (∀ client_ip, outcome (verify_ip_address env client_ip) = Ok true)
     ∧ (∀ req api_key,
          outcome (verify_access env req api_key) = Ok api_key)).
Proof.
  split.
  - split.
    + intros Hnil piece Hin.
      destruct (decide (Py.strip piece = EmptyString)) as [|Hne]; [done|].
      assert (Hentry : Py.strip piece ∈ get_allowed_ips env)
        by (apply get_allowed_ips_elem; eauto).
      rewrite Hnil in Hentry. by apply elem_of_nil in Hentry.
    + intros Hall. destruct (get_allowed_ips env) as [|e l] eqn:Hl; [done|].
      assert (Hin : e ∈ get_allowed_ips env)
        by (rewrite Hl; apply list_elem_of_here).
      apply get_allowed_ips_elem in Hin as (piece & Hin & Hne & _).
      by destruct (Hne (Hall piece Hin)).
  - intros Hnil.
    assert (Hopen : ∀ c, matcher_allows env c = true).
    { intros c. unfold matcher_allows. by rewrite Hnil. }
    split.
    + intros c. rewrite verify_ip_address_outcome.
      fold (matcher_allows env c). by rewrite Hopen.
    + intros req k. rewrite verify_access_outcome. unfold ip_decision.
      by rewrite Hopen, orb_true_r.
Qed.

(** X3: on a non-empty allowlist, adding entries never revokes access:
    a client the matcher or [verify_access] accepts stays accepted under
    every allowlist that contains the same entries. *)
Theorem allowlist_monotone (env env' : environ) :
  get_allowed_ips env ≠ [] →
  (∀ entry, entry ∈ get_allowed_ips env → entry ∈ get_allowed_ips env') →
  (∀ client_ip,
     outcome (verify_ip_address env client_ip) = Ok true →
     outcome (verify_ip_address env' client_ip) = Ok true)
  ∧ (∀ req api_key,
       outcome (verify_access env req api_key) = Ok api_key →
       outcome (verify_access env' req api_key) = Ok api_key).
Proof.
  intros Hne Hsub.
  assert (Hmatch : ∀ c, matcher_allows env c = true →
                        matcher_allows env' c = true).
  { intros c. unfold matcher_allows.
    rewrite !orb_true_iff, !bool_decide_eq_true, !existsb_elem_of.
    intros [Hnil|(a & Ha & Hc)]; [done|]. right. exists a. eauto. }
  split.
  - intros c. rewrite !verify_ip_address_outcome.
    fold (matcher_allows env c) (matcher_allows env' c).
    intros [= Hc]. by rewrite (Hmatch c Hc).
  - intros req k. rewrite !verify_access_outcome. unfold ip_decision.
    destruct (private_exception env _ || matcher_allows env _) eqn:Hd;
      [|done].
    intros _. apply orb_true_iff in Hd as [Hp|Hm].
    + apply private_exception_true in Hp as [Hin Hpre].
      replace (private_exception env' _) with true; [done|].
      symmetry. apply private_exception_true. eauto.
    + by rewrite (Hmatch _ Hm), orb_true_r.
Qed.

End Configuration.

Section Gate.
Context {lib : PyLib}.

(** ** The gate as a whole *)

Lemma verify_api_key_outcome (env : environ) (presented : option string) :
  outcome (verify_api_key env presented) =
    if negb (Py.truthy (get_api_key env)) then Ok "no-key-required"
    else if negb (Py.truthy presented) then
      Raise (HTTPException 401
        "API Key requerida. Proporciona la API Key en el header X-API-Key"
        [("WWW-Authenticate", "ApiKey")])
    else if negb (bool_decide (presented = get_api_key env)) then
      Raise (HTTPException 401 "API Key inválida"
                           [("WWW-Authenticate", "ApiKey")])
    else Ok (default EmptyString presented).
Proof.
  unfold verify_api_key.
  destruct (negb (Py.truthy (get_api_key env))); [done|].
  destruct (negb (Py.truthy presented)); [done|].
  by destruct (negb (bool_decide _)).
Qed.

Lemma api_key_header_Some (req : Request) (k : string) :
  api_key_header req = Some k ↔
    headers_get req "X-API-Key" = Some k ∧ k ≠ EmptyString.
Proof.
  unfold api_key_header.
  destruct (headers_get req "X-API-Key") as [v|]; simpl.
  - case_bool_decide as Hv; simpl.
    + subst v. split; [done|]. by intros [[= <-] Hk].
    + split; [by intros [= ->]|by intros [-> _]].
  - split; [done|]. by intros [? _].
Qed.

(** X4: the gate has three outcomes and no other.  It returns the
    constant [no-key-required] when no credential is configured, or the
    key sent in [X-API-Key] when that is the credential, in both cases
    only if the address stage accepts the client; it raises 401 with a
    [WWW-Authenticate: ApiKey] header when a credential is configured
    and the header is not it; it raises 403, with the resolved client
    address in the detail and no extra header, when the key check passed
    and the address stage refuses the client. *)
Theorem access_gate_outcomes (env : environ) (req : Request) :
  (∃ k, outcome (access_gate env req) = Ok k
        ∧ ip_decision env (verify_access_client_ip req) = true
        ∧ ((Py.truthy (get_api_key env) = false ∧ k = "no-key-required")
           ∨ (k ≠ EmptyString ∧ get_api_key env = Some k
              ∧ headers_get req "X-API-Key" = Some k)))
  ∨ (∃ d, outcome (access_gate env req)
          = Raise (HTTPException 401 d [("WWW-Authenticate", "ApiKey")])
          ∧ Py.truthy (get_api_key env) = true
          ∧ headers_get req "X-API-Key" ≠ get_api_key env)
  ∨ (∃ d, outcome (access_gate env req) = Raise (HTTPException 403 d [])
          ∧ substring_of (verify_access_client_ip req) d = true
          ∧ ip_decision env (verify_access_client_ip req) = false
          ∧ (Py.truthy (get_api_key env) = false
             ∨ headers_get req "X-API-Key" = get_api_key env)).
Proof.
  assert (Haddr : ∀ k,
    (outcome (verify_access env req k) = Ok k
     ∧ ip_decision env (verify_access_client_ip req) = true)
    ∨ (∃ d, outcome (verify_access env req k) = Raise (HTTPException 403 d [])
            ∧ substring_of (verify_access_client_ip req) d = true
            ∧ ip_decision env (verify_access_client_ip req) = false)).
  { intros k. rewrite verify_access_outcome.
    destruct (ip_decision env (verify_access_client_ip req)); [by left|].
    right. eexists. split; [done|]. split; [|done].
    apply substring_of_middle. }
  unfold access_gate. rewrite outcome_bind, verify_api_key_outcome.
  destruct (Py.truthy (get_api_key env)) eqn:Hcfg; cbn [negb].
  2:{ destruct (Haddr "no-key-required") as [[Ho Hd]|(d & Ho & Hs & Hd)].
      - left. exists "no-key-required". rewrite Ho. eauto.
      - right; right. exists d. rewrite Ho. eauto. }
  destruct (Py.truthy (api_key_header req)) eqn:Hsent; cbn [negb].
  2:{ right; left. eexists. split; [done|]. split; [done|].
      intros Heq. apply truthy_true in Hcfg as (e & He & Hne).
      assert (Hk : api_key_header req = Some e)
        by (apply api_key_header_Some; split; congruence).
      rewrite Hk in Hsent. by rewrite (truthy_Some e Hne) in Hsent. }
  apply truthy_true in Hsent as (k & Hk & Hkne). rewrite Hk.
  change (default EmptyString (Some k)) with k.
  apply api_key_header_Some in Hk as [Hhdr _].
  case_bool_decide as Heq; cbn [negb].
  - destruct (Haddr k) as [[Ho Hd]|(d & Ho & Hs & Hd)].
    + left. exists k. rewrite Ho. split; [done|]. split; [done|].
      right. eauto.
    + right; right. exists d. rewrite Ho. split; [done|]. split; [done|].
      split; [done|]. right. congruence.
  - right; left. eexists. split; [done|]. split; [done|]. congruence.
Qed.

Lemma verify_access_same_client (env : environ) (r1 r2 : Request)
    (k : string) :
  verify_access_client_ip r1 = verify_access_client_ip r2 →
  verify_access env r1 k = verify_access env r2 k.
Proof. intros Hip. unfold verify_access. by rewrite Hip. Qed.

(** X5: the gate believes [X-Real-IP].  Two requests that carry the
    same non-empty [X-Real-IP] value and the same [X-API-Key] header are
    treated alike, events included, whatever their transport peers and
    [X-Forwarded-For] headers are: the address checked is the trimmed
    header value. *)
Theorem gate_trusts_real_ip_header
    (env : environ) (r1 r2 : Request) (v : string) :
  headers_get r1 "X-Real-IP" = Some v →
  headers_get r2 "X-Real-IP" = Some v →
  v ≠ EmptyString →
  headers_get r1 "X-API-Key" = headers_get r2 "X-API-Key" →
  access_gate env r1 = access_gate env r2
  ∧ verify_access_client_ip r1 = Py.strip v.
Proof.
  intros H1 H2 Hv Hkey.
  assert (Hip : ∀ r, headers_get r "X-Real-IP" = Some v →
                     verify_access_client_ip r = Py.strip v).
  { intros r Hr. unfold verify_access_client_ip.
    by rewrite Hr, (truthy_Some v Hv). }
  split; [|by apply Hip].
  unfold access_gate, api_key_header. rewrite Hkey.
  destruct (verify_api_key env _) as [t [k|e]]; [|done].
  rewrite !bind_pair_ok.
  rewrite (verify_access_same_client env r1 r2 k); [done|].
  by rewrite (Hip r1 H1), (Hip r2 H2).
Qed.

(** ** The request schema *)

Lemma checked_recipients_Some (rs v : list string) :
  (items ← mapM validate_email rs;
   (if bool_decide (1 ≤ List.length items)%nat then Some items else None)
     ≫= validate_recipients) = Some v
  ↔ mapM validate_email rs = Some v ∧ rs ≠ [].
Proof.
  destruct (mapM validate_email rs) as [items|] eqn:Hitems;
    cbn [mbind option_bind]; [|split; [done|by intros [? _]]].
  pose proof (length_mapM _ _ _ Hitems) as Hlen.
  destruct items as [|i items]; cbn [List.length] in *.
  - rewrite bool_decide_eq_false_2 by lia. cbn [mbind option_bind].
    split; [done|]. intros [_ Hne]. by destruct rs.
  - rewrite bool_decide_eq_true_2 by lia. cbn [mbind option_bind].
    unfold validate_recipients.
    rewrite !bool_decide_eq_false_2 by done. cbn [orb].
    split.
    + intros [= <-]. split; [done|]. by destruct rs.
    + by intros [[= <-] _].
Qed.

Lemma checked_recipients_None (rs : list string) :
  (items ← mapM validate_email rs;
   (if bool_decide (1 ≤ List.length items)%nat then Some items else None)
     ≫= validate_recipients) = None
  ↔ rs = [] ∨ mapM validate_email rs = None.
Proof.
  destruct (_ ≫= _) as [v|] eqn:Hchk.
  - apply checked_recipients_Some in Hchk as [Hm Hne].
    split; [done|]. intros [?|Hn]; [done|]. congruence.
  - split; [intros _|done].
    destruct rs as [|r rs]; [by left|]. right.
    destruct (mapM validate_email (r :: rs)) as [v|] eqn:Hm; [|done].
    assert (Hsome : (items ← mapM validate_email (r :: rs);
              (if bool_decide (1 ≤ List.length items)%nat
               then Some items else None) ≫= validate_recipients) = Some v)
      by (apply checked_recipients_Some; by rewrite Hm).
    rewrite Hm in Hsome. congruence.
Qed.

Lemma subject_check_bool (raw : EmailRequest) :
  bool_decide (1 ≤ String.length (subject raw))%nat
  && bool_decide (String.length (subject raw) ≤ 500)%nat
  = bool_decide (1 ≤ String.length (subject raw) ≤ 500)%nat.
Proof.
  apply eq_true_iff_eq.
  rewrite andb_true_iff, !bool_decide_eq_true. done.
Qed.

(** Membership of a field name in an explicit list of field names. *)
Ltac field_iff :=
  let Hin := fresh "Hin" in
  split;
  [ intros Hin; list_cases Hin; try discriminate; tauto
  | intros ?; first [ by repeat constructor | exfalso; tauto ] ].

Ltac fields_tac :=
  split; [done|]; split; [field_iff|]; split; field_iff.

(** X6: [validate_body] accepts a body exactly when the subject has 1
    to 500 characters, the body text is not empty, there is at least one
    recipient and every recipient is a valid address; the value it
    returns is the body with the normalised addresses.  Otherwise it
    raises a validation error that lists exactly the offending fields. *)
Theorem validate_body_accepts (raw : EmailRequest) :
  (∀ er, outcome (validate_body raw) = Ok er ↔
     subject_in_bounds raw ∧ body_non_empty raw ∧ recipients raw ≠ []
     ∧ mapM validate_email (recipients raw) = Some (recipients er)
     ∧ er = MkEmailRequest (subject raw) (body raw) (recipients er)
                           (attachments raw) (is_html raw))
  ∧ (∀ e, outcome (validate_body raw) = Raise e →
       ∃ fields,
         e = RequestValidationError fields ∧ fields ≠ []
         ∧ ("subject" ∈ fields ↔ ¬ subject_in_bounds raw)
         ∧ ("body" ∈ fields ↔ ¬ body_non_empty raw)
         ∧ ("recipients" ∈ fields ↔
            recipients raw = []
            ∨ mapM validate_email (recipients raw) = None)).
Proof.
  unfold validate_body, subject_in_bounds, body_non_empty.
  rewrite bind_emit_l. cbn [outcome snd].
  pose proof (checked_recipients_Some (recipients raw)) as HSome.
  pose proof (checked_recipients_None (recipients raw)) as HNone.
  rewrite (subject_check_bool raw).
  destruct (_ ≫= _) as [v|].
  - destruct (HSome v) as [[Hv Hne] _]; [done|]. clear HSome HNone.
    assert (Hrec : ¬ (recipients raw = []
                      ∨ mapM validate_email (recipients raw) = None))
      by (intros [?|?]; congruence).
    destruct (decide (1 ≤ String.length (subject raw) ≤ 500)%nat) as [HS|HS];
      [rewrite (bool_decide_eq_true_2 _ HS)
      |rewrite (bool_decide_eq_false_2 _ HS)];
    (destruct (decide (1 ≤ String.length (body raw))%nat) as [HB|HB];
      [rewrite (bool_decide_eq_true_2 _ HB)
      |rewrite (bool_decide_eq_false_2 _ HB)]);
    cbn [app]; rewrite ?bool_decide_eq_true_2 by done;
    rewrite ?bool_decide_eq_false_2 by done.
    + split.
      * intros er. split.
        -- intros [= <-]. by cbn.
        -- intros (_ & _ & _ & Hm & ->). cbn in Hm. by simplify_eq.
      * by intros e.
    + split; [intros er; split; [done|tauto]|].
      intros e [= <-]. eexists. split; [done|]. fields_tac.
    + split; [intros er; split; [done|tauto]|].
      intros e [= <-]. eexists. split; [done|]. fields_tac.
    + split; [intros er; split; [done|tauto]|].
      intros e [= <-]. eexists. split; [done|]. fields_tac.
  - destruct HNone as [Hrec _]. specialize (Hrec eq_refl). clear HSome.
    split; [intros er; split; [done|]|].
    { intros (_ & _ & Hne & Hm & _). destruct Hrec; congruence. }
    intros e [= <-]. eexists. split; [done|].
    destruct (decide (1 ≤ String.length (subject raw) ≤ 500)%nat) as [HS|HS];
      [rewrite (bool_decide_eq_true_2 _ HS)
      |rewrite (bool_decide_eq_false_2 _ HS)];
    (destruct (decide (1 ≤ String.length (body raw))%nat) as [HB|HB];
      [rewrite (bool_decide_eq_true_2 _ HB)
      |rewrite (bool_decide_eq_false_2 _ HB)]);
    cbn [app]; fields_tac.
Qed.

End Gate.

Section Relay.
Context {lib : PyLib}.

(** ** [get_smtp_config] *)

Lemma get_smtp_config_trace (env : environ) : trace (get_smtp_config env) = [].
Proof.
  destruct (get_smtp_config_cases env) as [(cfg & ->)|(m & ->)]; done.
Qed.

Lemma substring_of_prefix_true (n s : string) :
  String.prefix n s = true → substring_of n s = true.
Proof. intros Hp. destruct s; cbn [substring_of]; by rewrite Hp. Qed.

(** X7: [get_smtp_config] returns a configuration exactly when
    [SMTP_PORT] (587 when unset) is an integer literal and the server,
    user, password and sender variables are all set and non-empty; the
    configuration then asks for implicit TLS exactly when the port is
    465.  Otherwise it raises a [ValueError], and when the port is an
    integer the message names exactly the missing settings. *)
Theorem get_smtp_config_complete (env : environ) :
  (∀ cfg, outcome (get_smtp_config env) = Ok cfg ↔
     int_of_str (getenv_or env "SMTP_PORT" "587") = Some (smtp_port cfg)
     ∧ Py.truthy (env !! "SMTP_SERVER") = true
     ∧ Py.truthy (env !! "SMTP_USER") = true
     ∧ Py.truthy (env !! "SMTP_PASSWORD") = true
     ∧ Py.truthy (env !! "SMTP_FROM_EMAIL") = true
     ∧ cfg = {| smtp_server := env !! "SMTP_SERVER";
                smtp_port := smtp_port cfg;
                smtp_user := env !! "SMTP_USER";
                smtp_password := env !! "SMTP_PASSWORD";
                smtp_from_email := env !! "SMTP_FROM_EMAIL";
                smtp_use_tls :=
                  bool_decide (Py.lower (getenv_or env "SMTP_USE_TLS" "true")
                               = "true");
                smtp_use_ssl := bool_decide (smtp_port cfg = 465) |})
  ∧ (∀ e, outcome (get_smtp_config env) = Raise e →
       ∃ m, e = ValueError m
            ∧ (is_Some (int_of_str (getenv_or env "SMTP_PORT" "587")) →
               (substring_of "smtp_server" m = true
                ↔ Py.truthy (env !! "SMTP_SERVER") = false)
               ∧ (substring_of "smtp_user" m = true
                  ↔ Py.truthy (env !! "SMTP_USER") = false)
               ∧ (substring_of "smtp_password" m = true
                  ↔ Py.truthy (env !! "SMTP_PASSWORD") = false)
               ∧ (substring_of "smtp_from_email" m = true
                  ↔ Py.truthy (env !! "SMTP_FROM_EMAIL") = false))).
Proof.
  unfold get_smtp_config, getenv.
  destruct (int_of_str (getenv_or env "SMTP_PORT" "587")) as [port|].
  2:{ split.
      - intros cfg. split; [done|]. by intros [? _].
      - intros e [= <-]. eexists. split; [done|]. by intros [? ?]. }
  cbn [smtp_server smtp_user smtp_password smtp_from_email List.filter snd].
  destruct (Py.truthy (env !! "SMTP_SERVER")) eqn:H1;
  destruct (Py.truthy (env !! "SMTP_USER")) eqn:H2;
  destruct (Py.truthy (env !! "SMTP_PASSWORD")) eqn:H3;
  destruct (Py.truthy (env !! "SMTP_FROM_EMAIL")) eqn:H4;
  cbn [negb fst snd fmap list_fmap];
  rewrite ?bool_decide_eq_true_2 by done;
  rewrite ?(bool_decide_eq_false_2 (_ = [])) by done; cbn [negb].
  1:{ split.
      - intros cfg. split.
        + intros [= <-]. by cbn.
        + intros (Hp & _ & _ & _ & _ & Hc). rewrite Hc. cbn.
          by injection Hp as ->.
      - by intros e. }
  all: split;
    [ intros cfg; split; [done|by intros (_ & ? & ? & ? & ? & _)]
    | intros e [= <-]; eexists; split; [done|]; intros _;
      vm_compute; repeat split; congruence ].
Qed.

(** ** The attachment loop *)

Lemma attach_step_Some (a : Attachment) (atts : list Attachment)
    (parts : list mime_part) (p : mime_part) :
  attachment_part a = Some p →
  attach_all parts (a :: atts) =
    (Enter fn_decode_base64_attachment
       :: trace (attach_all (parts ++ [p]) atts),
     outcome (attach_all (parts ++ [p]) atts)).
Proof.
  unfold attachment_part. cbn [attach_all].
  rewrite decode_base64_attachment_run.
  destruct (b64decode (content a)) as [e|data]; [done|].
  rewrite bind_pair_ok.
  destruct (Py.truthy (content_type a)).
  - unfold set_type. case_bool_decide as Hct; [|done]. cbn [negb].
    intros [= <-]. by rewrite bind_ret_l.
  - intros [= <-]. by rewrite bind_ret_l.
Qed.

Lemma attach_step_None (a : Attachment) (atts : list Attachment)
    (parts : list mime_part) :
  attachment_part a = None →
  ∃ m, attach_all parts (a :: atts) =
         ([Enter fn_decode_base64_attachment], Raise (ValueError m)).
Proof.
  unfold attachment_part. cbn [attach_all].
  rewrite decode_base64_attachment_run.
  destruct (b64decode (content a)) as [e|data]; [intros _; by eexists|].
  rewrite bind_pair_ok.
  destruct (Py.truthy (content_type a)); [|done].
  unfold set_type. case_bool_decide as Hct; [done|]. cbn [negb].
  intros _. rewrite bind_raise_l. by eexists.
Qed.

Lemma attach_all_run (atts : list Attachment) (parts ps : list mime_part) :
  mapM attachment_part atts = Some ps →
  attach_all parts atts =
    (replicate (List.length atts) (Enter fn_decode_base64_attachment),
     Ok (parts ++ ps)%list).
Proof.
  revert parts ps. induction atts as [|a atts IH]; intros parts ps.
  - intros [= <-]. cbn. by rewrite app_nil_r.
  - cbn [mapM].
    destruct (attachment_part a) as [p|] eqn:Hp; [|done].
    destruct (mapM attachment_part atts) as [ps'|] eqn:Hps; [|done].
    intros [= <-]. rewrite (attach_step_Some a atts parts p Hp).
    rewrite (IH _ ps' eq_refl). cbn. by rewrite <- app_assoc.
Qed.

Lemma attach_all_fails (atts : list Attachment) (parts : list mime_part) :
  mapM attachment_part atts = None →
  ∃ m, outcome (attach_all parts atts) = Raise (ValueError m).
Proof.
  revert parts. induction atts as [|a atts IH]; intros parts; [done|].
  cbn [mapM].
  destruct (attachment_part a) as [p|] eqn:Hp.
  - rewrite (attach_step_Some a atts parts p Hp). cbn [outcome snd].
    destruct (mapM attachment_part atts) as [ps'|] eqn:Hps; [done|].
    intros _. by apply IH.
  - intros _. destruct (attach_step_None a atts parts Hp) as (m & ->).
    by exists m.
Qed.

(** X8: the attachment loop is a map.  It returns exactly when every
    attachment decodes and carries an acceptable content type, and then
    appends, in order, one part per attachment: the decoded bytes, the
    declared type or [application/octet-stream], and the disposition
    with the file name.  It decodes each attachment once. *)
Theorem attach_all_is_map (atts : list Attachment) (parts : list mime_part) :
  (∀ qs, outcome (attach_all parts atts) = Ok qs ↔
     ∃ ps, mapM attachment_part atts = Some ps ∧ qs = (parts ++ ps)%list)
  ∧ (∀ ps, mapM attachment_part atts = Some ps →
       List.length ps = List.length atts
       ∧ trace (attach_all parts atts)
         = replicate (List.length atts) (Enter fn_decode_base64_attachment)).
Proof.
  split.
  - intros qs. destruct (mapM attachment_part atts) as [ps|] eqn:Hps.
    + rewrite (attach_all_run atts parts ps Hps). cbn [outcome snd].
      split; [intros [= <-]; eauto|]. by intros (ps' & [= <-] & ->).
    + destruct (attach_all_fails atts parts Hps) as (m & ->).
      split; [done|]. by intros (? & ? & _).
  - intros ps Hps. rewrite (attach_all_run atts parts ps Hps).
    split; [|done]. symmetry. by apply length_mapM in Hps.
Qed.

End Relay.

Section Session.
Context {lib : PyLib}.

(** ** The SMTP dialogue *)

(** Case analysis on every SMTP step of the world and on the two
    transport flags of the configuration. *)
Ltac dialogue_cases w cfg :=
  unfold smtp_dialogue, smtp_session, smtp_healthy, smtp_ops;
  destruct w as [[?|] [?|] [?|] [?|] [?|] ?];
  destruct cfg as [? ? ? ? ? [|] [|]]; cbn.

Lemma smtp_dialogue_healthy (w : World) (cfg : smtp_config)
    (msg : mime_message) :
  smtp_healthy w →
  smtp_ops (trace (smtp_dialogue w cfg msg)) = smtp_session cfg msg
  ∧ outcome (smtp_dialogue w cfg msg) = Ok tt.
Proof. dialogue_cases w cfg; intros (? & ? & ? & ? & ?); by simplify_eq. Qed.

Lemma smtp_dialogue_success (w : World) (cfg : smtp_config)
    (msg : mime_message) :
  outcome (smtp_dialogue w cfg msg) = Ok tt →
  w_connect w = None ∧ w_login w = None ∧ w_send_message w = None
  ∧ w_quit w = None
  ∧ (smtp_use_ssl cfg = false → smtp_use_tls cfg = true →
     w_starttls w = None)
  ∧ Smtp (smtp_send_message msg) ∈ trace (smtp_dialogue w cfg msg).
Proof.
  dialogue_cases w cfg; intros Ho; try discriminate;
    repeat split; try done; repeat constructor.
Qed.

Lemma smtp_dialogue_sent (w : World) (cfg : smtp_config)
    (msg msg' : mime_message) :
  Smtp (smtp_send_message msg') ∈ trace (smtp_dialogue w cfg msg) →
  msg' = msg ∧ w_connect w = None ∧ w_login w = None
  ∧ (smtp_use_ssl cfg = false → smtp_use_tls cfg = true →
     w_starttls w = None).
Proof.
  dialogue_cases w cfg; intros Hin; list_cases Hin; try discriminate;
    simplify_eq; by repeat split.
Qed.

Lemma smtp_dialogue_refused (w : World) (cfg : smtp_config)
    (msg : mime_message) (e : exn) :
  w_connect w = Some e →
  outcome (smtp_dialogue w cfg msg) = Raise e
  ∧ smtp_ops (trace (smtp_dialogue w cfg msg))
    = [if smtp_use_ssl cfg
       then smtp_connect_ssl (smtp_server cfg) (smtp_port cfg)
       else smtp_connect (smtp_server cfg) (smtp_port cfg)].
Proof. dialogue_cases w cfg; intros Hc; by simplify_eq. Qed.

Lemma smtp_dialogue_closed (w : World) (cfg : smtp_config)
    (msg : mime_message) :
  w_connect w = None →
  last (smtp_ops (trace (smtp_dialogue w cfg msg))) = Some smtp_quit.
Proof. dialogue_cases w cfg; intros Hc; by simplify_eq. Qed.

Lemma smtp_dialogue_trace (w : World) (cfg : smtp_config)
    (msg : mime_message) ev :
  ev ∈ trace (smtp_dialogue w cfg msg) → is_smtp ev = true.
Proof.
  dialogue_cases w cfg; intros Hin; list_cases Hin; done.
Qed.

(** ** [send_email] *)

Lemma smtp_ops_app (t1 t2 : list event) :
  smtp_ops (t1 ++ t2) = (smtp_ops t1 ++ smtp_ops t2)%list.
Proof. apply omap_app. Qed.

Lemma smtp_ops_enter (n : nat) (f : fn) :
  smtp_ops (replicate n (Enter f)) = [].
Proof. induction n as [|n IH]; [done|]. cbn. exact IH. Qed.

(** The run of [send_email] once the configuration is read and the
    attachments are converted: the dialogue, then one log record. *)
Lemma send_email_run (env : environ) (w : World) (subj bdy : string)
    (rcpts : list string) (atts : option (list Attachment)) (html : bool)
    (cfg : smtp_config) (ps : list mime_part) :
  get_smtp_config env = ([], Ok cfg) →
  mapM attachment_part (default [] atts) = Some ps →
  send_email env w subj bdy rcpts atts html =
    let msg :=
      MkMessage (smtp_from_email cfg) (Py.join ", " rcpts) subj
        (MIMEText bdy (if html then "html" else "plain") "utf-8" :: ps) in
    let D := smtp_dialogue w cfg msg in
    ((Enter fn_send_email
        :: replicate (List.length (default [] atts))
             (Enter fn_decode_base64_attachment)
        ++ trace D
        ++ [match outcome D with
            | Ok _ =>
                Log INFO ("Correo enviado exitosamente a " +:+
                          repr_list rcpts)
            | Raise e => Log ERROR ("Error al enviar correo: " +:+ exn_str e)
            end])%list,
     match outcome D with
     | Ok _ => Ok (send_result rcpts)
     | Raise e => Raise e
     end).
Proof.
  intros Hcfg Hps. unfold send_email. rewrite Hcfg, bind_pair_ok.
  set (text := MIMEText bdy (if html then "html" else "plain") "utf-8").
  assert (Hattach :
    match atts with
    | Some (a :: l) => attach_all [text] (a :: l)
    | _ => ret [text]
    end = (replicate (List.length (default [] atts))
             (Enter fn_decode_base64_attachment), Ok (text :: ps))).
  { destruct atts as [[|a l]|].
    - cbv in Hps. by injection Hps as <-.
    - change (default [] (Some (a :: l))) with (a :: l) in *.
      by rewrite (attach_all_run (a :: l) [text] ps Hps).
    - cbv in Hps. by injection Hps as <-. }
  rewrite Hattach, bind_pair_ok. cbv zeta.
  unfold smtp_dialogue.
  set (D := if smtp_use_ssl cfg then _ else _).
  destruct D as [td [[]|e]]; cbn; by rewrite ?app_nil_r, <- ?app_assoc.
Qed.

(** The three ways [send_email] can go. *)
Lemma send_email_cases (env : environ) (w : World) (subj bdy : string)
    (rcpts : list string) (atts : option (list Attachment)) (html : bool) :
  (∃ m, outcome (send_email env w subj bdy rcpts atts html)
        = Raise (ValueError m)
        ∧ (∀ ev, ev ∈ trace (send_email env w subj bdy rcpts atts html) →
                 is_smtp ev = false)
        ∧ (outcome (get_smtp_config env) = Raise (ValueError m)
           ∨ mapM attachment_part (default [] atts) = None))
  ∨ (∃ cfg ps,
       get_smtp_config env = ([], Ok cfg)
       ∧ mapM attachment_part (default [] atts) = Some ps).
Proof.
  destruct (get_smtp_config_cases env) as [(cfg & Hcfg)|(m & Hcfg)].
  - destruct (mapM attachment_part (default [] atts)) as [ps|] eqn:Hps;
      [right; eauto|].
    left. destruct atts as [[|a l]|]; try done. cbn [default] in Hps.
    destruct (attach_all_fails (a :: l)
                [MIMEText bdy (if html then "html" else "plain") "utf-8"]
                Hps) as (m & Hm).
    destruct (send_email_attachment_failure env w subj bdy rcpts (a :: l)
                html cfg m Hcfg) as [Ho Ht]; [done|done|].
    exists m. eauto.
  - left. exists m.
    rewrite (send_email_config_failure env w subj bdy rcpts atts html m Hcfg).
    split; [done|]. split; [|left; by rewrite Hcfg].
    intros ev Hin. list_cases Hin; done.
Qed.

(** X9: with a complete configuration, acceptable attachments and an
    SMTP server that refuses nothing, [send_email] runs exactly one
    session: on port 465 an implicit-TLS connection, login, the message,
    quit; on any other port a plain connection, [STARTTLS] exactly when
    [SMTP_USE_TLS] is [true], login, the message, quit.  The message
    carries the configured sender, the comma-joined recipients, the
    subject, and the text part followed by one part per attachment; the
    result echoes the recipients. *)
Theorem send_email_session (env : environ) (w : World) (subj bdy : string)
    (rcpts : list string) (atts : option (list Attachment)) (html : bool)
    (cfg : smtp_config) (ps : list mime_part) :
  outcome (get_smtp_config env) = Ok cfg →
  mapM attachment_part (default [] atts) = Some ps →
  smtp_healthy w →
  smtp_ops (trace (send_email env w subj bdy rcpts atts html))
  = smtp_session cfg
      (MkMessage (smtp_from_email cfg) (Py.join ", " rcpts) subj
         (MIMEText bdy (if html then "html" else "plain") "utf-8" :: ps))
  ∧ outcome (send_email env w subj bdy rcpts atts html)
    = Ok (send_result rcpts).
Proof.
  intros Hcfg Hps Hw.
  assert (Hcfg' : get_smtp_config env = ([], Ok cfg)).
  { rewrite (M_eta (get_smtp_config env)), get_smtp_config_trace.
    by rewrite Hcfg. }
  rewrite (send_email_run env w subj bdy rcpts atts html cfg ps Hcfg' Hps).
  cbv zeta. cbn [trace outcome fst snd].
  destruct (smtp_dialogue_healthy w cfg
              (MkMessage (smtp_from_email cfg) (Py.join ", " rcpts) subj
                 (MIMEText bdy (if html then "html" else "plain") "utf-8"
                  :: ps)) Hw) as [Hops Ho].
  rewrite Ho. split; [|done].
  rewrite <- Hops.
  change (Enter fn_send_email :: ?l) with ([Enter fn_send_email] ++ l)%list.
  rewrite !smtp_ops_app, smtp_ops_enter. cbn. by rewrite app_nil_r.
Qed.

End Session.

Section Delivery.
Context {lib : PyLib}.

Lemma get_smtp_config_eta (env : environ) (cfg : smtp_config) :
  outcome (get_smtp_config env) = Ok cfg →
  get_smtp_config env = ([], Ok cfg).
Proof.
  intros Hcfg. rewrite (M_eta (get_smtp_config env)), get_smtp_config_trace.
  by rewrite Hcfg.
Qed.

(** Membership in the trace of a run of [send_email] that reached the
    dialogue. *)
Lemma send_email_run_smtp (env : environ) (w : World) (subj bdy : string)
    (rcpts : list string) (atts : option (list Attachment)) (html : bool)
    (cfg : smtp_config) (ps : list mime_part) (op : smtp_op) :
  get_smtp_config env = ([], Ok cfg) →
  mapM attachment_part (default [] atts) = Some ps →
  Smtp op ∈ trace (send_email env w subj bdy rcpts atts html) ↔
  Smtp op ∈ trace (smtp_dialogue w cfg
                     (MkMessage (smtp_from_email cfg) (Py.join ", " rcpts)
                        subj
                        (MIMEText bdy (if html then "html" else "plain")
                                  "utf-8" :: ps))).
Proof.
  intros Hcfg Hps.
  rewrite (send_email_run env w subj bdy rcpts atts html cfg ps Hcfg Hps).
  cbv zeta. cbn [trace fst].
  rewrite elem_of_cons, !elem_of_app, list_elem_of_singleton.
  split.
  - intros [?|[Hin|[?|Hin]]]; [done| |done|].
    + by apply elem_of_replicate in Hin as [? _].
    + by destruct (outcome _).
  - intros Hin. right; right. by left.
Qed.

Lemma send_email_sent (env : environ) (w : World) (subj bdy : string)
    (rcpts : list string) (atts : option (list Attachment)) (html : bool)
    (msg : mime_message) :
  Smtp (smtp_send_message msg)
    ∈ trace (send_email env w subj bdy rcpts atts html) →
  w_connect w = None ∧ w_login w = None
  ∧ ∃ cfg ps,
      outcome (get_smtp_config env) = Ok cfg
      ∧ mapM attachment_part (default [] atts) = Some ps
      ∧ msg = MkMessage (smtp_from_email cfg) (Py.join ", " rcpts) subj
                (MIMEText bdy (if html then "html" else "plain") "utf-8"
                 :: ps)
      ∧ (smtp_use_ssl cfg = false → smtp_use_tls cfg = true →
         w_starttls w = None).
Proof.
  intros Hin.
  destruct (send_email_cases env w subj bdy rcpts atts html)
    as [(m & _ & Hno & _)|(cfg & ps & Hcfg & Hps)].
  - by apply Hno in Hin.
  - apply (send_email_run_smtp env w subj bdy rcpts atts html cfg ps _
             Hcfg Hps) in Hin.
    apply smtp_dialogue_sent in Hin as (-> & Hc & Hl & Htls).
    split; [done|]. split; [done|]. exists cfg, ps.
    by rewrite Hcfg.
Qed.

(** X10: [send_email] returns only after a whole session went through:
    when it returns, the connection, the login, the transmission and
    the closing [QUIT] all succeeded, the message was handed to the
    server, and the result echoes the recipients.  Whenever a message is
    handed to the server, the configuration was complete, all
    attachments were accepted, and the message is the one built from the
    arguments: configured sender, comma-joined recipients, subject, the
    text part and one part per attachment. *)
Theorem send_email_returns_after_delivery
    (env : environ) (w : World) (subj bdy : string)
    (rcpts : list string) (atts : option (list Attachment)) (html : bool) :
  (∀ r, outcome (send_email env w subj bdy rcpts atts html) = Ok r →
     r = send_result rcpts
     ∧ w_connect w = None ∧ w_login w = None
     ∧ w_send_message w = None ∧ w_quit w = None
     ∧ ∃ msg, Smtp (smtp_send_message msg)
                ∈ trace (send_email env w subj bdy rcpts atts html))
  ∧ (∀ msg, Smtp (smtp_send_message msg)
              ∈ trace (send_email env w subj bdy rcpts atts html) →
       w_connect w = None ∧ w_login w = None
       ∧ ∃ cfg ps,
           outcome (get_smtp_config env) = Ok cfg
           ∧ mapM attachment_part (default [] atts) = Some ps
           ∧ msg = MkMessage (smtp_from_email cfg) (Py.join ", " rcpts) subj
                     (MIMEText bdy (if html then "html" else "plain")
                               "utf-8" :: ps)
           ∧ (smtp_use_ssl cfg = false → smtp_use_tls cfg = true →
              w_starttls w = None)).
Proof.
  split; [|apply send_email_sent].
  intros r Hr.
  destruct (send_email_cases env w subj bdy rcpts atts html)
    as [(m & Hm & _)|(cfg & ps & Hcfg & Hps)]; [congruence|].
  pose proof (send_email_run_smtp env w subj bdy rcpts atts html cfg ps)
    as Hsmtp.
  rewrite (send_email_run env w subj bdy rcpts atts html cfg ps Hcfg Hps)
    in Hr. cbv zeta in Hr. cbn [outcome snd] in Hr.
  destruct (outcome (smtp_dialogue w cfg _)) as [[]|e] eqn:Hd; [|done].
  apply smtp_dialogue_success in Hd as (Hc & Hl & Hs & Hq & _ & Hin).
  injection Hr as <-. repeat (split; [done|]).
  eexists. by apply (Hsmtp _ Hcfg Hps).
Qed.

Lemma smtp_dialogue_login_refused (w : World) (cfg : smtp_config)
    (msg : mime_message) (e : exn) :
  w_connect w = None →
  (smtp_use_ssl cfg = false → smtp_use_tls cfg = true →
   w_starttls w = None) →
  w_login w = Some e → w_quit w = None →
  outcome (smtp_dialogue w cfg msg) = Raise e
  ∧ last (smtp_ops (trace (smtp_dialogue w cfg msg))) = Some smtp_quit.
Proof.
  unfold smtp_dialogue, smtp_ops.
  destruct w as [[?|] [?|] [?|] [?|] [?|] ?];
  destruct cfg as [? ? ? ? ? [|] [|]]; cbn;
    intros Hc Htls Hl Hq; simplify_eq; try done.
  all: by specialize (Htls eq_refl eq_refl).
Qed.

Lemma smtp_dialogue_quit_fails (w : World) (cfg : smtp_config)
    (msg : mime_message) (e : exn) :
  w_connect w = None → w_starttls w = None → w_login w = None →
  w_send_message w = None → w_quit w = Some e →
  outcome (smtp_dialogue w cfg msg) = Raise e
  ∧ Smtp (smtp_send_message msg) ∈ trace (smtp_dialogue w cfg msg).
Proof.
  unfold smtp_dialogue.
  destruct w as [[?|] [?|] [?|] [?|] [?|] ?];
  destruct cfg as [? ? ? ? ? [|] [|]]; cbn;
    intros Hc Htls Hl Hs Hq; simplify_eq; split; try done;
    repeat constructor.
Qed.

(** X11: how [send_email] fails once the configuration is complete and
    the attachments are accepted.  A refused connection ends the call
    with the connection's exception after that single operation.  Once
    the connection is open, the last operation is always [QUIT].  A
    refused login ends the call with the login's exception and nothing
    is transmitted.  A failing [QUIT] after a successful transmission
    makes the call raise although the message was handed over. *)
Theorem send_email_failure_modes
    (env : environ) (w : World) (subj bdy : string)
    (rcpts : list string) (atts : option (list Attachment)) (html : bool)
    (cfg : smtp_config) (ps : list mime_part) :
  outcome (get_smtp_config env) = Ok cfg →
  mapM attachment_part (default [] atts) = Some ps →
  (∀ e, w_connect w = Some e →
     outcome (send_email env w subj bdy rcpts atts html) = Raise e
     ∧ smtp_ops (trace (send_email env w subj bdy rcpts atts html))
       = [if smtp_use_ssl cfg
          then smtp_connect_ssl (smtp_server cfg) (smtp_port cfg)
          else smtp_connect (smtp_server cfg) (smtp_port cfg)])
  ∧ (w_connect w = None →
     last (smtp_ops (trace (send_email env w subj bdy rcpts atts html)))
     = Some smtp_quit)
  ∧ (∀ e, w_connect w = None → w_starttls w = None →
          w_login w = Some e → w_quit w = None →
     outcome (send_email env w subj bdy rcpts atts html) = Raise e
     ∧ ¬ ∃ msg, Smtp (smtp_send_message msg)
                  ∈ trace (send_email env w subj bdy rcpts atts html))
  ∧ (∀ e, w_connect w = None → w_starttls w = None →
          w_login w = None → w_send_message w = None →
          w_quit w = Some e →
     outcome (send_email env w subj bdy rcpts atts html) = Raise e
     ∧ ∃ msg, Smtp (smtp_send_message msg)
                ∈ trace (send_email env w subj bdy rcpts atts html)).
Proof.
  intros Hcfg%get_smtp_config_eta Hps.
  pose proof (send_email_run_smtp env w subj bdy rcpts atts html cfg ps)
    as Hsmtp.
  pose proof (send_email_run env w subj bdy rcpts atts html cfg ps Hcfg Hps)
    as Hrun. cbv zeta in Hrun.
  set (msg := MkMessage (smtp_from_email cfg) (Py.join ", " rcpts) subj
                (MIMEText bdy (if html then "html" else "plain") "utf-8"
                 :: ps)) in *.
  assert (Hops : smtp_ops (trace (send_email env w subj bdy rcpts atts html))
                 = smtp_ops (trace (smtp_dialogue w cfg msg))).
  { rewrite Hrun. cbn [trace fst].
    change (Enter fn_send_email :: ?l) with ([Enter fn_send_email] ++ l)%list.
    rewrite !smtp_ops_app, smtp_ops_enter.
    destruct (outcome (smtp_dialogue w cfg msg)); cbn;
      by rewrite app_nil_r. }
  assert (Hout : ∀ e, outcome (smtp_dialogue w cfg msg) = Raise e →
            outcome (send_email env w subj bdy rcpts atts html) = Raise e).
  { intros e He. rewrite Hrun. cbn [outcome snd]. by rewrite He. }
  split; [|split; [|split]].
  - intros e Hc.
    destruct (smtp_dialogue_refused w cfg msg e Hc) as [Ho Ht].
    split; [by apply Hout|]. by rewrite Hops.
  - intros Hc. rewrite Hops. by apply smtp_dialogue_closed.
  - intros e Hc Htls Hl Hq.
    destruct (smtp_dialogue_login_refused w cfg msg e Hc (λ _ _, Htls) Hl Hq)
      as [Ho _].
    split; [by apply Hout|].
    intros (msg' & Hin). apply send_email_sent in Hin as (_ & Hl' & _).
    congruence.
  - intros e Hc Htls Hl Hs Hq.
    destruct (smtp_dialogue_quit_fails w cfg msg e Hc Htls Hl Hs Hq)
      as [Ho Hin].
    split; [by apply Hout|]. exists msg. by apply (Hsmtp _ Hcfg Hps).
Qed.

(** ** [send_email_endpoint] *)

Lemma send_email_ok (env : environ) (w : World) (subj bdy : string)
    (rcpts : list string) (atts : option (list Attachment)) (html : bool)
    (r : SendResult) :
  outcome (send_email env w subj bdy rcpts atts html) = Ok r →
  r = send_result rcpts.
Proof.
  intros Hr.
  destruct (send_email_cases env w subj bdy rcpts atts html)
    as [(m & Hm & _)|(cfg & ps & Hcfg & Hps)]; [congruence|].
  rewrite (send_email_run env w subj bdy rcpts atts html cfg ps Hcfg Hps)
    in Hr. cbv zeta in Hr. cbn [outcome snd] in Hr.
  destruct (outcome (smtp_dialogue w cfg _)); by simplify_eq.
Qed.

(** X12: [send_email_endpoint] answers in one of five ways and lets no
    other exception out.  When [send_email] returns, the response
    reports success, echoes the recipients and carries the clock's time
    stamp.  When it raises, the answer is an HTTP error without extra
    headers: 400 with the message for a [ValueError], 401 with a fixed
    text (the server's message is not passed on) for a rejected SMTP
    login, 502 with the server's message for any other SMTP error, and
    500 otherwise. *)
Theorem send_email_endpoint_answers
    (env : environ) (w : World) (email_request : EmailRequest)
    (api_key : string) :
  (outcome (send_email env w (subject email_request) (body email_request)
              (recipients email_request) (attachments email_request)
              (is_html email_request))
   = Ok (send_result (recipients email_request))
   ∧ outcome (send_email_endpoint env w email_request api_key)
     = Ok (MkEmailResponse true
             (result_message (send_result (recipients email_request)))
             (w_now_isoformat w) (recipients email_request)))
  ∨ (∃ e code detail,
       outcome (send_email env w (subject email_request)
                  (body email_request) (recipients email_request)
                  (attachments email_request) (is_html email_request))
       = Raise e
       ∧ outcome (send_email_endpoint env w email_request api_key)
         = Raise (HTTPException code detail [])
       ∧ match e with
         | ValueError m => code = 400 ∧ detail = m
         | SMTPAuthenticationError _ =>
             code = 401
             ∧ detail
               = "Error de autenticación SMTP. Verifica las credenciales."
         | SMTPException m =>
             code = 502
             ∧ detail = "Error al comunicarse con el servidor SMTP: " +:+ m
         | _ =>
             code = 500
             ∧ detail = "Error interno del servidor: " +:+ exn_str e
         end).
Proof.
  unfold send_email_endpoint. rewrite outcome_catch, outcome_bind.
  destruct (outcome (send_email _ _ _ _ _ _ _)) as [r|e] eqn:Hs.
  - left. apply send_email_ok in Hs as ->. done.
  - right. exists e.
    destruct e; cbn; do 2 eexists; (split; [done|]); by split.
Qed.

End Delivery.

Section Routes.
Context {lib : PyLib}.

(** ** The mail-send route, continued *)

Lemma validate_body_trace (raw : EmailRequest) :
  trace (validate_body raw) = [Enter fn_validate_body].
Proof.
  unfold validate_body. rewrite bind_emit_l. cbn [trace fst]. f_equal.
  destruct (_ ≫= _); [|done]. by destruct (bool_decide _).
Qed.

Lemma validate_body_Ok_inv (raw er : EmailRequest) :
  outcome (validate_body raw) = Ok er →
  subject_in_bounds raw ∧ body_non_empty raw ∧ recipients er ≠ []
  ∧ mapM validate_email (recipients raw) = Some (recipients er)
  ∧ subject er = subject raw.
Proof.
  unfold validate_body, subject_in_bounds, body_non_empty.
  rewrite bind_emit_l. cbn [outcome snd].
  pose proof (checked_recipients_Some (recipients raw)) as HSome.
  rewrite (subject_check_bool raw).
  destruct (_ ≫= _) as [v|]; [|done].
  destruct (HSome v) as [[Hv Hne] _]; [done|].
  case_bool_decide as Herr; [|done]. intros [= <-]. cbn.
  assert (Hv' : v ≠ []).
  { intros ->. apply length_mapM in Hv. by destruct (recipients raw). }
  destruct (decide (1 ≤ String.length (subject raw) ≤ 500)%nat) as [HS|HS];
    [|by rewrite (bool_decide_eq_false_2 _ HS) in Herr].
  destruct (decide (1 ≤ String.length (body raw))%nat) as [HB|HB];
    [done|].
  rewrite (bool_decide_eq_true_2 _ HS), (bool_decide_eq_false_2 _ HB) in Herr.
  done.
Qed.

Lemma send_email_endpoint_trace (env : environ) (w : World)
    (er : EmailRequest) (k : string) ev :
  ev ∈ trace (send_email_endpoint env w er k) →
  ev ∈ trace (send_email env w (subject er) (body er) (recipients er)
                (attachments er) (is_html er))
  ∨ ∃ m, ev = Log ERROR m.
Proof.
  unfold send_email_endpoint. rewrite trace_catch, outcome_bind, trace_bind.
  destruct (outcome (send_email _ _ _ _ _ _ _)) as [r|e];
    unfold ret; cbn [outcome trace fst snd].
  - rewrite elem_of_app. intros [Hin|Hin]; [by left|].
    by apply elem_of_nil in Hin.
  - rewrite elem_of_app. intros [Hin|Hin]; [by left|]. right.
    destruct e; cbn in Hin; list_cases Hin; eauto.
Qed.

(** X13: what reaches the mail relay through the route.  Whenever
    [send_email] is entered for a request, the gate granted it and the
    body passed validation: there is at least one recipient, each a
    valid address, the subject has 1 to 500 characters and the text is
    not empty.  Any message then handed to the SMTP server is addressed
    to the validated recipients and carries the request's subject. *)
Theorem relay_receives_valid_message
    (env : environ) (w : World) (req : Request) (json_body : EmailRequest) :
  Enter fn_send_email ∈ trace (post_send_email env w req json_body) →
  ∃ k er,
    outcome (access_gate env req) = Ok k
    ∧ outcome (validate_body json_body) = Ok er
    ∧ recipients er ≠ []
    ∧ mapM validate_email (recipients json_body) = Some (recipients er)
    ∧ subject_in_bounds json_body ∧ body_non_empty json_body
    ∧ ∀ msg, Smtp (smtp_send_message msg)
               ∈ trace (post_send_email env w req json_body) →
             msg_To msg = Py.join ", " (recipients er)
             ∧ msg_Subject msg = subject json_body.
Proof.
  unfold post_send_email. rewrite trace_bind.
  assert (Hgate : ∀ ev, ev ∈ trace (access_gate env req) →
                        gate_event ev = true)
    by apply access_gate_trace.
  destruct (outcome (access_gate env req)) as [k|e].
  2:{ intros Hin. by apply Hgate in Hin. }
  rewrite trace_bind, validate_body_trace.
  destruct (outcome (validate_body json_body)) as [er|e] eqn:Hval.
  2:{ intros [Hin|Hin]%elem_of_app; [by apply Hgate in Hin|].
      list_cases Hin. done. }
  intros _. exists k, er.
  destruct (validate_body_Ok_inv json_body er Hval)
    as (HS & HB & Hne & Hm & Hsub).
  repeat (split; [done|]).
  intros msg [Hin|[Hin|Hin]%elem_of_app]%elem_of_app.
  - by apply Hgate in Hin.
  - list_cases Hin. done.
  - apply send_email_endpoint_trace in Hin as [Hin|(m & [=])].
    apply send_email_sent in Hin as (_ & _ & cfg & ps & _ & _ & -> & _).
    cbn. by rewrite Hsub.
Qed.

(** ** The health endpoint *)

Lemma health_check_run (env : environ) :
  health_check env =
    ([], match outcome (get_smtp_config env) with
         | Ok cfg =>
             Ok {| health_status := "healthy";
                   health_smtp_server := smtp_server cfg;
                   health_smtp_port := smtp_port cfg;
                   health_smtp_from_email := smtp_from_email cfg;
                   health_smtp_configured := true;
                   health_security := {|
                     api_key_configured := Py.truthy (get_api_key env);
                     ip_whitelist_enabled :=
                       bool_decide
                         (0 < List.length (get_allowed_ips env))%nat;
                     allowed_ips_count := List.length (get_allowed_ips env)
                   |} |}
         | Raise (ValueError m) => Raise (HTTPException 503 m [])
         | Raise e => Raise e
         end).
Proof.
  unfold health_check.
  destruct (get_smtp_config_cases env) as [(cfg & ->)|(m & ->)]; done.
Qed.

(** X14: the health report tells the truth about the gate and the
    relay.  The endpoint answers (rather than raising 503) exactly when
    [get_smtp_config] succeeds, which is when [send_email] gets past its
    configuration step.  In an answer, [api_key_configured] is false
    exactly when the key check lets every request through and true
    exactly when a request without key is refused 401;
    [ip_whitelist_enabled] is false exactly when the allowlist is empty,
    and then the matcher accepts every client; the count is the number
    of allowlist entries.  The endpoint logs nothing and never enters
    the gate. *)
Theorem health_report_is_truthful (env : environ) :
  ((∃ r, outcome (health_check env) = Ok r) ↔
   (∃ cfg, outcome (get_smtp_config env) = Ok cfg))
  ∧ (∀ e, outcome (health_check env) = Raise e →
       ∃ m, e = HTTPException 503 m []
            ∧ outcome (get_smtp_config env) = Raise (ValueError m))
  ∧ trace (health_check env) = []
  ∧ (∀ r, outcome (health_check env) = Ok r →
       (api_key_configured (health_security r) = false ↔
          ∀ presented,
            outcome (verify_api_key env presented) = Ok "no-key-required")
       ∧ (api_key_configured (health_security r) = true ↔
          ∃ d h, outcome (verify_api_key env None)
                 = Raise (HTTPException 401 d h))
       ∧ (ip_whitelist_enabled (health_security r) = false ↔
          get_allowed_ips env = [])
       ∧ (ip_whitelist_enabled (health_security r) = false →
          ∀ client_ip, outcome (verify_ip_address env client_ip) = Ok true)
       ∧ allowed_ips_count (health_security r)
         = List.length (get_allowed_ips env)).
Proof.
  rewrite health_check_run. cbn [outcome trace fst snd].
  destruct (get_smtp_config_cases env) as [(cfg & Hcfg)|(m & Hcfg)];
    rewrite Hcfg; cbn [outcome snd].
  2:{ split; [split; by intros [? ?]|]. split; [|done].
      intros e [= <-]. eauto. }
  split; [split; eauto|]. split; [done|]. split; [done|].
  intros r [= <-].
  cbn [health_security api_key_configured ip_whitelist_enabled
       allowed_ips_count].
  assert (Hkey : ∀ presented,
            outcome (verify_api_key env presented) =
              if negb (Py.truthy (get_api_key env))
              then Ok "no-key-required"
              else if negb (Py.truthy presented)
                   then Raise (HTTPException 401
        "API Key requerida. Proporciona la API Key en el header X-API-Key"
                          [("WWW-Authenticate", "ApiKey")])
                   else if negb (bool_decide (presented = get_api_key env))
                        then Raise (HTTPException 401 "API Key inválida"
                                      [("WWW-Authenticate", "ApiKey")])
                        else Ok (default EmptyString presented))
    by apply verify_api_key_outcome.
  assert (Hlen : bool_decide (0 < List.length (get_allowed_ips env))%nat
                 = false ↔ get_allowed_ips env = []).
  { rewrite bool_decide_eq_false.
    destruct (get_allowed_ips env); cbn; split; (done || lia). }
  split; [|split; [|split; [|split]]].
  - split.
    + intros Hk presented. by rewrite Hkey, Hk.
    + intros Hall. specialize (Hall None). rewrite Hkey in Hall.
      by destruct (Py.truthy (get_api_key env)).
  - split.
    + intros Hk. rewrite Hkey, Hk. cbn. eauto.
    + intros (d & h & Hd). rewrite Hkey in Hd.
      by destruct (Py.truthy (get_api_key env)).
  - exact Hlen.
  - intros Hnil%Hlen client_ip. rewrite verify_ip_address_outcome.
    by rewrite Hnil.
  - done.
Qed.

Lemma health_check_depends_on (env1 env2 : environ) :
  getenv_or env1 "SMTP_PORT" "587" = getenv_or env2 "SMTP_PORT" "587" →
  env1 !! "SMTP_SERVER" = env2 !! "SMTP_SERVER" →
  env1 !! "SMTP_FROM_EMAIL" = env2 !! "SMTP_FROM_EMAIL" →
  Py.truthy (env1 !! "SMTP_USER") = Py.truthy (env2 !! "SMTP_USER") →
  Py.truthy (env1 !! "SMTP_PASSWORD") = Py.truthy (env2 !! "SMTP_PASSWORD") →
  Py.truthy (env1 !! "API_KEY") = Py.truthy (env2 !! "API_KEY") →
  env1 !! "ALLOWED_IPS" = env2 !! "ALLOWED_IPS" →
  health_check env1 = health_check env2.
Proof.
  intros Hport Hserver Hfrom Huser Hpw Hkey Hips.
  rewrite !health_check_run. f_equal.
  assert (Hallow : get_allowed_ips env1 = get_allowed_ips env2).
  { unfold get_allowed_ips, getenv_or. by rewrite Hips. }
  unfold get_api_key, getenv. rewrite Hkey, Hallow.
  unfold get_smtp_config, getenv. rewrite Hport, Hserver, Hfrom.
  destruct (int_of_str _) as [port|]; [|done].
  cbn [smtp_server smtp_user smtp_password smtp_from_email List.filter snd].
  rewrite Huser, Hpw.
  destruct (Py.truthy (env2 !! "SMTP_SERVER"));
  destruct (Py.truthy (env2 !! "SMTP_USER"));
  destruct (Py.truthy (env2 !! "SMTP_PASSWORD"));
  destruct (Py.truthy (env2 !! "SMTP_FROM_EMAIL"));
  cbn [negb fst snd fmap list_fmap];
  rewrite ?bool_decide_eq_true_2 by done;
  rewrite ?(bool_decide_eq_false_2 (_ = [])) by done; cbn [negb]; done.
Qed.

(** X15: the health endpoint keeps the secrets.  Replacing the SMTP
    password, the SMTP user or the API key by any other non-empty value
    changes nothing in what the endpoint returns, raises or logs. *)
Theorem health_check_hides_secrets
    (env : environ) (name secret : string) :
  name ∈ ["SMTP_PASSWORD"; "SMTP_USER"; "API_KEY"] →
  Py.truthy (env !! name) = true →
  secret ≠ EmptyString →
  health_check (<[name := secret]> env) = health_check env.
Proof.
  intros Hname Hset Hsecret.
  assert (Hnew : Py.truthy (<[name := secret]> env !! name) = true).
  { rewrite lookup_insert_eq. by apply truthy_Some. }
  list_cases Hname.
  all: apply health_check_depends_on; unfold getenv_or;
    rewrite ?lookup_insert_ne by done; try done; congruence.
Qed.

End Routes.

Section Middleware.
Context {lib : PyLib}.

(** ** The documentation middleware, continued *)

(** X16: the middleware never raises and never alters a response.  On a
    path that begins with none of [/docs], [/redoc], [/openapi.json] it
    is the identity: the application is called and no event is added.
    On a documentation path whose client the address stage refuses, the
    application is not called and the answer is a 403 JSON response
    whose detail contains the resolved client address.  On every path,
    if the application returns a response, so does the middleware. *)
Theorem docs_middleware_responses (env : environ) (req : Request) :
  (existsb (Py.startswith (url_path req)) docs_paths = false →
   ∀ call_next,
     DocsAccessMiddleware_dispatch env req call_next = call_next req)
  ∧ (existsb (Py.startswith (url_path req)) docs_paths = true →
     ip_decision env (get_client_ip req) = false →
     ∃ t detail,
       substring_of (get_client_ip req) detail = true
       ∧ ∀ call_next,
           DocsAccessMiddleware_dispatch env req call_next
           = (t, Ok (JSONResponse 403 [("detail", detail)])))
  ∧ (∀ call_next,
       (∃ t resp, call_next req = (t, Ok resp)) →
       ∃ t resp,
         DocsAccessMiddleware_dispatch env req call_next = (t, Ok resp)).
Proof.
  split; [|split].
  - intros Hpath call_next. unfold DocsAccessMiddleware_dispatch.
    by rewrite Hpath.
  - intros Hpath Hdeny. unfold DocsAccessMiddleware_dispatch.
    rewrite Hpath. revert Hdeny. unfold ip_decision, private_exception.
    set (ip := get_client_ip req).
    intros [Hpriv Hmatch]%orb_false_iff.
    assert (Hnil : bool_decide (get_allowed_ips env = []) = false).
    { destruct (bool_decide (get_allowed_ips env = [])) eqn:Hnil; [|done].
      unfold matcher_allows in Hmatch. by rewrite Hnil in Hmatch. }
    rewrite Hnil.
    destruct (verify_ip_address_eta env ip) as (t & Hrun & _).
    destruct (bool_decide ("127.0.0.1" ∈ get_allowed_ips env)) eqn:Hlocal;
      cbn [andb] in Hpriv |- *.
    + rewrite Hpriv, orb_false_r.
      destruct (bool_decide (ip ∈ ["127.0.0.1"; "::1"; "localhost"]))
        eqn:Hname.
      { rewrite localhost_literal_matches in Hmatch;
          [done|by apply bool_decide_eq_true in Hlocal
               |by apply bool_decide_eq_true in Hname]. }
      do 2 eexists. split; revgoals.
      { intros call_next. rewrite bind_ret_l. cbn [negb].
        rewrite Hrun, Hmatch. reflexivity. }
      apply substring_of_middle.
    + do 2 eexists. split; revgoals.
      { intros call_next. rewrite bind_ret_l. cbn [negb].
        rewrite Hrun, Hmatch. reflexivity. }
      apply substring_of_middle.
  - intros call_next (t & resp & Hnext).
    destruct (existsb (Py.startswith (url_path req)) docs_paths) eqn:Hpath.
    + pose proof (dispatch_docs env req Hpath) as Hd.
      destruct (ip_decision env (get_client_ip req)).
      * destruct Hd as (t' & Hd). rewrite Hd, Hnext. cbn. eauto.
      * destruct Hd as (t' & d & Hd). rewrite Hd. eauto.
    + unfold DocsAccessMiddleware_dispatch. rewrite Hpath, Hnext. eauto.
Qed.

End Middleware.

(** ** The client's attachments on the server *)

Section ClientServer.
#[local] Existing Instance CPython.lib.

(** A property of two byte values, checked on all of them. *)
Lemma forall_bytes2 (P : Z → Z → bool) :
  forallb (λ a, forallb (P a) (seqZ 0 256)) (seqZ 0 256) = true →
  ∀ a b, 0 ≤ a < 256 → 0 ≤ b < 256 → P a b = true.
Proof.
  intros Hall a b Ha Hb.
  rewrite forallb_forall in Hall.
  assert (Hina : In a (seqZ 0 256)) by (apply list_elem_of_In, elem_of_seqZ; lia).
  specialize (Hall a Hina). rewrite forallb_forall in Hall.
  apply Hall, list_elem_of_In, elem_of_seqZ. lia.
Qed.

Lemma Z_of_byte_range (b : byte) : 0 ≤ Client.Z_of_byte b < 256.
Proof. by destruct b. Qed.

Lemma byte_of_Z_eq (z n : Z) (b : byte) :
  n = Client.Z_of_byte b → Z.land z 255 = n → CPython.byte_of_Z z = b.
Proof.
  intros -> Hz. unfold CPython.byte_of_Z. rewrite Hz. by destruct b.
Qed.

Lemma b64_index_char (v : Z) :
  0 ≤ v < 64 →
  CPython.b64_index (Client.b64_char v) = Some v
  ∧ Client.b64_char v ≠ "="%char.
Proof.
  intros Hv.
  assert (Hin : In v (seqZ 0 64)) by (apply list_elem_of_In, elem_of_seqZ; lia).
  assert (Hall : forallb (λ v,
            bool_decide (CPython.b64_index (Client.b64_char v) = Some v)
            && negb (bool_decide (Client.b64_char v = "="%char)))
            (seqZ 0 64) = true) by by vm_compute.
  rewrite forallb_forall in Hall. specialize (Hall v Hin).
  apply andb_true_iff in Hall as [H1 H2].
  apply bool_decide_eq_true in H1.
  apply negb_true_iff, bool_decide_eq_false in H2. done.
Qed.


(** The sextets of a group of bytes, as [b64encode] forms them. *)
Lemma sextet_ranges (n1 n2 n3 : Z) :
  0 ≤ n1 < 256 → 0 ≤ n2 < 256 → 0 ≤ n3 < 256 →
  0 ≤ Z.shiftr n1 2 < 64
  ∧ 0 ≤ Z.lor (Z.shiftl (Z.land n1 3) 4) (Z.shiftr n2 4) < 64
  ∧ 0 ≤ Z.lor (Z.shiftl (Z.land n2 15) 2) (Z.shiftr n3 6) < 64
  ∧ 0 ≤ Z.land n3 63 < 64
  ∧ 0 ≤ Z.shiftl (Z.land n1 3) 4 < 64
  ∧ 0 ≤ Z.shiftl (Z.land n2 15) 2 < 64.
Proof.
  intros H1 H2 H3.
  pose proof (forall_bytes2
    (λ a b, let v := Z.lor (Z.shiftl (Z.land a 3) 4) (Z.shiftr b 4) in
            let u := Z.lor (Z.shiftl (Z.land a 15) 2) (Z.shiftr b 6) in
            (0 <=? v) && (v <? 64) && (0 <=? u) && (u <? 64)
            && (0 <=? Z.shiftr a 2) && (Z.shiftr a 2 <? 64)
            && (0 <=? Z.land a 63) && (Z.land a 63 <? 64)
            && (0 <=? Z.shiftl (Z.land a 3) 4)
            && (Z.shiftl (Z.land a 3) 4 <? 64)
            && (0 <=? Z.shiftl (Z.land a 15) 2)
            && (Z.shiftl (Z.land a 15) 2 <? 64))
    ltac:(by vm_compute)) as Hall.
  pose proof (Hall n1 n2 H1 H2) as Ha.
  pose proof (Hall n2 n3 H2 H3) as Hb.
  pose proof (Hall n3 n3 H3 H3) as Hc.
  cbv zeta in Ha, Hb, Hc.
  rewrite !andb_true_iff, !Z.leb_le, !Z.ltb_lt in Ha, Hb, Hc.
  lia.
Qed.

(** What the decoder rebuilds from the sextets of a group. *)
Lemma decoded_bytes (n1 n2 n3 : Z) :
  0 ≤ n1 < 256 → 0 ≤ n2 < 256 → 0 ≤ n3 < 256 →
  let v1 := Z.shiftr n1 2 in
  let v2 := Z.lor (Z.shiftl (Z.land n1 3) 4) (Z.shiftr n2 4) in
  let v3 := Z.lor (Z.shiftl (Z.land n2 15) 2) (Z.shiftr n3 6) in
  let v4 := Z.land n3 63 in
  Z.land (Z.lor (Z.shiftl v1 2) (Z.shiftr v2 4)) 255 = n1
  ∧ Z.land (Z.lor (Z.shiftl (Z.land v2 15) 4) (Z.shiftr v3 2)) 255 = n2
  ∧ Z.land (Z.lor (Z.shiftl (Z.land v3 3) 6) v4) 255 = n3
  ∧ Z.land (Z.lor (Z.shiftl v1 2)
                  (Z.shiftr (Z.shiftl (Z.land n1 3) 4) 4)) 255 = n1
  ∧ Z.land (Z.lor (Z.shiftl (Z.land v2 15) 4)
                  (Z.shiftr (Z.shiftl (Z.land n2 15) 2) 2)) 255 = n2.
Proof.
  intros H1 H2 H3.
  pose proof (forall_bytes2
    (λ a b,
       let v1 := Z.shiftr a 2 in
       let v2 := Z.lor (Z.shiftl (Z.land a 3) 4) (Z.shiftr b 4) in
       let v3 := Z.lor (Z.shiftl (Z.land a 15) 2) (Z.shiftr b 6) in
       (Z.land (Z.lor (Z.shiftl v1 2) (Z.shiftr v2 4)) 255 =? a)
       && (Z.land v2 15 =? Z.shiftr b 4)
       && (Z.shiftr v3 2 =? Z.land a 15)
       && (Z.land v3 3 =? Z.shiftr b 6)
       && (Z.land (Z.lor (Z.shiftl (Z.shiftr a 4) 4) (Z.land a 15)) 255 =? a)
       && (Z.land (Z.lor (Z.shiftl (Z.shiftr a 6) 6) (Z.land a 63)) 255 =? a)
       && (Z.land (Z.lor (Z.shiftl v1 2)
                         (Z.shiftr (Z.shiftl (Z.land a 3) 4) 4)) 255 =? a)
       && (Z.shiftr (Z.shiftl (Z.land a 15) 2) 2 =? Z.land a 15))
    ltac:(by vm_compute)) as Hall.
  pose proof (Hall n1 n2 H1 H2) as Ha.
  pose proof (Hall n2 n3 H2 H3) as Hb.
  pose proof (Hall n3 n3 H3 H3) as Hc.
  cbv zeta in Ha, Hb, Hc |- *.
  rewrite !andb_true_iff, !Z.eqb_eq in Ha, Hb, Hc.
  destruct Ha as (((((((Ha1 & Ha2) & Ha3) & Ha4) & Ha5) & Ha6) & Ha7) & Ha8).
  destruct Hb as (((((((Hb1 & Hb2) & Hb3) & Hb4) & Hb5) & Hb6) & Hb7) & Hb8).
  destruct Hc as (((((((Hc1 & Hc2) & Hc3) & Hc4) & Hc5) & Hc6) & Hc7) & Hc8).
  rewrite Ha2, Hb3, Hb4, Hb8.
  repeat split; done.
Qed.

(** One alphabet character in the decoding loop. *)
Lemma a2b_loop_char (v : Z) (s : string) (quad_pos : nat) (leftchar : Z)
    (pads : nat) (out : list byte) :
  0 ≤ v < 64 →
  CPython.a2b_loop (String (Client.b64_char v) s) quad_pos leftchar pads out
  = match quad_pos with
    | 0%nat => CPython.a2b_loop s 1%nat v 0%nat out
    | 1%nat =>
        CPython.a2b_loop s 2%nat (Z.land v 15) 0%nat
          (out ++ [CPython.byte_of_Z (Z.lor (Z.shiftl leftchar 2)
                                            (Z.shiftr v 4))])
    | 2%nat =>
        CPython.a2b_loop s 3%nat (Z.land v 3) 0%nat
          (out ++ [CPython.byte_of_Z (Z.lor (Z.shiftl leftchar 4)
                                            (Z.shiftr v 2))])
    | _ =>
        CPython.a2b_loop s 0%nat 0 0%nat
          (out ++ [CPython.byte_of_Z (Z.lor (Z.shiftl leftchar 6) v)])
    end.
Proof.
  intros Hv. destruct (b64_index_char v Hv) as [Hidx Hpad].
  cbn [CPython.a2b_loop]. rewrite (bool_decide_eq_false_2 _ Hpad), Hidx.
  done.
Qed.

Lemma a2b_loop_round_trip (data out : list byte) :
  CPython.a2b_loop (Client.b64encode data) 0%nat 0 0%nat out
  = inr (out ++ data)%list.
Proof.
  revert out. induction data as [data IH] using (induction_ltof1 _ List.length).
  unfold ltof in IH. intros out.
  destruct data as [|b1 [|b2 [|b3 rest]]].
  - cbn. by rewrite app_nil_r.
  - pose proof (Z_of_byte_range b1) as H1.
    destruct (sextet_ranges _ _ _ H1 H1 H1) as (R1 & _ & _ & _ & R5 & _).
    destruct (decoded_bytes _ _ _ H1 H1 H1) as (_ & _ & _ & D4 & _).
    cbn [Client.b64encode]. cbv zeta.
    rewrite (a2b_loop_char _ _ _ _ _ _ R1), (a2b_loop_char _ _ _ _ _ _ R5).
    cbn. by rewrite (byte_of_Z_eq _ _ b1 eq_refl D4).
  - pose proof (Z_of_byte_range b1) as H1.
    pose proof (Z_of_byte_range b2) as H2.
    destruct (sextet_ranges _ _ _ H1 H2 H2) as (R1 & R2 & _ & _ & _ & R6).
    destruct (decoded_bytes _ _ _ H1 H2 H2) as (D1 & _ & _ & _ & D5).
    cbn [Client.b64encode]. cbv zeta.
    rewrite (a2b_loop_char _ _ _ _ _ _ R1), (a2b_loop_char _ _ _ _ _ _ R2),
      (a2b_loop_char _ _ _ _ _ _ R6).
    cbn. rewrite (byte_of_Z_eq _ _ b1 eq_refl D1).
    rewrite (byte_of_Z_eq _ _ b2 eq_refl D5). by rewrite <- app_assoc.
  - pose proof (Z_of_byte_range b1) as H1.
    pose proof (Z_of_byte_range b2) as H2.
    pose proof (Z_of_byte_range b3) as H3.
    destruct (sextet_ranges _ _ _ H1 H2 H3) as (R1 & R2 & R3 & R4 & _ & _).
    destruct (decoded_bytes _ _ _ H1 H2 H3) as (D1 & D2 & D3 & _ & _).
    cbn [Client.b64encode]. cbv zeta.
    rewrite (a2b_loop_char _ _ _ _ _ _ R1), (a2b_loop_char _ _ _ _ _ _ R2),
      (a2b_loop_char _ _ _ _ _ _ R3), (a2b_loop_char _ _ _ _ _ _ R4).
    rewrite (byte_of_Z_eq _ _ b1 eq_refl D1).
    rewrite (byte_of_Z_eq _ _ b2 eq_refl D2).
    rewrite (byte_of_Z_eq _ _ b3 eq_refl D3).
    rewrite IH by (cbn; lia). by rewrite <- !app_assoc.
Qed.


Lemma b64_char_ascii (v : Z) :
  0 ≤ v < 64 → (nat_of_ascii (Client.b64_char v) <? 128)%nat = true.
Proof.
  intros Hv.
  assert (Hin : In v (seqZ 0 64))
    by (apply list_elem_of_In, elem_of_seqZ; lia).
  assert (Hall : forallb (λ v, (nat_of_ascii (Client.b64_char v) <? 128)%nat)
                   (seqZ 0 64) = true) by by vm_compute.
  rewrite forallb_forall in Hall. by apply Hall.
Qed.

Lemma b64encode_isascii (data : list byte) :
  CPython.isascii (Client.b64encode data) = true.
Proof.
  induction data as [data IH] using (induction_ltof1 _ List.length).
  unfold ltof in IH.
  destruct data as [|b1 [|b2 [|b3 rest]]]; [done| | |].
  - pose proof (Z_of_byte_range b1) as H1.
    destruct (sextet_ranges _ _ _ H1 H1 H1) as (R1 & _ & _ & _ & R5 & _).
    cbn [Client.b64encode CPython.isascii]. cbv zeta.
    by rewrite (b64_char_ascii _ R1), (b64_char_ascii _ R5).
  - pose proof (Z_of_byte_range b1) as H1.
    pose proof (Z_of_byte_range b2) as H2.
    destruct (sextet_ranges _ _ _ H1 H2 H2) as (R1 & R2 & _ & _ & _ & R6).
    cbn [Client.b64encode CPython.isascii]. cbv zeta.
    by rewrite (b64_char_ascii _ R1), (b64_char_ascii _ R2),
      (b64_char_ascii _ R6).
  - pose proof (Z_of_byte_range b1) as H1.
    pose proof (Z_of_byte_range b2) as H2.
    pose proof (Z_of_byte_range b3) as H3.
    destruct (sextet_ranges _ _ _ H1 H2 H3) as (R1 & R2 & R3 & R4 & _ & _).
    cbn [Client.b64encode CPython.isascii]. cbv zeta.
    rewrite (b64_char_ascii _ R1), (b64_char_ascii _ R2),
      (b64_char_ascii _ R3), (b64_char_ascii _ R4).
    cbn [andb]. apply IH. cbn. lia.
Qed.

Lemma b64decode_b64encode (data : list byte) :
  b64decode (Client.b64encode data) = inr data.
Proof.
  cbn [b64decode CPython.lib]. unfold CPython.b64decode_str.
  rewrite b64encode_isascii. cbn [negb].
  apply (a2b_loop_round_trip data []).
Qed.

(** X17: what the client encodes, the server decodes.  For every byte
    sequence, file name and content type, an attachment whose content
    is the client's [b64encode] of the bytes is decoded by
    [decode_base64_attachment] to exactly those bytes, and the
    attachment loop turns it into a part that carries them. *)
Theorem b64_attachment_round_trip
    (name : string) (ct : option string) (data : list byte) :
  decode_base64_attachment (MkAttachment name (Client.b64encode data) ct)
  = ([Enter fn_decode_base64_attachment], Ok data)
  ∧ (Py.truthy ct = false →
     ∀ parts,
       outcome (attach_all parts
                  [MkAttachment name (Client.b64encode data) ct])
       = Ok (parts ++ [MIMEBase data "application/octet-stream"
                         ("attachment; filename= " +:+ name)])%list).
Proof.
  split.
  - rewrite decode_base64_attachment_run. cbn [content].
    by rewrite b64decode_b64encode.
  - intros Hct parts.
    rewrite (attach_all_run _ parts
               [MIMEBase data "application/octet-stream"
                  ("attachment; filename= " +:+ name)]); [done|].
    cbn [mapM]. unfold attachment_part. cbn [content content_type filename].
    by rewrite b64decode_b64encode, Hct.
Qed.

(** ** The attachment example of the client script *)

Lemma tipos_mime_values (ext v : string) :
  Client.tipos_mime !! ext = Some v →
  Py.count "/" v = 1%nat ∧ v ≠ EmptyString.
Proof.
  intros Hv. apply elem_of_list_to_map_2 in Hv.
  list_cases Hv; simplify_eq; by vm_compute.
Qed.

Lemma content_type_of_accepted (ruta : string) :
  Py.count "/" (Client.content_type_of ruta) = 1%nat
  ∧ Client.content_type_of ruta ≠ EmptyString.
Proof.
  unfold Client.content_type_of.
  destruct (Client.tipos_mime !! Client.extension ruta) as [v|] eqn:Hv.
  - by apply (tipos_mime_values _ _ Hv).
  - by vm_compute.
Qed.

Lemma last_split_no_sep (sep : ascii) (s : string) :
  Py.contains sep (List.last (Py.split sep s) EmptyString) = false.
Proof.
  destruct (Py.split sep s) as [|w ws] eqn:Hs; [done|].
  apply (split_no_sep sep s). rewrite Hs.
  apply list_elem_of_In.
  destruct (exists_last (l := w :: ws)) as (l' & a & Heq); [done|].
  rewrite Heq, last_last. apply in_or_app. right. by left.
Qed.

Lemma length_append (a b : string) :
  String.length (a +:+ b) = (String.length a + String.length b)%nat.
Proof. induction a as [|c a IH]; [done|]. simpl. by f_equal. Qed.

(** X18: every file the client example attaches is accepted by the
    server.  For every path and content, the content type the client
    picks has exactly one [/], the file name it sends contains no [/],
    and the server's attachment loop turns the attachment into one part
    that carries the file's bytes under that type and name.  The body
    passes the server's validation exactly when the file name has at
    most 480 characters, the subject being the name after a 20-character
    prefix. *)
Theorem client_attachment_accepted (ruta : string) (contenido : list byte) :
  Py.count "/" (Client.content_type_of ruta) = 1%nat
  ∧ Py.contains "/" (Client.nombre_archivo ruta) = false
  ∧ mapM attachment_part
      (default [] (attachments
                     (Client.ejemplo_adjunto_desde_archivo ruta contenido)))
    = Some [MIMEBase contenido (Client.content_type_of ruta)
              ("attachment; filename= " +:+ Client.nombre_archivo ruta)]
  ∧ ((∃ er, outcome (validate_body
                       (Client.ejemplo_adjunto_desde_archivo ruta contenido))
            = Ok er)
     ↔ (String.length (Client.nombre_archivo ruta) ≤ 480)%nat).
Proof.
  destruct (content_type_of_accepted ruta) as [Hcount Hne].
  split; [done|]. split; [apply last_split_no_sep|]. split.
  - cbn [Client.ejemplo_adjunto_desde_archivo attachments default
         from_option id mapM].
    unfold attachment_part. cbn [content content_type filename default
                                 from_option id].
    rewrite b64decode_b64encode, (truthy_Some _ Hne), Hcount.
    by rewrite bool_decide_eq_true_2.
  - unfold validate_body. rewrite bind_emit_l. cbn [outcome snd].
    cbn [Client.ejemplo_adjunto_desde_archivo subject body recipients
         attachments is_html].
    rewrite !length_append.
    change (String.length "Correo con adjunto: ") with 20%nat.
    change (String.length "Por favor encuentra adjunto el archivo ")
      with 39%nat.
    change (mapM validate_email ["destinatario@example.com"])
      with (Some ["destinatario@example.com"]).
    cbn [mbind option_bind List.length].
    rewrite (bool_decide_eq_true_2 (1 ≤ 1)%nat) by lia.
    cbn [mbind option_bind]. unfold validate_recipients.
    rewrite !bool_decide_eq_false_2 by done. cbn [orb].
    rewrite (bool_decide_eq_true_2 (1 ≤ 20 + _)%nat) by lia.
    rewrite (bool_decide_eq_true_2 (1 ≤ 39 + _)%nat) by lia.
    cbn [andb app].
    destruct (decide (String.length (Client.nombre_archivo ruta) ≤ 480)%nat)
      as [Hlen|Hlen].
    + rewrite (bool_decide_eq_true_2 (20 + _ ≤ 500)%nat) by lia.
      cbn [app]. rewrite bool_decide_eq_true_2 by done.
      split; [done|]. intros _. by eexists.
    + rewrite (bool_decide_eq_false_2 (20 + _ ≤ 500)%nat) by lia.
      cbn [app]. rewrite bool_decide_eq_false_2 by done.
      split; [by intros [? ?]|done].
Qed.

End ClientServer.

(** * The program on examples

    The theorems above, applied to concrete configurations and requests
    with the [CPython] implementation of the library interface, and the
    inputs on which the specification's wording and the program part. *)

Section Examples.
#[local] Existing Instance CPython.lib.

(** Membership in a concrete list, by evaluation. *)
Ltac in_list := vm_compute; repeat constructor.

(** ** Scenarios of the specification *)

Example real_ip_wins : get_client_ip Ex.req_both = "8.8.8.8".
Proof. reflexivity. Qed.

Example forwarded_for_first : get_client_ip Ex.req_forwarded = "1.2.3.4".
Proof. reflexivity. Qed.

Example b64decode_hello_world :
  b64decode "aGVsbG8gd29ybGQ="
  = inr (byte_of_ascii <$> list_ascii_of_string "hello world").
Proof. reflexivity. Qed.

Example host_bits_accepted :
  ip_network "192.168.1.77/24" true = None
  ∧ ip_network "192.168.1.77/24" false = ip_network "192.168.1.0/24" true
  ∧ outcome (verify_ip_address Ex.env_host_bits "192.168.1.5") = Ok true.
Proof. by vm_compute. Qed.

Example literal_localhost_names :
  outcome (verify_ip_address Ex.env_localhost "::1") = Ok true
  ∧ outcome (verify_ip_address Ex.env_localhost "localhost") = Ok true
  ∧ outcome (verify_ip_address Ex.env_localhost "127.0.0.2") = Ok false.
Proof. by vm_compute. Qed.

Example no_literal_no_exception :
  ∃ d, outcome (verify_access Ex.env_no_literal Ex.req_private "s3cret")
       = Raise (HTTPException 403 d []).
Proof. eexists. vm_compute. reflexivity. Qed.

Example python_strings :
  Py.strip "  a b  " = "a b"
  ∧ Py.split "," "a,,b" = ["a"; EmptyString; "b"]
  ∧ Py.split "," EmptyString = [EmptyString]
  ∧ Py.join ", " ["x"; "y"; "z"] = "x, y, z"
  ∧ Py.lower "X-Real-IP" = "x-real-ip"
  ∧ Py.startswith "192.168.1.50" "192.168." = true
  ∧ Py.startswith "19.2.168.1" "192.168." = false.
Proof. by vm_compute. Qed.

Example allowlist_parsing :
  get_allowed_ips Ex.env_full
  = ["127.0.0.1"; "203.0.113.0/24"; "bad/entry"; "8.8.4.4"]
  ∧ get_allowed_ips {[ "ALLOWED_IPS" := " , ," ]} = []
  ∧ get_allowed_ips ∅ = [].
Proof. by vm_compute. Qed.

(** An attachment with a content type that is no [maintype/subtype]
    makes [set_type] raise before a later malformed attachment is
    decoded. *)
Example content_type_raises_first :
  outcome (send_email Ex.env_full Ex.world "Hi" "Body" ["a@example.org"]
             (Some [MkAttachment "a.pdf" "aGVsbG8=" (Some "pdf");
                    Ex.corrupted]) false)
  = Raise (ValueError EmptyString).
Proof. by vm_compute. Qed.

Example transport_selection :
  trace (send_email (<["SMTP_PORT" := "465"]> Ex.env_full) Ex.world
           "Hi" "Body" ["a@example.org"] None false)
  !! 1%nat = Some (Smtp (smtp_connect_ssl (Some "smtp.example.org") 465))
  ∧ Smtp smtp_starttls
      ∈ trace (send_email Ex.env_full Ex.world "Hi" "Body"
                 ["a@example.org"] None false)
  ∧ ¬ Smtp smtp_starttls
        ∈ trace (send_email (<["SMTP_USE_TLS" := "False"]> Ex.env_full)
                   Ex.world "Hi" "Body" ["a@example.org"] None false).
Proof.
  split; [reflexivity|]. split; [in_list|].
  intros Hin. vm_compute in Hin. list_cases Hin; discriminate.
Qed.

Example mail_sent :
  outcome (post_send_email Ex.env_full Ex.world Ex.req_private Ex.body_ok)
  = Ok (MkEmailResponse true
          "Correo enviado exitosamente a 1 destinatario(s)"
          "2026-01-01T00:00:00" ["a@example.org"]).
Proof. by vm_compute. Qed.

(** ** C1 *)

Lemma mail_only_after_gate_witness :
  (∃ ev, ev ∈ trace (post_send_email Ex.env_full Ex.world Ex.req_private
                       Ex.body_ok)
         ∧ mail_action ev = true)
  ∧ ∃ k, outcome (access_gate Ex.env_full Ex.req_private) = Ok k.
Proof.
  assert (Hev : ∃ ev, ev ∈ trace (post_send_email Ex.env_full Ex.world
                                    Ex.req_private Ex.body_ok)
                      ∧ mail_action ev = true).
  { exists (Enter fn_send_email). split; [in_list|reflexivity]. }
  split; [exact Hev|].
  exact (proj1 (mail_only_after_gate Ex.env_full Ex.world Ex.req_private
                  Ex.body_ok) Hev).
Defined.

(** ** C2 *)

(** With a credential configured and no key presented, the middleware
    lets a documentation request through although the gate answers 401:
    the two decisions are not the same. *)
Lemma docs_middleware_counterexample :
  ¬ (docs_forwards Ex.env_key Ex.req_docs ↔
     ∃ k, outcome (access_gate Ex.env_key Ex.req_docs) = Ok k).
Proof.
  intros [Hgate _].
  destruct Hgate as [k Hk]; [|by vm_compute in Hk].
  apply (docs_forwards_iff Ex.env_key Ex.req_docs eq_refl).
  by vm_compute.
Qed.

Lemma docs_middleware_address_decision_witness :
  existsb (Py.startswith (url_path Ex.req_docs_private)) docs_paths = true
  ∧ (docs_forwards Ex.env_full Ex.req_docs_private ↔
     ∀ api_key,
       outcome (verify_access Ex.env_full Ex.req_docs_private api_key)
       = Ok api_key).
Proof.
  split; [reflexivity|].
  exact (proj1 (docs_middleware_address_decision Ex.env_full
                  Ex.req_docs_private eq_refl)).
Defined.

(** ** C3 *)

Lemma private_network_short_circuit_witness :
  "127.0.0.1" ∈ get_allowed_ips Ex.env_localhost
  ∧ Py.startswith (verify_access_client_ip Ex.req_private) "10." = true
  ∧ outcome (verify_ip_address Ex.env_localhost "10.0.0.9") = Ok false
  ∧ outcome (verify_access Ex.env_localhost Ex.req_private "s3cret")
    = Ok "s3cret"
  ∧ (Enter fn_verify_ip_address
       ∉ trace (verify_access Ex.env_localhost Ex.req_private "s3cret")).
Proof.
  assert (Hin : "127.0.0.1" ∈ get_allowed_ips Ex.env_localhost) by in_list.
  split; [exact Hin|]. split; [reflexivity|]. split; [reflexivity|].
  pose proof (private_network_short_circuit Ex.env_localhost Ex.req_private
                "s3cret" Hin (or_intror (or_intror eq_refl))) as (Ho & Ht & _).
  by split.
Defined.

(** ** C4 *)

Lemma verify_api_key_contract_witness :
  get_api_key Ex.env_key = Some "s3cret"
  ∧ (∃ d h, outcome (verify_api_key Ex.env_key None)
            = Raise (HTTPException 401 d h))
  ∧ (∃ d h, outcome (access_gate Ex.env_key Ex.req_wrong_key)
            = Raise (HTTPException 401 d h)).
Proof.
  split; [reflexivity|].
  destruct (proj2 (verify_api_key_contract Ex.env_key) "s3cret" eq_refl)
    as (Hnone & _ & _ & Hgate); [done|].
  split; [exact Hnone|].
  destruct (Hgate Ex.req_wrong_key) as (H401 & _); [by vm_compute|].
  exact H401.
Defined.

(** ** C5 *)

(** An [X-Real-IP] header that is present with an empty value does not
    win: the address comes from [X-Forwarded-For]. *)
Lemma get_client_ip_counterexample :
  ¬ (∀ v, headers_get Ex.req_empty_real_ip "X-Real-IP" = Some v →
          get_client_ip Ex.req_empty_real_ip = Py.strip v).
Proof. intros Hclaim. specialize (Hclaim EmptyString eq_refl). by vm_compute in Hclaim. Qed.

Lemma get_client_ip_precedence_witness :
  headers_get Ex.req_both "X-Real-IP" = Some "8.8.8.8"
  ∧ get_client_ip Ex.req_both = Py.strip "8.8.8.8".
Proof.
  split; [reflexivity|].
  apply (proj1 (get_client_ip_precedence Ex.req_both) "8.8.8.8");
    [reflexivity|done].
Defined.

(** ** C6 *)

(** The candidate [localhost] is no IP address, yet it matches the entry
    [127.0.0.0/8]: the replacement by [127.0.0.1] comes before the
    network test. *)
Lemma verify_ip_address_entry_counterexample :
  get_allowed_ips Ex.env_cidr = ["127.0.0.0/8"]
  ∧ ¬ (outcome (verify_ip_address Ex.env_cidr "localhost") = Ok true ↔
       ∃ addr net,
         ip_address "localhost" = Some addr
         ∧ ip_network "127.0.0.0/8" false = Some net
         ∧ ip_in addr net = true).
Proof.
  split; [reflexivity|].
  intros [Hclaim _]. destruct Hclaim as (addr & net & Haddr & _).
  - reflexivity.
  - by vm_compute in Haddr.
Qed.

Lemma verify_ip_address_entry_semantics_witness :
  get_allowed_ips Ex.env_host_bits = ["192.168.1.77/24"]
  ∧ (outcome (verify_ip_address Ex.env_host_bits "192.168.1.5") = Ok true ↔
     ∃ addr net,
       ip_address (normalize_localhost "192.168.1.5") = Some addr
       ∧ ip_network "192.168.1.77/24" false = Some net
       ∧ ip_in addr net = true).
Proof.
  split; [reflexivity|].
  exact (proj1 (verify_ip_address_entry_semantics Ex.env_host_bits
                  "192.168.1.5" "192.168.1.77/24" eq_refl) eq_refl).
Defined.

(** ** C7 *)

Lemma verify_ip_address_is_allowed_witness :
  get_allowed_ips Ex.env_malformed = ["bad/entry"; "203.0.113.0/24"]
  ∧ check_entry (normalize_localhost "203.0.113.9") "bad/entry" = None
  ∧ outcome (verify_ip_address Ex.env_malformed "203.0.113.9") = Ok true.
Proof.
  split; [reflexivity|]. split; [reflexivity|].
  apply (proj2 (proj2 (proj2 (verify_ip_address_is_allowed Ex.env_malformed
                                "203.0.113.9")))
           [] "bad/entry" ["203.0.113.0/24"] "203.0.113.0/24");
    [reflexivity|reflexivity|in_list|reflexivity].
Defined.

(** ** C8 *)

(** With a credential configured and no key presented, a request with an
    empty recipients list is answered by the gate, 401, and its body is
    never validated. *)
Lemma empty_recipients_counterexample :
  recipients Ex.body_no_recipients = []
  ∧ (¬ ∃ errs,
       outcome (post_send_email Ex.env_key Ex.world Ex.req_no_key
                  Ex.body_no_recipients)
       = Raise (RequestValidationError errs))
  ∧ trace (post_send_email Ex.env_key Ex.world Ex.req_no_key
             Ex.body_no_recipients)
    = [Enter fn_verify_api_key].
Proof.
  split; [reflexivity|]. split; [|reflexivity].
  intros (errs & Herr). by vm_compute in Herr.
Qed.

Lemma empty_recipients_rejected_witness :
  recipients Ex.body_no_recipients = []
  ∧ outcome (access_gate Ex.env_full Ex.req_private) = Ok "s3cret"
  ∧ ∃ errs,
      outcome (post_send_email Ex.env_full Ex.world Ex.req_private
                 Ex.body_no_recipients)
      = Raise (RequestValidationError errs)
      ∧ "recipients" ∈ errs.
Proof.
  split; [reflexivity|]. split; [reflexivity|].
  destruct (proj1 (proj2 (empty_recipients_rejected Ex.env_full Ex.world
                            Ex.req_private Ex.body_no_recipients eq_refl))
              "s3cret" eq_refl) as (errs & Ho & Hin & _).
  by exists errs.
Defined.

(** ** C9 *)



(** ** C10 *)

(** With [127.0.0.1] on the allowlist, a documentation request from the
    loopback address takes the middleware's Docker/private branch
    although its client string has none of the three prefixes. *)
Lemma docker_branch_counterexample :
  ¬ (docs_branch_fires Ex.env_localhost Ex.req_docs_loopback ↔
     "127.0.0.1" ∈ get_allowed_ips Ex.env_localhost
     ∧ (Py.startswith (get_client_ip Ex.req_docs_loopback) "172." = true
        ∨ Py.startswith (get_client_ip Ex.req_docs_loopback) "192.168."
          = true
        ∨ Py.startswith (get_client_ip Ex.req_docs_loopback) "10." = true)).
Proof.
  intros [Hfire _].
  destruct Hfire as (_ & [H|[H|H]]); [in_list|discriminate H..].
Qed.

Lemma docker_branch_exactly_witness :
  "127.0.0.1" ∈ get_allowed_ips Ex.env_localhost
  ∧ verify_access_client_ip Ex.req_not_an_ip = "10.not.an.ip"
  ∧ ip_address "10.not.an.ip" = None
  ∧ outcome (verify_access Ex.env_localhost Ex.req_not_an_ip "s3cret")
    = Ok "s3cret"
  ∧ Enter fn_verify_ip_address
      ∈ trace (verify_access Ex.env_no_literal Ex.req_private "s3cret")
  ∧ get_client_ip Ex.req_docs_loopback = "127.0.0.1"
  ∧ docs_branch_fires Ex.env_localhost Ex.req_docs_loopback
  ∧ Py.startswith (get_client_ip Ex.req_docs_private) "172." = true
  ∧ ¬ docs_branch_fires Ex.env_no_literal Ex.req_docs_private.
Proof.
  assert (Hin : "127.0.0.1" ∈ get_allowed_ips Ex.env_localhost) by in_list.
  split; [exact Hin|]. split; [reflexivity|]. split; [reflexivity|].
  split; [|split; [|split; [reflexivity|split; [|split; [reflexivity|]]]]].
  - apply (docker_branch_exactly Ex.env_localhost
             Ex.req_not_an_ip "s3cret"); [exact Hin|reflexivity].
  - apply (docker_branch_exactly Ex.env_no_literal
             Ex.req_private "s3cret").
    intros entry Hentry. exact Hentry.
  - destruct (docker_branch_exactly Ex.env_localhost Ex.req_docs_loopback
                "s3cret") as (_ & _ & _ & _ & _ & _ & Hiff & _).
    apply Hiff. split; [reflexivity|]. split; [exact Hin|].
    left. in_list.
  - destruct (docker_branch_exactly Ex.env_no_literal Ex.req_docs_private
                "s3cret") as (_ & _ & _ & _ & _ & _ & Hiff & _).
    intros Hfire. apply Hiff in Hfire as (_ & Hlit & _).
    vm_compute in Hlit. list_cases Hlit; discriminate.
Defined.

End Examples.

(** * The further properties on examples *)

Section FurtherExamples.

#[local] Existing Instance CPython.lib.

Ltac in_list := vm_compute; repeat constructor.

Example b64encode_hello :
  Client.b64encode (list_byte_of_string "hello world") = "aGVsbG8gd29ybGQ="
  ∧ Client.b64encode (list_byte_of_string "hi") = "aGk="
  ∧ Client.b64encode (list_byte_of_string "h") = "aA==".
Proof. by vm_compute. Qed.

Example client_body_for_a_report :
  Client.ejemplo_adjunto_desde_archivo "/srv/files/Informe.PDF"
    (list_byte_of_string "hi")
  = MkEmailRequest "Correo con adjunto: Informe.PDF"
      "Por favor encuentra adjunto el archivo Informe.PDF."
      ["destinatario@example.com"]
      (Some [MkAttachment "Informe.PDF" "aGk=" (Some "application/pdf")])
      false.
Proof. by vm_compute. Qed.

Example client_unknown_extension :
  Client.content_type_of "notes" = "application/octet-stream"
  ∧ Client.content_type_of "archive.tar.gz" = "application/octet-stream"
  ∧ Client.content_type_of "photo.JPEG" = "image/jpeg".
Proof. by vm_compute. Qed.

Example health_of_env_full :
  outcome (health_check Ex.env_full)
  = Ok (MkHealthReport "healthy" (Some "smtp.example.org") 587
          (Some "noreply@example.org") true
          (MkSecurityReport true true 4)).
Proof. by vm_compute. Qed.

Example health_without_smtp :
  ∃ m, outcome (health_check Ex.env_no_smtp)
       = Raise (HTTPException 503 m []).
Proof. eexists. by vm_compute. Qed.

(** ** X1 *)

Lemma get_allowed_ips_entries_witness :
  "203.0.113.0/24" ∈ get_allowed_ips Ex.env_full
  ∧ "203.0.113.0/24" ≠ EmptyString
  ∧ Py.strip "203.0.113.0/24" = "203.0.113.0/24"
  ∧ Py.contains "," "203.0.113.0/24" = false.
Proof.
  assert (Hin : "203.0.113.0/24" ∈ get_allowed_ips Ex.env_full) by in_list.
  split; [exact Hin|].
  exact (get_allowed_ips_entries Ex.env_full "203.0.113.0/24" Hin).
Defined.

(** ** X3 *)

Lemma allowlist_monotone_witness :
  get_allowed_ips Ex.env_literal ≠ []
  ∧ (∀ entry, entry ∈ get_allowed_ips Ex.env_literal →
              entry ∈ get_allowed_ips Ex.env_full)
  ∧ outcome (verify_ip_address Ex.env_literal "8.8.4.4") = Ok true
  ∧ outcome (verify_ip_address Ex.env_full "8.8.4.4") = Ok true.
Proof.
  assert (Hne : get_allowed_ips Ex.env_literal ≠ []) by by vm_compute.
  assert (Hsub : ∀ entry, entry ∈ get_allowed_ips Ex.env_literal →
                          entry ∈ get_allowed_ips Ex.env_full).
  { intros entry Hin. vm_compute in Hin. list_cases Hin; subst. in_list. }
  assert (Hok : outcome (verify_ip_address Ex.env_literal "8.8.4.4")
                = Ok true) by reflexivity.
  split; [exact Hne|]. split; [exact Hsub|]. split; [exact Hok|].
  exact (proj1 (allowlist_monotone Ex.env_literal Ex.env_full Hne Hsub)
           "8.8.4.4" Hok).
Defined.

(** ** X5 *)

Lemma gate_trusts_real_ip_header_witness :
  headers_get Ex.req_private "X-Real-IP" = Some " 10.0.0.9 "
  ∧ headers_get Scenario.req_forged "X-Real-IP" = Some " 10.0.0.9 "
  ∧ headers_get Ex.req_private "X-API-Key"
    = headers_get Scenario.req_forged "X-API-Key"
  ∧ access_gate Ex.env_full Ex.req_private
    = access_gate Ex.env_full Scenario.req_forged
  ∧ verify_access_client_ip Ex.req_private = "10.0.0.9".
Proof.
  split; [reflexivity|]. split; [reflexivity|]. split; [reflexivity|].
  exact (gate_trusts_real_ip_header Ex.env_full Ex.req_private
           Scenario.req_forged " 10.0.0.9 " eq_refl eq_refl
           ltac:(discriminate) eq_refl).
Defined.

(** ** X9 *)

Lemma send_email_session_witness :
  outcome (get_smtp_config Ex.env_full) = Ok Scenario.cfg_full
  ∧ mapM attachment_part [Ex.hello] = Some [Scenario.hello_part]
  ∧ smtp_healthy Ex.world
  ∧ smtp_ops (trace (send_email Ex.env_full Ex.world "Hi" "Body"
                       ["a@example.org"; "b@example.org"]
                       (Some [Ex.hello]) false))
    = [smtp_connect (Some "smtp.example.org") 587; smtp_starttls;
       smtp_login (Some "mailer") (Some "pw");
       smtp_send_message
         (MkMessage (Some "noreply@example.org")
            "a@example.org, b@example.org" "Hi"
            [MIMEText "Body" "plain" "utf-8"; Scenario.hello_part]);
       smtp_quit]
  ∧ outcome (send_email Ex.env_full Ex.world "Hi" "Body"
               ["a@example.org"; "b@example.org"] (Some [Ex.hello]) false)
    = Ok (send_result ["a@example.org"; "b@example.org"]).
Proof.
  assert (Hcfg : outcome (get_smtp_config Ex.env_full)
                 = Ok Scenario.cfg_full) by reflexivity.
  assert (Hps : mapM attachment_part (default [] (Some [Ex.hello]))
                = Some [Scenario.hello_part]) by reflexivity.
  assert (Hw : smtp_healthy Ex.world) by by repeat split.
  split; [exact Hcfg|]. split; [exact Hps|]. split; [exact Hw|].
  exact (send_email_session Ex.env_full Ex.world "Hi" "Body"
           ["a@example.org"; "b@example.org"] (Some [Ex.hello]) false
           Scenario.cfg_full [Scenario.hello_part] Hcfg Hps Hw).
Defined.

(** ** X11 *)

Lemma send_email_failure_modes_witness :
  outcome (get_smtp_config Ex.env_full) = Ok Scenario.cfg_full
  ∧ mapM attachment_part [Ex.hello] = Some [Scenario.hello_part]
  ∧ outcome (send_email Ex.env_full Scenario.world_login_refused "Hi" "Body"
               ["a@example.org"] (Some [Ex.hello]) false)
    = Raise (SMTPAuthenticationError "535 bad credentials")
  ∧ (¬ ∃ msg, Smtp (smtp_send_message msg)
                ∈ trace (send_email Ex.env_full Scenario.world_login_refused
                           "Hi" "Body" ["a@example.org"] (Some [Ex.hello])
                           false))
  ∧ last (smtp_ops (trace (send_email Ex.env_full
                             Scenario.world_login_refused "Hi" "Body"
                             ["a@example.org"] (Some [Ex.hello]) false)))
    = Some smtp_quit.
Proof.
  assert (Hcfg : outcome (get_smtp_config Ex.env_full)
                 = Ok Scenario.cfg_full) by reflexivity.
  assert (Hps : mapM attachment_part (default [] (Some [Ex.hello]))
                = Some [Scenario.hello_part]) by reflexivity.
  split; [exact Hcfg|]. split; [exact Hps|].
  destruct (send_email_failure_modes Ex.env_full Scenario.world_login_refused
              "Hi" "Body" ["a@example.org"] (Some [Ex.hello]) false
              Scenario.cfg_full [Scenario.hello_part] Hcfg Hps)
    as (_ & Hquit & Hlogin & _).
  destruct (Hlogin (SMTPAuthenticationError "535 bad credentials")
              eq_refl eq_refl eq_refl eq_refl) as [Ho Hno].
  split; [exact Ho|]. split; [exact Hno|]. exact (Hquit eq_refl).
Defined.

(** ** X13 *)

Lemma relay_receives_valid_message_witness :
  Enter fn_send_email
    ∈ trace (post_send_email Ex.env_full Ex.world Ex.req_private Ex.body_ok)
  ∧ ∃ k er,
      outcome (access_gate Ex.env_full Ex.req_private) = Ok k
      ∧ outcome (validate_body Ex.body_ok) = Ok er
      ∧ recipients er ≠ []
      ∧ mapM validate_email (recipients Ex.body_ok) = Some (recipients er)
      ∧ subject_in_bounds Ex.body_ok ∧ body_non_empty Ex.body_ok
      ∧ ∀ msg, Smtp (smtp_send_message msg)
                 ∈ trace (post_send_email Ex.env_full Ex.world
                            Ex.req_private Ex.body_ok) →
               msg_To msg = Py.join ", " (recipients er)
               ∧ msg_Subject msg = subject Ex.body_ok.
Proof.
  assert (Hin : Enter fn_send_email
                  ∈ trace (post_send_email Ex.env_full Ex.world
                             Ex.req_private Ex.body_ok)) by in_list.
  split; [exact Hin|].
  exact (relay_receives_valid_message Ex.env_full Ex.world Ex.req_private
           Ex.body_ok Hin).
Defined.

(** ** X15 *)

Lemma health_check_hides_secrets_witness :
  Py.truthy (Ex.env_full !! "SMTP_PASSWORD") = true
  ∧ health_check (<["SMTP_PASSWORD" := "another"]> Ex.env_full)
    = health_check Ex.env_full.
Proof.
  split; [reflexivity|].
  assert (Hin : "SMTP_PASSWORD" ∈ ["SMTP_PASSWORD"; "SMTP_USER"; "API_KEY"])
    by repeat constructor.
  exact (health_check_hides_secrets Ex.env_full "SMTP_PASSWORD" "another"
           Hin eq_refl ltac:(discriminate)).
Defined.

End FurtherExamples.
